(** * Excel Chart Weaver: the report engine, embedded and verified

    A shallow embedding of the column classification, eligibility and
    aggregation code of the three reports (monthly, project, purchase
    order), of the page state (loaded worksheets, loaded file names, active
    worksheet) and of the upload handler, then of the month pickers, the
    dashboard counters, the report table, the chart data and the export,
    followed by the properties of the design specification that were
    checked against it and by further properties of the code.

    Conventions.
    - A JavaScript [number] is a type parameter [num] with the operations the
      code applies to it ([+], [-] followed by a sign test, truthiness,
      [String(_)]); the embedding is instantiated with exact integers
      ([IntNum]) and, for addition and the sign test, with IEEE binary64
      ([F64]).
    - A [Date] is its time value in milliseconds, read in local time (the
      environment has a fixed offset, which is folded into the time value);
      an Invalid Date is [None].  The calendar functions follow the
      definitions of ECMA-262 (Day, DayFromYear, MonthFromTime, MakeDay).
    - [Date.parse] on strings is implementation-defined and therefore a
      parameter; a reference instance, an engine at UTC on the ISO forms
      YYYY-MM-DD and YYYY-MM-DDTHH:MM, evaluates the examples.
    - [Map<string, number>] is an association list in insertion order;
      [Array.prototype.sort] is a stable insertion sort.
    - A handler that closes over component state reads the state of the
      render that created it and writes to the current state. *)

From Stdlib Require Import ZArith List String Ascii Bool Lia.
From Stdlib Require Import Permutation Sorted.
From Stdlib Require Import DecimalString DecimalZ DecimalPos.
From Stdlib Require PrimFloat Uint63 FloatAxioms.
Import ListNotations.

Open Scope string_scope.
Open Scope Z_scope.

(* ================================================================== *)
(** ** Runtime primitives *)
(* ================================================================== *)

Module Js.

(** *** Strings *)

(** [String(n)] for an integral number: decimal digits, a minus sign for
    negative values. *)
Definition Z_toString (n : Z) : string :=
  NilZero.string_of_int (Z.to_int n).

Fixpoint repeat_char (c : ascii) (n : nat) : string :=
  match n with
  | O => ""
  | S k => String c (repeat_char c k)
  end.

(** [s.padStart(len, c)] with a one-character filler. *)
Definition padStart (len : nat) (c : ascii) (s : string) : string :=
  repeat_char c (len - String.length s) ++ s.

(** [s.split(c)] with a one-character separator: never empty. *)
Fixpoint split (sep : ascii) (s : string) : list string :=
  match s with
  | "" => [""]
  | String c rest =>
      if Ascii.eqb c sep then "" :: split sep rest
      else match split sep rest with
           | [] => [String c ""]
           | w :: ws => String c w :: ws
           end
  end.

(** Array destructuring [const [a, b] = xs]: a missing element is
    [undefined], here [None]. *)
Definition nth_elem (i : nat) (xs : list string) : option string :=
  nth_error xs i.

Definition is_digit (c : ascii) : bool :=
  let n := nat_of_ascii c in (48 <=? n)%nat && (n <=? 57)%nat.

Definition is_space (c : ascii) : bool :=
  let n := nat_of_ascii c in
  (n =? 32)%nat || ((9 <=? n)%nat && (n <=? 13)%nat).

Fixpoint digit_prefix (s : string) : string :=
  match s with
  | String c rest => if is_digit c then String c (digit_prefix rest) else ""
  | "" => ""
  end.

Fixpoint skip_spaces (s : string) : string :=
  match s with
  | String c rest => if is_space c then skip_spaces rest else s
  | "" => ""
  end.

Definition hex_val (c : ascii) : option Z :=
  let n := Z.of_nat (nat_of_ascii c) in
  if (48 <=? n) && (n <=? 57) then Some (n - 48)
  else if (97 <=? n) && (n <=? 102) then Some (n - 87)
  else if (65 <=? n) && (n <=? 70) then Some (n - 55)
  else None.

Fixpoint hex_prefix (s : string) (seen : bool) (acc : Z) : option Z :=
  match s with
  | String c rest =>
      match hex_val c with
      | Some d => hex_prefix rest true (16 * acc + d)
      | None => if seen then Some acc else None
      end
  | "" => if seen then Some acc else None
  end.

Definition parse_decimal (s : string) : option Z :=
  match digit_prefix s with
  | "" => None
  | ds => option_map Z.of_uint (NilEmpty.uint_of_string ds)
  end.

Definition parse_magnitude (s : string) : option Z :=
  match s with
  | String c0 (String c1 rest) =>
      if Ascii.eqb c0 "0" && (Ascii.eqb c1 "x" || Ascii.eqb c1 "X")
      then hex_prefix rest false 0
      else parse_decimal s
  | _ => parse_decimal s
  end.

(** [parseInt(s)] without a radix: leading white space, an optional sign,
    an optional [0x] prefix, then the longest prefix of digits; [NaN]
    ([None]) when there is none.  [parseInt(undefined)] is [NaN]. *)
Definition parseInt (s : option string) : option Z :=
  match s with
  | None => None
  | Some s =>
      match skip_spaces s with
      | String c rest =>
          if Ascii.eqb c "-" then option_map Z.opp (parse_magnitude rest)
          else if Ascii.eqb c "+" then parse_magnitude rest
          else parse_magnitude (String c rest)
      | "" => None
      end
  end.

(** Lower-casing of the ASCII letters, as the [i] flag of a regular
    expression over an ASCII pattern requires. *)
Definition lower (c : ascii) : ascii :=
  let n := nat_of_ascii c in
  if (65 <=? n)%nat && (n <=? 90)%nat then ascii_of_nat (n + 32) else c.

Fixpoint lower_string (s : string) : string :=
  match s with
  | "" => ""
  | String c rest => String (lower c) (lower_string rest)
  end.

Fixpoint contains (pat s : string) : bool :=
  String.prefix pat s
  || match s with
     | "" => false
     | String _ rest => contains pat rest
     end.

(** *** [Map<string, V>] in insertion order *)

Section MapOps.
Context {V : Type}.

Definition JsMap := list (string * V).

Fixpoint map_get (m : JsMap) (k : string) : option V :=
  match m with
  | [] => None
  | (k', v) :: rest => if String.eqb k' k then Some v else map_get rest k
  end.

Definition map_has (m : JsMap) (k : string) : bool :=
  match map_get m k with Some _ => true | None => false end.

(** [m.set(k, v)]: an existing key keeps its position. *)
Fixpoint map_set (m : JsMap) (k : string) (v : V) : JsMap :=
  match m with
  | [] => [(k, v)]
  | (k', v') :: rest =>
      if String.eqb k' k then (k', v) :: rest
      else (k', v') :: map_set rest k v
  end.

(** [Array.from(m.entries())] *)
Definition map_entries (m : JsMap) : list (string * V) := m.
End MapOps.

Arguments JsMap V : clear implicits.

(** *** [Array.prototype.sort] *)

Section Sort.
Context {A : Type}.
(** [gt a b] holds when the comparator returns a value greater than zero
    on [(a, b)]; a [NaN] result counts as zero. *)
Variable gt : A -> A -> bool.

Fixpoint sort_insert (x : A) (l : list A) : list A :=
  match l with
  | [] => [x]
  | y :: rest => if gt x y then y :: sort_insert x rest else x :: y :: rest
  end.

(** The sort is stable; with a consistent comparator every conforming
    implementation returns this list. *)
Fixpoint sort (l : list A) : list A :=
  match l with
  | [] => []
  | x :: rest => sort_insert x (sort rest)
  end.
End Sort.

(** [xs.map((x, index) => f x index)] *)
Fixpoint mapi_from {A B : Type} (f : A -> nat -> B) (i : nat) (l : list A)
  : list B :=
  match l with
  | [] => []
  | x :: rest => f x i :: mapi_from f (S i) rest
  end.

Definition mapi {A B : Type} (f : A -> nat -> B) (l : list A) : list B :=
  mapi_from f 0%nat l.

(** *** [Set<string>] in insertion order *)

(** [s.add(x)] *)
Definition set_add (s : list string) (x : string) : list string :=
  if existsb (String.eqb x) s then s else (s ++ [x])%list.

(** [[...new Set(l)]] *)
Definition set_of (l : list string) : list string := fold_left set_add l [].

End Js.

(* ================================================================== *)
(** ** Dates (ECMA-262, section "Date objects") *)
(* ================================================================== *)

Module JsDate.

Definition msPerDay : Z := 86400000.

Definition Day (t : Z) : Z := t / msPerDay.
Definition TimeWithinDay (t : Z) : Z := t mod msPerDay.

Definition DaysInYear (y : Z) : Z :=
  if negb (y mod 4 =? 0) then 365
  else if negb (y mod 100 =? 0) then 366
  else if negb (y mod 400 =? 0) then 365
  else 366.

Definition DayFromYear (y : Z) : Z :=
  365 * (y - 1970) + (y - 1969) / 4 - (y - 1901) / 100 + (y - 1601) / 400.

Definition TimeFromYear (y : Z) : Z := msPerDay * DayFromYear y.

(** The largest [y] with [TimeFromYear y <= t]: the mean year length gives
    an estimate that is off by one at most. *)
Definition YearFromDay (d : Z) : Z :=
  let y0 := 1970 + (d * 400) / 146097 in
  if d <? DayFromYear y0 then y0 - 1
  else if DayFromYear (y0 + 1) <=? d then y0 + 1
  else y0.

Definition YearFromTime (t : Z) : Z := YearFromDay (Day t).

Definition InLeapYear (t : Z) : Z :=
  if DaysInYear (YearFromTime t) =? 366 then 1 else 0.

Definition DayWithinYear (t : Z) : Z :=
  Day t - DayFromYear (YearFromTime t).

Definition MonthFromTime (t : Z) : Z :=
  let d := DayWithinYear t in
  let leap := InLeapYear t in
  if d <? 31 then 0
  else if d <? 59 + leap then 1
  else if d <? 90 + leap then 2
  else if d <? 120 + leap then 3
  else if d <? 151 + leap then 4
  else if d <? 181 + leap then 5
  else if d <? 212 + leap then 6
  else if d <? 243 + leap then 7
  else if d <? 273 + leap then 8
  else if d <? 304 + leap then 9
  else if d <? 334 + leap then 10
  else 11.

(** Days from the start of year [y] to the start of its month [mn]
    (0-based). *)
Definition DaysBeforeMonth (y mn : Z) : Z :=
  let leap := if DaysInYear y =? 366 then 1 else 0 in
  if mn <=? 0 then 0
  else if mn =? 1 then 31
  else if mn =? 2 then 59 + leap
  else if mn =? 3 then 90 + leap
  else if mn =? 4 then 120 + leap
  else if mn =? 5 then 151 + leap
  else if mn =? 6 then 181 + leap
  else if mn =? 7 then 212 + leap
  else if mn =? 8 then 243 + leap
  else if mn =? 9 then 273 + leap
  else if mn =? 10 then 304 + leap
  else 334 + leap.

Definition DateFromTime (t : Z) : Z :=
  DayWithinYear t - DaysBeforeMonth (YearFromTime t) (MonthFromTime t) + 1.

(** [MakeDay(year, month, date)]: the month is carried into the year, the
    date is an offset from the first of the month. *)
Definition MakeDay (year month date : Z) : Z :=
  let ym := year + month / 12 in
  let mn := month mod 12 in
  DayFromYear ym + DaysBeforeMonth ym mn + date - 1.

Definition MakeDate (day time : Z) : Z := day * msPerDay + time.

(** [TimeClip]: a time value beyond 8.64e15 ms is not a date. *)
Definition TimeClip (t : Z) : option Z :=
  if Z.abs t <=? 8640000000000000 then Some t else None.

(** [new Date(year, month, date)] in local time.  A year from 0 to 99 is
    taken as 1900 + year; a [NaN] argument gives an Invalid Date. *)
Definition new_Date (year month date : option Z) : option Z :=
  match year, month, date with
  | Some y, Some m, Some d =>
      let yr := if (0 <=? y) && (y <=? 99) then 1900 + y else y in
      TimeClip (MakeDate (MakeDay yr m d) 0)
  | _, _, _ => None
  end.

Definition getFullYear (t : Z) : Z := YearFromTime t.
Definition getMonth (t : Z) : Z := MonthFromTime t.
Definition getDate (t : Z) : Z := DateFromTime t.

Definition DaysInMonth (y mn : Z) : Z :=
  if mn =? 11 then 31 else DaysBeforeMonth y (mn + 1) - DaysBeforeMonth y mn.

(** A time value from local calendar fields (month from 1, as written),
    for writing examples. *)
Definition at_local (y m d hh mm : Z) : Z :=
  MakeDate (MakeDay y (m - 1) d) ((hh * 60 + mm) * 60000).

(** Reference instance of [Date.parse], for the examples: an engine whose
    local time zone is UTC, on the two ISO forms [YYYY-MM-DD] and
    [YYYY-MM-DDTHH:MM].  ECMA-262 reads the first as midnight UTC and the
    second as local time; at UTC both are the time values computed here.
    Every other string is rejected, which an engine need not do: the
    statements that hold of every engine take [Date.parse] as a parameter,
    and this instance only evaluates examples written in the two forms. *)
Definition all_digits (n : nat) (s : string) : bool :=
  (String.length s =? n)%nat && String.eqb (Js.digit_prefix s) s.

Definition iso_field (n : nat) (s : string) : option Z :=
  if all_digits n s then Js.parseInt (Some s) else None.

Definition iso_day (s : string) : option Z :=
  match Js.split "-" s with
  | [ys; ms; ds] =>
      match iso_field 4 ys, iso_field 2 ms, iso_field 2 ds with
      | Some y, Some m, Some d =>
          if (1 <=? m) && (m <=? 12) && (1 <=? d)
             && (d <=? DaysInMonth y (m - 1))
          then Some (MakeDay y (m - 1) d)
          else None
      | _, _, _ => None
      end
  | _ => None
  end.

Definition iso_time (s : string) : option Z :=
  match Js.split ":" s with
  | [hs; ms] =>
      match iso_field 2 hs, iso_field 2 ms with
      | Some h, Some m =>
          if (h <=? 23) && (m <=? 59) then Some ((h * 60 + m) * 60000)
          else None
      | _, _ => None
      end
  | _ => None
  end.

Definition iso_parse (s : string) : option Z :=
  match Js.split "T" s with
  | [d] => option_map (fun day => MakeDate day 0) (iso_day d)
  | [d; t] =>
      match iso_day d, iso_time t with
      | Some day, Some ms => Some (MakeDate day ms)
      | _, _ => None
      end
  | _ => None
  end.

End JsDate.

Import Js JsDate.

(* ================================================================== *)
(** ** Data model (types/excel.ts) *)
(* ================================================================== *)

Section Engine.

(** The number type of the runtime and what the code asks of it. *)
Variable num : Type.
Variable num_add : num -> num -> num.
Variable num_sub : num -> num -> num.
(** [n > 0] *)
Variable num_gt0 : num -> bool.
(** [!!n]: neither zero nor [NaN] *)
Variable num_truthy : num -> bool.
(** [String(n)] *)
Variable num_toString : num -> string.

(** [Date.parse(s)], [None] for [NaN]; [String(d)] on a date. *)
Variable Date_parse : string -> option Z.
Variable Date_toString : Z -> string.

(** [CellValue.value]; [VUndefined] is what [row[h]?.value] gives on a
    missing cell.  A date cell holds a valid time value. *)
Inductive Value : Type :=
| VString (s : string)
| VNumber (n : num)
| VBoolean (b : bool)
| VDate (t : Z)
| VNull
| VUndefined.

Record CellValue : Type := {
  value : Value;
  formatted : option string
}.

(** [Record<string, CellValue>] *)
Definition Row : Type := list (string * CellValue).

Record WorksheetData : Type := {
  name : string;
  fileName : string;
  headers : list string;
  data : list Row;
  rawData : list (list Value)
}.

Fixpoint row_lookup (row : Row) (header : string) : option CellValue :=
  match row with
  | [] => None
  | (h, c) :: rest =>
      if String.eqb h header then Some c else row_lookup rest header
  end.

(** [row[header]?.value] *)
Definition cell (row : Row) (header : string) : Value :=
  match row_lookup row header with
  | Some c => value c
  | None => VUndefined
  end.

Definition is_string (v : Value) : bool :=
  match v with VString _ => true | _ => false end.

Definition is_number (v : Value) : bool :=
  match v with VNumber _ => true | _ => false end.

Definition is_Date (v : Value) : bool :=
  match v with VDate _ => true | _ => false end.

(** [!!v] *)
Definition truthy (v : Value) : bool :=
  match v with
  | VString s => negb (String.eqb s "")
  | VNumber n => num_truthy n
  | VBoolean b => b
  | VDate _ => true
  | VNull | VUndefined => false
  end.

(** [String(v)] for a truthy value. *)
Definition toString (v : Value) : string :=
  match v with
  | VString s => s
  | VNumber n => num_toString n
  | VBoolean b => if b then "true" else "false"
  | VDate t => Date_toString t
  | VNull => "null"
  | VUndefined => "undefined"
  end.

(** A piece of component state of type [string | null]. *)
Definition selected (s : option string) : bool :=
  match s with
  | Some s => negb (String.eqb s "")
  | None => false
  end.

(** A destructured string inside a template literal. *)
Definition interpolate (s : option string) : string :=
  match s with Some s => s | None => "undefined" end.

(** The key the three reports give a worksheet in their selector:
    [`${sheet.fileName}-${sheet.name}`]. *)
Definition sheetId (sheet : WorksheetData) : string :=
  fileName sheet ++ "-" ++ name sheet.

Definition selectedSheetData (excelData : list WorksheetData)
    (selectedSheet : option string) : option WorksheetData :=
  match selectedSheet with
  | None => None
  | Some id =>
      if String.eqb id "" then None
      else find (fun sheet => String.eqb (sheetId sheet) id) excelData
  end.

(** The shape the report tables and charts take (MonthlyDataPoint). *)
Record MonthlyDataPoint : Type := {
  monthKey : string;
  month : string;
  total : num;
  date : option Z;
  source : option string
}.

(** The conversion every report applies to the date cell of a row:
    nothing for a falsy cell, a string goes through the parser and is
    dropped when invalid, a date is taken as it is, any other type is
    dropped. *)
Definition row_date (row : Row) (dateColumn : string) : option Z :=
  let dateValue := cell row dateColumn in
  if negb (truthy dateValue) then None
  else match dateValue with
       | VString s => Date_parse s
       | VDate t => Some t
       | _ => None
       end.

Definition pad2 (n : Z) : string := padStart 2 "0" (Z_toString n).

(** [`${date.getFullYear()}-${String(date.getMonth() + 1).padStart(2, '0')}`] *)
Definition monthKeyOf (d : Z) : string :=
  Z_toString (getFullYear d) ++ "-" ++ pad2 (getMonth d + 1).

(** [`${String(date.getMonth() + 1).padStart(2, '0')}/${date.getFullYear()}`] *)
Definition monthYearOf (d : Z) : string :=
  pad2 (getMonth d + 1) ++ "/" ++ Z_toString (getFullYear d).

(** Adding a value under a key of a [Map<string, number>]. *)
Definition accumulate (m : JsMap num) (key : string) (v : num)
  : JsMap num :=
  match map_get m key with
  | Some old => map_set m key (num_add old v)
  | None => map_set m key v
  end.

(** [(a, b) => a.date.getTime() - b.date.getTime()], greater than 0. *)
Definition by_date (a b : MonthlyDataPoint) : bool :=
  match date a, date b with
  | Some ta, Some tb => 0 <? ta - tb
  | _, _ => false
  end.

(** [(a, b) => b.total - a.total], greater than 0. *)
Definition by_total_desc (a b : MonthlyDataPoint) : bool :=
  num_gt0 (num_sub (total b) (total a)).

(** A month key back to a bucket: [monthKey.split('-')], then the label
    and the first day of the month. *)
Definition month_bucket (src : option string) (entry : string * num)
  : MonthlyDataPoint :=
  let (key, sum) := entry in
  let parts := split "-" key in
  let year := nth_elem 0 parts in
  let mon := nth_elem 1 parts in
  {| monthKey := key;
     month := interpolate mon ++ "/" ++ interpolate year;
     total := sum;
     date := new_Date (parseInt year)
                      (option_map (fun m => m - 1) (parseInt mon))
                      (Some 1);
     source := src |}.

(* ================================================================ *)
(** ** Monthly report (MonthlyReport.tsx) *)
(* ================================================================ *)

Definition first_row_some (sheet : WorksheetData) (p : Value -> bool)
  : bool :=
  match data sheet with
  | [] => false
  | row0 :: _ => existsb (fun header => p (cell row0 header)) (headers sheet)
  end.

Definition monthly_eligible (sheet : WorksheetData) : bool :=
  match headers sheet, data sheet with
  | [], _ | _, [] => false
  | _, _ =>
      let hasDateColumn :=
        first_row_some sheet (fun v => is_string v || is_Date v) in
      let hasNumericColumn := first_row_some sheet is_number in
      hasDateColumn && hasNumericColumn
  end.

Definition monthly_eligibleSheets (excelData : list WorksheetData)
  : list WorksheetData :=
  filter monthly_eligible excelData.

(** The sample of a column: the cells of the first [min(5, length)]
    rows. *)
Definition sample (sheet : WorksheetData) (header : string) : list Value :=
  map (fun row => cell row header) (firstn 5 (data sheet)).

(** [value instanceof Date || (typeof value === 'string' &&
    !isNaN(Date.parse(value)))] *)
Definition date_like (v : Value) : bool :=
  match v with
  | VDate _ => true
  | VString s => match Date_parse s with Some _ => true | None => false end
  | _ => false
  end.

Record MonthlyColumns : Type := {
  m_dateColumns : list string;
  m_valueColumns : list string
}.

Definition monthly_columns (excelData : list WorksheetData)
    (selectedSheet : option string) : MonthlyColumns :=
  match selectedSheetData excelData selectedSheet with
  | None => {| m_dateColumns := []; m_valueColumns := [] |}
  | Some sheet =>
      {| m_dateColumns :=
           filter (fun h => existsb date_like (sample sheet h))
                  (headers sheet);
         m_valueColumns :=
           filter (fun h => existsb is_number (sample sheet h))
                  (headers sheet) |}
  end.

(** The body of [selectedSheetData.data.forEach(row => ...)]. *)
Definition monthly_row (dateColumn valueColumn : string)
    (monthlyMap : JsMap num) (row : Row) : JsMap num :=
  match row_date row dateColumn with
  | None => monthlyMap
  | Some d =>
      let key := monthKeyOf d in
      match cell row valueColumn with
      | VNumber v => accumulate monthlyMap key v
      | _ => monthlyMap
      end
  end.

Definition monthlyData (excelData : list WorksheetData)
    (selectedSheet dateColumn valueColumn : option string)
  : list MonthlyDataPoint :=
  let canViewReport :=
    selected selectedSheet && selected dateColumn && selected valueColumn in
  match selectedSheetData excelData selectedSheet, dateColumn, valueColumn
  with
  | Some sheet, Some dc, Some vc =>
      if canViewReport then
        let monthlyMap := fold_left (monthly_row dc vc) (data sheet) [] in
        sort by_date
             (map (month_bucket (Some (fileName sheet)))
                  (map_entries monthlyMap))
      else []
  | _, _, _ => []
  end.

(* ================================================================ *)
(** ** Project report (ProjectReport.tsx) *)
(* ================================================================ *)

Definition project_eligible (sheet : WorksheetData) : bool :=
  match headers sheet, data sheet with
  | [], _ | _, [] => false
  | _, _ =>
      let hasStringColumns := first_row_some sheet is_string in
      let hasDateColumn :=
        first_row_some sheet (fun v => is_string v || is_Date v) in
      let hasNumericColumn := first_row_some sheet is_number in
      hasStringColumns && hasDateColumn && hasNumericColumn
  end.

Definition project_eligibleSheets (excelData : list WorksheetData)
  : list WorksheetData :=
  filter project_eligible excelData.

Record DataPoint : Type := {
  p_date : Z;
  p_value : num;
  p_month : string;
  p_monthKey : string
}.

(** The body of the loop over the rows: a row of the selected project,
    with a date (of the selected month when one is selected) and a
    numeric value, is pushed to [dataPoints]. *)
Definition project_row (projectColumn dateColumn valueColumn : string)
    (selectedProject : string) (selectedMonth : option string)
    (dataPoints : list DataPoint) (row : Row) : list DataPoint :=
  match cell row projectColumn with
  | VString projectValue =>
      if negb (String.eqb projectValue selectedProject) then dataPoints
      else
        match row_date row dateColumn with
        | None => dataPoints
        | Some d =>
            let monthYear := monthYearOf d in
            if selected selectedMonth
               && negb (String.eqb monthYear (interpolate selectedMonth))
            then dataPoints
            else
              match cell row valueColumn with
              | VNumber v =>
                  dataPoints ++
                    [{| p_date := d; p_value := v; p_month := monthYear;
                        p_monthKey := monthKeyOf d |}]
              | _ => dataPoints
              end
        end
  | _ => dataPoints
  end.

Definition point_bucket (point : DataPoint) : MonthlyDataPoint :=
  {| monthKey := p_monthKey point;
     month := p_month point;
     total := p_value point;
     date := Some (p_date point);
     source := None |}.

Definition projectData (excelData : list WorksheetData)
    (selectedSheet projectColumn dateColumn valueColumn
     selectedProject selectedMonth : option string)
  : list MonthlyDataPoint :=
  let canViewReport :=
    selected selectedSheet && selected projectColumn
    && selected dateColumn && selected valueColumn
    && selected selectedProject in
  match selectedSheetData excelData selectedSheet,
        projectColumn, dateColumn, valueColumn, selectedProject with
  | Some sheet, Some pc, Some dc, Some vc, Some proj =>
      if canViewReport then
        let dataPoints :=
          fold_left (project_row pc dc vc proj selectedMonth)
                    (data sheet) [] in
        if negb (selected selectedMonth) then
          let monthlyMap :=
            fold_left
              (fun m point => accumulate m (p_monthKey point) (p_value point))
              dataPoints [] in
          sort by_date (map (month_bucket None) (map_entries monthlyMap))
        else
          sort by_date (map point_bucket dataPoints)
      else []
  | _, _, _, _, _ => []
  end.

(* ================================================================ *)
(** ** Purchase-order report (PurchaseOrdersReport.tsx) *)
(* ================================================================ *)

Definition po_eligible (sheet : WorksheetData) : bool :=
  match headers sheet, data sheet with
  | [], _ | _, [] => false
  | _, _ =>
      let hasPoColumn :=
        first_row_some sheet (fun v => is_string v || is_number v) in
      let hasDateColumn :=
        first_row_some sheet (fun v => is_string v || is_Date v) in
      let hasNumericColumn := first_row_some sheet is_number in
      hasPoColumn && hasDateColumn && hasNumericColumn
  end.

Definition po_eligibleSheets (excelData : list WorksheetData)
  : list WorksheetData :=
  filter po_eligible excelData.

(** [/order|po|purchase/i.test(header)] *)
Definition po_header (header : string) : bool :=
  let h := lower_string header in
  contains "order" h || contains "po" h || contains "purchase" h.

Record PoColumns : Type := {
  poColumns : list string;
  dateColumns : list string;
  valueColumns : list string
}.

Definition push_if (b : bool) (xs : list string) (x : string)
  : list string :=
  if b then xs ++ [x] else xs.

(** The body of [sheet.headers.forEach(header => ...)].  After the loop
    over the sample the code reads [sheet.data[0][header]], which throws
    on a worksheet without rows: [None]. *)
Definition po_classify (sheet : WorksheetData) (acc : option PoColumns)
    (header : string) : option PoColumns :=
  match acc with
  | None => None
  | Some cols =>
      let values := sample sheet header in
      let hasPo :=
        existsb (fun v => (is_string v && po_header header)
                          || (is_number v && po_header header)) values in
      let hasDate := existsb date_like values in
      let hasNumber := existsb is_number values in
      match data sheet with
      | [] => None
      | row0 :: _ =>
          Some
            {| poColumns :=
                 push_if (hasPo || (is_string (cell row0 header)
                                    && po_header header))
                         (poColumns cols) header;
               dateColumns := push_if hasDate (dateColumns cols) header;
               valueColumns :=
                 push_if (hasNumber && negb hasPo) (valueColumns cols) header
            |}
      end
  end.

Definition no_columns : PoColumns :=
  {| poColumns := []; dateColumns := []; valueColumns := [] |}.

Definition po_columns (excelData : list WorksheetData)
    (selectedSheet : option string) : option PoColumns :=
  match selectedSheetData excelData selectedSheet with
  | None => Some no_columns
  | Some sheet => fold_left (po_classify sheet) (headers sheet)
                            (Some no_columns)
  end.

(** [date < bound] and [date > bound] against a date that may be
    invalid: a comparison with [NaN] is false. *)
Definition before (d : Z) (bound : option Z) : bool :=
  match bound with Some b => d <? b | None => false end.

Definition after (d : Z) (bound : option Z) : bool :=
  match bound with Some b => b <? d | None => false end.

(** [new Date(parseInt(year), parseInt(month) - 1, 1)] and
    [new Date(parseInt(year), parseInt(month), 0)] from
    [selectedMonth.split('-')]. *)
Definition po_startDate (selectedMonth : string) : option Z :=
  let parts := split "-" selectedMonth in
  new_Date (parseInt (nth_elem 0 parts))
           (option_map (fun m => m - 1) (parseInt (nth_elem 1 parts)))
           (Some 1).

Definition po_endDate (selectedMonth : string) : option Z :=
  let parts := split "-" selectedMonth in
  new_Date (parseInt (nth_elem 0 parts))
           (parseInt (nth_elem 1 parts))
           (Some 0).

(** The body of the loop over the rows. *)
Definition po_row (poColumn dateColumn valueColumn : string)
    (startDate endDate : option Z)
    (poMap : JsMap num) (row : Row) : JsMap num :=
  match row_date row dateColumn with
  | None => poMap
  | Some d =>
      if before d startDate || after d endDate then poMap
      else
        let poValue := cell row poColumn in
        if negb (truthy poValue) then poMap
        else
          let poId := toString poValue in
          match cell row valueColumn with
          | VNumber v => accumulate poMap poId v
          | _ => poMap
          end
  end.

(** [now] is the clock read by [new Date()] for the dummy date. *)
Definition po_bucket (now : Z) (entry : string * num) (index : nat)
  : MonthlyDataPoint :=
  let (poId, sum) := entry in
  {| monthKey := Z_toString (Z.of_nat index);
     month := poId;
     total := sum;
     date := Some now;
     source := None |}.

Definition poData (now : Z) (excelData : list WorksheetData)
    (selectedSheet poColumn dateColumn valueColumn selectedMonth
     : option string)
  : list MonthlyDataPoint :=
  let canViewReport :=
    selected selectedSheet && selected poColumn && selected dateColumn
    && selected valueColumn && selected selectedMonth in
  match selectedSheetData excelData selectedSheet,
        poColumn, dateColumn, valueColumn, selectedMonth with
  | Some sheet, Some pc, Some dc, Some vc, Some sm =>
      if canViewReport then
        let startDate := po_startDate sm in
        let endDate := po_endDate sm in
        let poMap :=
          fold_left (po_row pc dc vc startDate endDate) (data sheet) [] in
        sort by_total_desc (mapi (po_bucket now) (map_entries poMap))
      else []
  | _, _, _, _, _ => []
  end.

(* ================================================================ *)
(** ** Page state (pages/Index.tsx) *)
(* ================================================================ *)

Record PageState : Type := {
  excelData : list WorksheetData;
  activeFile : option string;
  fileNames : list string
}.

Inductive Toast : Type :=
| ToastError (msg : string)
| ToastSuccess (msg : string)
| ToastInfo (msg : string).

(** [handleExcelData] is a closure over the state of the render that
    created it ([seen]); its setters replace the fields of the current
    state ([st]). *)
Definition handleExcelData (seen : PageState)
    (newData : list WorksheetData) (file : string) (st : PageState)
  : PageState * list Toast :=
  if existsb (String.eqb file) (fileNames seen) then
    (st, [ToastError ("File " ++ file ++ " is already loaded")])
  else
    let first :=
      match newData with
      | [] => None
      | sheet :: _ =>
          if String.eqb (name sheet) "" then None else Some (name sheet)
      end in
    ({| excelData := excelData seen ++ newData;
        activeFile :=
          if negb (selected (activeFile seen)) then first
          else activeFile st;
        fileNames := fileNames seen ++ [file] |},
     [ToastSuccess ("Successfully loaded " ++ file)]).

(** [excelData.find(sheet => sheet.name === activeFile)] *)
Definition getActiveWorksheet (st : PageState) : option WorksheetData :=
  find (fun sheet =>
          match activeFile st with
          | Some a => String.eqb (name sheet) a
          | None => false
          end)
       (excelData st).

(** The worksheet selector renders one option per loaded worksheet, with
    [value={sheet.name}]; choosing the option at position [i] runs
    [setActiveFile(e.target.value)]. *)
Definition chooseWorksheet (i : nat) (st : PageState) : PageState :=
  match nth_error (excelData st) i with
  | Some sheet =>
      {| excelData := excelData st;
         activeFile := Some (name sheet);
         fileNames := fileNames st |}
  | None => st
  end.

Definition handleClearData (st : PageState) : PageState * list Toast :=
  ({| excelData := []; activeFile := None; fileNames := [] |},
   [ToastInfo "All data has been cleared"]).

(* ================================================================ *)
(** ** Upload (components/FileUploader.tsx) *)
(* ================================================================ *)

(** What the decoding library returns for a file: [None] when [read]
    throws, otherwise for each sheet its name, the rows of
    [sheet_to_json] (objects, as key/value lists) and the raw grid. *)
Record DecodedSheet : Type := {
  sheetName : string;
  jsonData : list (list (string * Value));
  grid : list (list Value)
}.

Record File : Type := {
  file_name : string;
  workbook : option (list DecodedSheet)
}.

Inductive Event : Type :=
| SetIsLoading (b : bool)
| Decode (file : string)
| Notify (t : Toast)
| ConsoleError (file : string)
| ResetInput.

Fixpoint json_lookup (row : list (string * Value)) (header : string)
  : Value :=
  match row with
  | [] => VUndefined
  | (h, v) :: rest =>
      if String.eqb h header then v else json_lookup rest header
  end.

Definition processedRow (hs : list string) (row : list (string * Value))
  : Row :=
  map (fun header =>
         let v := json_lookup row header in
         (header,
          {| value := v;
             formatted :=
               Some match v with
                    | VNull | VUndefined => ""
                    | _ => toString v
                    end |}))
      hs.

Definition worksheetOf (file : string) (sheet : DecodedSheet)
  : list WorksheetData :=
  match jsonData sheet with
  | [] => []
  | row0 :: _ =>
      let hs := map fst row0 in
      [{| name := sheetName sheet;
          fileName := file;
          headers := hs;
          data := map (processedRow hs) (jsonData sheet);
          rawData := grid sheet |}]
  end.

Definition processExcelFile (file : File)
  : option (list WorksheetData) * list Event :=
  match workbook file with
  | None =>
      (None,
       [Decode (file_name file); ConsoleError (file_name file);
        Notify (ToastError ("Error processing file " ++ file_name file
                            ++ ". Please try again."))])
  | Some sheets =>
      match flat_map (worksheetOf (file_name file)) sheets with
      | [] =>
          (None,
           [Decode (file_name file);
            Notify (ToastError ("No valid data found in the file: "
                                ++ file_name file))])
      | worksheetsData => (Some worksheetsData, [Decode (file_name file)])
      end
  end.

(** [file.name.split('.').pop()?.toLowerCase()] is one of the three
    extensions. *)
Definition accepted (file : File) : bool :=
  let fileExtension := lower_string (last (split "." (file_name file)) "") in
  String.eqb fileExtension "xlsx" || String.eqb fileExtension "xls"
  || String.eqb fileExtension "csv".

Definition lift (ts : list Toast) : list Event := map Notify ts.

(** One turn of the sequential loop.  [onDataExtracted] is the prop the
    handler captured when the upload started. *)
Definition upload_one
    (onDataExtracted : list WorksheetData -> string -> PageState ->
                       PageState * list Toast)
    (acc : PageState * list Event) (file : File)
  : PageState * list Event :=
  let (st, log) := acc in
  match processExcelFile file with
  | (Some worksheetsData, ev) =>
      let (st', ts) := onDataExtracted worksheetsData (file_name file) st in
      (st', (log ++ ev ++ lift ts
             ++ [Notify (ToastSuccess ("Successfully loaded "
                                       ++ file_name file))])%list)
  | (None, ev) => (st, (log ++ ev)%list)
  end.

Definition handleFileChange (files : list File) (st : PageState)
  : PageState * list Event :=
  match files with
  | [] => (st, [])
  | _ =>
      if (2 <? List.length files)%nat then
        (st, [SetIsLoading true;
              Notify (ToastError "Please select a maximum of 2 files");
              SetIsLoading false; SetIsLoading false; ResetInput])
      else
        match find (fun file => negb (accepted file)) files with
        | Some file =>
            (st, [SetIsLoading true;
                  Notify (ToastError
                            ("Invalid file type: " ++ file_name file
                             ++ ". Please upload Excel or CSV files only"));
                  SetIsLoading false; SetIsLoading false; ResetInput])
        | None =>
            let (st', log) :=
              fold_left (upload_one (handleExcelData st)) files
                        (st, [SetIsLoading true]) in
            (st', (log ++ [SetIsLoading false; ResetInput])%list)
        end
  end.

End Engine.


Arguments VString {num} s.
Arguments VNumber {num} n.
Arguments VBoolean {num} b.
Arguments VDate {num} t.
Arguments VNull {num}.
Arguments VUndefined {num}.
Arguments Build_CellValue {num} value formatted.
Arguments value {num} c.
Arguments formatted {num} c.
Arguments Build_WorksheetData {num} name fileName headers data rawData.
Arguments name {num} w.
Arguments fileName {num} w.
Arguments headers {num} w.
Arguments data {num} w.
Arguments rawData {num} w.
Arguments Build_MonthlyDataPoint {num} monthKey month total date source.
Arguments monthKey {num} m.
Arguments month {num} m.
Arguments total {num} m.
Arguments date {num} m.
Arguments source {num} m.
Arguments row_lookup {num} row header.
Arguments cell {num} row header.
Arguments is_string {num} v.
Arguments is_number {num} v.
Arguments is_Date {num} v.
Arguments truthy {num} num_truthy v.
Arguments sheetId {num} sheet.
Arguments selectedSheetData {num} excelData selectedSheet.
Arguments row_date {num} num_truthy Date_parse row dateColumn.
Arguments accumulate {num} num_add m key v.
Arguments by_date {num} a b.
Arguments by_total_desc {num} num_sub num_gt0 a b.
Arguments month_bucket {num} src entry.
Arguments first_row_some {num} sheet p.
Arguments monthly_eligible {num} sheet.
Arguments monthly_eligibleSheets {num} excelData.
Arguments sample {num} sheet header.
Arguments date_like {num} Date_parse v.
Arguments monthly_columns {num} Date_parse excelData selectedSheet.
Arguments monthly_row {num} num_add num_truthy Date_parse dateColumn
  valueColumn monthlyMap row.
Arguments monthlyData {num} num_add num_truthy Date_parse excelData
  selectedSheet dateColumn valueColumn.
Arguments toString {num} num_toString Date_toString v.
Arguments project_eligible {num} sheet.
Arguments project_eligibleSheets {num} excelData.
Arguments Build_DataPoint {num} p_date p_value p_month p_monthKey.
Arguments p_date {num} d.
Arguments p_value {num} d.
Arguments p_month {num} d.
Arguments p_monthKey {num} d.
Arguments project_row {num} num_truthy Date_parse projectColumn dateColumn
  valueColumn selectedProject selectedMonth dataPoints row.
Arguments point_bucket {num} point.
Arguments projectData {num} num_add num_truthy Date_parse excelData
  selectedSheet projectColumn dateColumn valueColumn selectedProject
  selectedMonth.
Arguments po_eligible {num} sheet.
Arguments po_eligibleSheets {num} excelData.
Arguments po_classify {num} Date_parse sheet acc header.
Arguments po_columns {num} Date_parse excelData selectedSheet.
Arguments po_row {num} num_add num_truthy num_toString Date_parse
  Date_toString poColumn dateColumn valueColumn startDate endDate poMap row.
Arguments po_bucket {num} now entry index.
Arguments poData {num} num_add num_sub num_gt0 num_truthy num_toString
  Date_parse Date_toString now excelData selectedSheet poColumn dateColumn
  valueColumn selectedMonth.
Arguments Build_PageState {num} excelData activeFile fileNames.
Arguments excelData {num} p.
Arguments activeFile {num} p.
Arguments fileNames {num} p.
Arguments handleExcelData {num} seen newData file st.
Arguments getActiveWorksheet {num} st.
Arguments chooseWorksheet {num} i st.
Arguments handleClearData {num} st.
Arguments Build_DecodedSheet {num} sheetName jsonData grid.
Arguments sheetName {num} d.
Arguments jsonData {num} d.
Arguments grid {num} d.
Arguments Build_File {num} file_name workbook.
Arguments file_name {num} f.
Arguments workbook {num} f.
Arguments processExcelFile {num} num_toString Date_toString file.
Arguments accepted {num} file.
Arguments upload_one {num} num_toString Date_toString onDataExtracted acc
  file.
Arguments handleFileChange {num} num_toString Date_toString files st.

(* ================================================================== *)
(** ** Instances of the runtime *)
(* ================================================================== *)

(** [String(d)] on a date in an environment at UTC (ECMA-262,
    ToDateString): weekday, month, day, year, time, zone. *)
Module DateText.

Definition WeekDay (t : Z) : Z := (Day t + 4) mod 7.

Definition pick (names : list string) (i : Z) : string :=
  nth (Z.to_nat i) names "".

Definition dayName (t : Z) : string :=
  pick ["Sun"; "Mon"; "Tue"; "Wed"; "Thu"; "Fri"; "Sat"] (WeekDay t).

Definition monthName (t : Z) : string :=
  pick ["Jan"; "Feb"; "Mar"; "Apr"; "May"; "Jun";
        "Jul"; "Aug"; "Sep"; "Oct"; "Nov"; "Dec"] (MonthFromTime t).

Definition padded (n : nat) (z : Z) : string := padStart n "0" (Z_toString z).

Definition yearText (t : Z) : string :=
  let y := YearFromTime t in
  (if y <? 0 then "-" else "") ++ padded 4 (Z.abs y).

Definition timeText (t : Z) : string :=
  let s := TimeWithinDay t / 1000 in
  padded 2 (s / 3600) ++ ":" ++ padded 2 ((s / 60) mod 60) ++ ":"
  ++ padded 2 (s mod 60).

Definition Date_toString (t : Z) : string :=
  dayName t ++ " " ++ monthName t ++ " " ++ padded 2 (DateFromTime t) ++ " "
  ++ yearText t ++ " " ++ timeText t
  ++ " GMT+0000 (Coordinated Universal Time)".

End DateText.

(** Numbers that are integers.  The runtime computes with binary64, and
    this instance agrees with it as long as every amount and every sum
    stays below 2^53 in absolute value; beyond that it is not the
    arithmetic of the runtime.  It evaluates the examples on whole
    amounts; the statements about every worksheet take the arithmetic as a
    parameter. *)
Module IntNum.

Definition num : Type := Z.
Definition add : num -> num -> num := Z.add.
Definition sub : num -> num -> num := Z.sub.
Definition gt0 (n : num) : bool := 0 <? n.
Definition is_truthy (n : num) : bool := negb (n =? 0).

Definition monthlyData := @monthlyData num add is_truthy iso_parse.
Definition projectData := @projectData num add is_truthy iso_parse.
Definition poData :=
  @poData num add sub gt0 is_truthy Z_toString iso_parse
          DateText.Date_toString.
Definition po_columns := @po_columns num iso_parse.
Definition handleFileChange :=
  @handleFileChange num Z_toString DateText.Date_toString.

End IntNum.

(** Numbers as they are: IEEE 754 binary64. *)
Module F64.

Definition num : Type := PrimFloat.float.
Definition add : num -> num -> num := PrimFloat.add.
Definition is_truthy (n : num) : bool :=
  PrimFloat.eqb n n && negb (PrimFloat.eqb n PrimFloat.zero).

Definition sub : num -> num -> num := PrimFloat.sub.
Definition gt0 (n : num) : bool := PrimFloat.ltb PrimFloat.zero n.

(** The double of an integer below 2^63 in absolute value. *)
Definition repr (z : Z) : num :=
  match z with
  | Z0 => PrimFloat.zero
  | Zpos _ => PrimFloat.of_uint63 (Uint63.of_Z z)
  | Zneg p => PrimFloat.opp (PrimFloat.of_uint63 (Uint63.of_Z (Zpos p)))
  end.

Definition monthlyData := @monthlyData num add is_truthy iso_parse.

End F64.

(* ================================================================== *)
(** ** The specification's own notions, for comparison *)
(* ================================================================== *)

Module Spec.

Section Words.
Context {num : Type}.
Variable Date_parse : string -> option Z.

(** Section 4.2 and the eligibility claim: a first-row cell is date-like
    when it is a timestamp, or a string that parses to a valid date. *)
Definition first_row_date_like (v : Value num) : bool :=
  match v with
  | VDate _ => true
  | VString s => match Date_parse s with Some _ => true | None => false end
  | _ => false
  end.

(** Monthly eligibility as the claim words it. *)
Definition monthly_eligible (sheet : WorksheetData num) : bool :=
  first_row_some sheet first_row_date_like
  && first_row_some sheet is_number.

(** A date falls within the month [m] (from 1) of year [y], the last day
    included entirely. *)
Definition within_month (y m : Z) (d : Z) : bool :=
  (getFullYear d =? y) && (getMonth d + 1 =? m).

(** A cell has a non-empty value. *)
Definition non_empty (v : Value num) : bool :=
  match v with
  | VNull | VUndefined => false
  | VString s => negb (String.eqb s "")
  | _ => true
  end.

Variable num_truthy : num -> bool.

(** The filter of the purchase-order report as the claim words it: the
    date cell yields a valid date within the selected month and the
    order-identifier cell is not empty. *)
Definition po_filter (y m : Z) (poColumn dateColumn : string)
    (row : Row num) : bool :=
  match row_date num_truthy Date_parse row dateColumn with
  | Some d => within_month y m d && non_empty (cell row poColumn)
  | None => false
  end.
End Words.

End Spec.

(* ================================================================== *)
(** ** Vocabulary of the statements *)
(* ================================================================== *)

(** Some column of the worksheet has, in the first data row, a cell on
    which [p] holds. *)
Definition first_row_has {num : Type} (sheet : WorksheetData num)
    (p : Value num -> bool) : Prop :=
  exists row0 rest header,
    data sheet = row0 :: rest /\ In header (headers sheet)
    /\ p (cell row0 header) = true.

(** The worksheet with its rows removed. *)
Definition without_rows {num : Type} (sheet : WorksheetData num)
  : WorksheetData num :=
  {| name := name sheet; fileName := fileName sheet;
     headers := headers sheet; data := []; rawData := rawData sheet |}.

Definition string_or_Date {num : Type} (v : Value num) : bool :=
  is_string v || is_Date v.

Definition string_or_number {num : Type} (v : Value num) : bool :=
  is_string v || is_number v.

(** The verdicts of the classification loop of the purchase-order report,
    per header. *)
Definition hasPo {num : Type} (sheet : WorksheetData num) (header : string)
  : bool :=
  existsb (fun v => (is_string v && po_header header)
                    || (is_number v && po_header header))
          (sample sheet header).

Definition hasNumber {num : Type} (sheet : WorksheetData num)
    (header : string) : bool :=
  existsb is_number (sample sheet header).

(** The worksheet with its rows replaced. *)
Definition with_rows {num : Type} (sheet : WorksheetData num)
    (rows : list (Row num)) : WorksheetData num :=
  {| name := name sheet; fileName := fileName sheet;
     headers := headers sheet; data := rows; rawData := rawData sheet |}.

(** The results of [f] on the elements on which it is defined, in order. *)
Definition collect {A B : Type} (f : A -> option B) (l : list A) : list B :=
  flat_map (fun a => match f a with Some b => [b] | None => [] end) l.

Section Contributions.
Context {num : Type}.
Variable num_add : num -> num -> num.
Variable num_truthy : num -> bool.
Variable num_toString : num -> string.
Variable Date_parse : string -> option Z.
Variable Date_toString : Z -> string.

(** What a row adds to the map of the monthly report: the month key of
    its date and its value, or nothing. *)
Definition monthly_contribution (dateColumn valueColumn : string)
    (row : Row num) : option (string * num) :=
  match row_date num_truthy Date_parse row dateColumn,
        cell row valueColumn with
  | Some d, VNumber v => Some (monthKeyOf d, v)
  | _, _ => None
  end.

(** What a row adds to the map of the purchase-order report: the text of
    its identifier and its value, or nothing. *)
Definition po_contribution (poColumn dateColumn valueColumn : string)
    (startDate endDate : option Z) (row : Row num)
  : option (string * num) :=
  match row_date num_truthy Date_parse row dateColumn with
  | Some d =>
      if before d startDate || after d endDate then None
      else if truthy num_truthy (cell row poColumn) then
        match cell row valueColumn with
        | VNumber v =>
            Some (toString num_toString Date_toString (cell row poColumn), v)
        | _ => None
        end
      else None
  | None => None
  end.

(** The data point a row gives in the project report, or nothing. *)
Definition project_point (projectColumn dateColumn valueColumn : string)
    (selectedProject : string) (selectedMonth : option string)
    (row : Row num) : option (DataPoint num) :=
  match cell row projectColumn,
        row_date num_truthy Date_parse row dateColumn,
        cell row valueColumn with
  | VString projectValue, Some d, VNumber v =>
      if String.eqb projectValue selectedProject
         && negb (selected selectedMonth
                  && negb (String.eqb (monthYearOf d)
                                      (interpolate selectedMonth)))
      then Some {| p_date := d; p_value := v; p_month := monthYearOf d;
                   p_monthKey := monthKeyOf d |}
      else None
  | _, _, _ => None
  end.

(** Adding key/value pairs to a map one after the other. *)
Definition aggregate_into (m : JsMap num) (l : list (string * num))
  : JsMap num :=
  fold_left (fun m kv => accumulate num_add m (fst kv) (snd kv)) l m.

Definition aggregate (l : list (string * num)) : JsMap num :=
  aggregate_into [] l.

(** The values filed under a key, in order, and their sum from left to
    right ([None] when there is none). *)
Definition values_for (key : string) (l : list (string * num)) : list num :=
  map snd (filter (fun kv => String.eqb (fst kv) key) l).

Definition sum_from (start : option num) (vs : list num) : option num :=
  fold_left
    (fun o v => Some match o with Some x => num_add x v | None => v end)
    vs start.

Definition sum_for (key : string) (l : list (string * num)) : option num :=
  sum_from None (values_for key l).

End Contributions.

(** The identifier and the total of a purchase-order bucket. *)
Definition id_total {num : Type} (b : MonthlyDataPoint num) : string * num :=
  (month b, total b).

(** [y] does not exceed [x], as the comparator of the purchase-order
    report sees it: [y - x > 0] is false. *)
Definition not_below {num : Type} (num_sub : num -> num -> num)
    (num_gt0 : num -> bool) (x y : num) : Prop :=
  num_gt0 (num_sub y x) = false.

(** Strings of decimal digits. *)
Fixpoint digits_only (s : string) : bool :=
  match s with
  | "" => true
  | String c rest => is_digit c && digits_only rest
  end.

(** The key and the label of the month [m] (from 1) of year [y]. *)
Definition month_key (y m : Z) : string := Z_toString y ++ "-" ++ pad2 m.

Definition month_label (y m : Z) : string := pad2 m ++ "/" ++ Z_toString y.

(** The local midnight that starts the month [m] (from 1) of year [y]. *)
Definition month_start (y m : Z) : Z := MakeDate (MakeDay y (m - 1) 1) 0.

(** Month [(ya, ma)] comes before month [(yb, mb)]. *)
Definition month_before (ya ma yb mb : Z) : Prop :=
  ya < yb \/ (ya = yb /\ ma < mb).

(** The bucket of the month [m] of year [y] with total [sum]. *)
Definition bucket_of_month {num : Type} (src : option string) (y m : Z)
    (sum : num) : MonthlyDataPoint num :=
  {| monthKey := month_key y m;
     month := month_label y m;
     total := sum;
     date := Some (month_start y m);
     source := src |}.

(** Bucket [a] is of an earlier month than bucket [b]. *)
Definition bucket_before {num : Type} (a b : MonthlyDataPoint num) : Prop :=
  exists ya ma yb mb,
    0 <= ya /\ 1 <= ma <= 12 /\ 0 <= yb /\ 1 <= mb <= 12
    /\ monthKey a = month_key ya ma /\ monthKey b = month_key yb mb
    /\ month_before ya ma yb mb.

(** Addition as exact arithmetic has it: associative and commutative. *)
Definition exact_addition {num : Type} (num_add : num -> num -> num)
  : Prop :=
  (forall x y z, num_add (num_add x y) z = num_add x (num_add y z))
  /\ (forall x y, num_add x y = num_add y x).

(* ================================================================== *)
(** ** The rest of the page and of the components *)
(* ================================================================== *)

Arguments json_lookup {num} row header.
Arguments processedRow {num} num_toString Date_toString hs row.
Arguments worksheetOf {num} num_toString Date_toString file sheet.

(** [type ChartType = 'bar' | 'line' | 'pie' | 'area' | 'scatter'] *)
Inductive ChartType : Type := bar | line | pie | area | scatter.

Record ChartConfig : Type := {
  type : ChartType;
  xAxis : string;
  yAxis : list string;
  title : string
}.

(** The four counters of the dashboard. *)
Record Stats : Type := {
  totalFiles : nat;
  totalSheets : nat;
  totalRows : nat;
  totalColumns : nat
}.

(** The selections of the monthly report that [handleSheetChange]
    sets. *)
Record MonthlySelection : Type := {
  m_selectedSheet : option string;
  m_dateColumn : option string;
  m_valueColumn : option string
}.

Record ProjectColumns : Type := {
  stringColumns : list string;
  pr_dateColumns : list string;
  pr_valueColumns : list string
}.

(** An entry of the month picker of the purchase-order report:
    [{ key, name }] out of [item.split('|')]. *)
Record MonthOption : Type := {
  mo_key : option string;
  mo_name : option string
}.

(** A list of results, unless one of them is missing. *)
Fixpoint all_some {A : Type} (l : list (option A)) : option (list A) :=
  match l with
  | [] => Some []
  | None :: _ => None
  | Some x :: rest => option_map (cons x) (all_some rest)
  end.

Section Components.
Context {num : Type}.
(** The number [0]. *)
Variable num_zero : num.
Variable num_truthy : num -> bool.
Variable num_toString : num -> string.
Variable Date_parse : string -> option Z.
Variable Date_toString : Z -> string.
(** [a.localeCompare(b) > 0], which depends on the locale. *)
Variable localeCompare_gt : string -> string -> bool.

(* ---------------------------------------------------------------- *)
(** *** pages/Index.tsx *)

(** [[...new Set(excelData.map(sheet => sheet.fileName))]] *)
Definition getUniqueFileNames (st : PageState num) : list string :=
  set_of (map fileName (excelData st)).

(* ---------------------------------------------------------------- *)
(** *** components/DashboardStats.tsx *)

Definition DashboardStats (excelData : list (WorksheetData num))
    (fileNames : list string) : Stats :=
  {| totalFiles := List.length fileNames;
     totalSheets := List.length excelData;
     totalRows :=
       fold_left (fun sum sheet => (sum + List.length (data sheet))%nat)
                 excelData 0%nat;
     totalColumns :=
       fold_left (fun sum sheet => (sum + List.length (headers sheet))%nat)
                 excelData 0%nat |}.

(** The page renders the dashboard once a worksheet is loaded, with
    [fileNames={getUniqueFileNames()}]. *)
Definition page_stats (st : PageState num) : option Stats :=
  match excelData st with
  | [] => None
  | _ => Some (DashboardStats (excelData st) (getUniqueFileNames st))
  end.

(* ---------------------------------------------------------------- *)
(** *** MonthlyReport.tsx: choosing a worksheet *)

(** [handleSheetChange(sheetId)].  [columns] is the value memoised by
    the render that created the handler: the classification of the
    worksheet that was selected until now. *)
Definition monthly_handleSheetChange
    (excelData : list (WorksheetData num)) (st : MonthlySelection)
    (id : string) : MonthlySelection :=
  match find (fun s => String.eqb (sheetId s) id) excelData with
  | None =>
      {| m_selectedSheet := Some id;
         m_dateColumn := None;
         m_valueColumn := None |}
  | Some _ =>
      let columns :=
        monthly_columns Date_parse excelData (m_selectedSheet st) in
      {| m_selectedSheet := Some id;
         m_dateColumn := hd_error (m_dateColumns columns);
         m_valueColumn := hd_error (m_valueColumns columns) |}
  end.

(* ---------------------------------------------------------------- *)
(** *** ProjectReport.tsx: columns and month picker *)

(** [typeof value === 'string' && value.length > 0] *)
Definition nonempty_string (v : Value num) : bool :=
  match v with
  | VString s => negb (String.eqb s "")
  | _ => false
  end.

(** The body of [sheet.headers.forEach(header => ...)]. *)
Definition project_classify (sheet : WorksheetData num)
    (acc : ProjectColumns) (header : string) : ProjectColumns :=
  let values := sample sheet header in
  let hasString := existsb nonempty_string values in
  let hasDate := existsb (date_like Date_parse) values in
  let hasNumber := existsb is_number values in
  {| stringColumns :=
       push_if (hasString && negb hasDate) (stringColumns acc) header;
     pr_dateColumns := push_if hasDate (pr_dateColumns acc) header;
     pr_valueColumns := push_if hasNumber (pr_valueColumns acc) header |}.

Definition no_project_columns : ProjectColumns :=
  {| stringColumns := []; pr_dateColumns := []; pr_valueColumns := [] |}.

Definition project_columns (excelData : list (WorksheetData num))
    (selectedSheet : option string) : ProjectColumns :=
  match selectedSheetData excelData selectedSheet with
  | None => no_project_columns
  | Some sheet =>
      fold_left (project_classify sheet) (headers sheet) no_project_columns
  end.

(** The date the comparator of the month picker gives a label:
    [new Date(parseInt(year), parseInt(month) - 1, 1)] from
    [label.split('/')]. *)
Definition label_date (label : string) : option Z :=
  let parts := split "/" label in
  new_Date (parseInt (nth_elem 1 parts))
           (option_map (fun m => m - 1) (parseInt (nth_elem 0 parts)))
           (Some 1).

(** [aDate.getTime() - bDate.getTime()], greater than 0. *)
Definition by_label_date (a b : string) : bool :=
  match label_date a, label_date b with
  | Some ta, Some tb => 0 <? ta - tb
  | _, _ => false
  end.

(** The body of the loop that fills the set of month labels. *)
Definition project_month_row (dateColumn : string) (months : list string)
    (row : Row num) : list string :=
  match row_date num_truthy Date_parse row dateColumn with
  | None => months
  | Some d => set_add months (monthYearOf d)
  end.

Definition project_availableMonths (excelData : list (WorksheetData num))
    (selectedSheet dateColumn : option string) : list string :=
  match selectedSheetData excelData selectedSheet, dateColumn with
  | Some sheet, Some dc =>
      if selected dateColumn then
        sort by_label_date
             (fold_left (project_month_row dc) (data sheet) [])
      else []
  | _, _ => []
  end.

(* ---------------------------------------------------------------- *)
(** *** PurchaseOrdersReport.tsx: month picker *)

(** The body of the loop that fills the set of [`${monthKey}|${monthName}`]
    items. *)
Definition po_month_row (dateColumn : string) (months : list string)
    (row : Row num) : list string :=
  match row_date num_truthy Date_parse row dateColumn with
  | None => months
  | Some d => set_add months (monthKeyOf d ++ "|" ++ monthYearOf d)
  end.

(** [const [key, name] = item.split('|'); return { key, name }] *)
Definition month_option (item : string) : MonthOption :=
  let parts := split "|" item in
  {| mo_key := nth_elem 0 parts; mo_name := nth_elem 1 parts |}.

(** [(a, b) => a.key.localeCompare(b.key)], greater than 0. *)
Definition by_key (a b : MonthOption) : bool :=
  match mo_key a, mo_key b with
  | Some ka, Some kb => localeCompare_gt ka kb
  | _, _ => false
  end.

Definition po_availableMonths (excelData : list (WorksheetData num))
    (selectedSheet dateColumn : option string) : list MonthOption :=
  match selectedSheetData excelData selectedSheet, dateColumn with
  | Some sheet, Some dc =>
      if selected dateColumn then
        sort by_key
             (map month_option
                  (fold_left (po_month_row dc) (data sheet) []))
      else []
  | _, _ => []
  end.

(* ---------------------------------------------------------------- *)
(** *** MonthlyReportTable.tsx *)

(** [data.length > 0 && data.some(item =>
    data.filter(d => d.month === item.month).length > 1)] *)
Definition isDetailView (data : list (MonthlyDataPoint num)) : bool :=
  (0 <? List.length data)%nat
  && existsb
       (fun item =>
          (1 <? List.length
                  (filter (fun d => String.eqb (month d) (month item))
                          data))%nat)
       data.

(* ---------------------------------------------------------------- *)
(** *** ChartViewer.tsx *)

Definition initial_chartConfig : ChartConfig :=
  {| type := bar; xAxis := ""; yAxis := [];
     title := "Excel Data Visualization" |}.

Definition handleChangeChartType (chartConfig : ChartConfig)
    (t : ChartType) : ChartConfig :=
  {| type := t; xAxis := xAxis chartConfig; yAxis := yAxis chartConfig;
     title := title chartConfig |}.

Definition handleChangeXAxis (chartConfig : ChartConfig) (v : string)
  : ChartConfig :=
  {| type := type chartConfig; xAxis := v; yAxis := yAxis chartConfig;
     title := title chartConfig |}.

Definition handleToggleYAxis (chartConfig : ChartConfig) (header : string)
  : ChartConfig :=
  let newYAxis := yAxis chartConfig in
  {| type := type chartConfig;
     xAxis := xAxis chartConfig;
     yAxis :=
       if existsb (String.eqb header) newYAxis
       then filter (fun y => negb (String.eqb y header)) newYAxis
       else (newYAxis ++ [header])%list;
     title := title chartConfig |}.

(** [row[header].value]: on a row without the column there is no cell to
    read [value] from and the access throws, [None]. *)
Definition cell_value (row : Row num) (header : string)
  : option (Value num) :=
  option_map value (row_lookup row header).

(** [typeof v === 'number' ? v : 0] *)
Definition number_or_zero (v : Value num) : Value num :=
  match v with
  | VNumber n => VNumber n
  | _ => VNumber num_zero
  end.

(** The body of [chartConfig.yAxis.forEach(yAxis => ...)] on the object
    [entry], whose properties are a map from names to values. *)
Definition chart_add_y (row : Row num)
    (entry : option (JsMap (Value num))) (y : string)
  : option (JsMap (Value num)) :=
  match entry, cell_value row y with
  | Some e, Some v => Some (map_set e y (number_or_zero v))
  | _, _ => None
  end.

Definition chart_entry (chartConfig : ChartConfig) (row : Row num)
  : option (JsMap (Value num)) :=
  match cell_value row (xAxis chartConfig) with
  | None => None
  | Some x =>
      fold_left (chart_add_y row) (yAxis chartConfig)
                (Some [(xAxis chartConfig, x)])
  end.

(** [None] when the computation throws. *)
Definition processedData (worksheet : WorksheetData num)
    (chartConfig : ChartConfig) : option (list (JsMap (Value num))) :=
  if String.eqb (xAxis chartConfig) ""
     || (List.length (yAxis chartConfig) =? 0)%nat
  then Some []
  else all_some (map (chart_entry chartConfig) (data worksheet)).

(** [{ name: row[xAxis].value?.toString() || "Unknown",
       value: typeof row[yAxis].value === 'number' ? ... : 0 }] *)
Definition pie_name (v : Value num) : string :=
  match v with
  | VNull | VUndefined => "Unknown"
  | _ =>
      let s := toString num_toString Date_toString v in
      if String.eqb s "" then "Unknown" else s
  end.

Definition pie_entry (chartConfig : ChartConfig) (row : Row num)
  : option (string * Value num) :=
  match cell_value row (xAxis chartConfig),
        yAxis chartConfig with
  | Some x, y :: _ =>
      match cell_value row y with
      | Some v => Some (pie_name x, number_or_zero v)
      | None => None
      end
  | _, _ => None
  end.

Definition pieData (worksheet : WorksheetData num)
    (chartConfig : ChartConfig) : option (list (string * Value num)) :=
  if String.eqb (xAxis chartConfig) ""
     || (List.length (yAxis chartConfig) =? 0)%nat
  then Some []
  else all_some (map (pie_entry chartConfig) (data worksheet)).

(* ---------------------------------------------------------------- *)
(** *** ExcelTable.tsx: export *)

(** [[worksheet.headers, ...worksheet.data.map(row =>
      worksheet.headers.map(header => row[header].value))]];
    [None] when a read throws. *)
Definition wsData (worksheet : WorksheetData num)
  : option (list (list (Value num))) :=
  option_map
    (cons (map VString (headers worksheet)))
    (all_some
       (map (fun row =>
               all_some (map (cell_value row) (headers worksheet)))
            (data worksheet))).

(** [`${worksheet.fileName.split('.')[0]}_${worksheet.name}.xlsx`] *)
Definition export_fileName (worksheet : WorksheetData num) : string :=
  interpolate (nth_elem 0 (split "." (fileName worksheet)))
  ++ "_" ++ name worksheet ++ ".xlsx".

(** The sheet name, the grid and the file name handed to the library. *)
Definition exportToExcel (worksheet : WorksheetData num)
  : option (string * list (list (Value num)) * string) :=
  match wsData worksheet with
  | Some grid => Some (name worksheet, grid, export_fileName worksheet)
  | None => None
  end.

End Components.

(* ================================================================== *)
(** ** Vocabulary of the statements, continued *)
(* ================================================================== *)

(** Every row of the worksheet has exactly the cells its headers name,
    in their order. *)
Definition rectangular {num : Type} (sheet : WorksheetData num) : Prop :=
  Forall (fun row => map fst row = headers sheet) (data sheet).

(** The shape the upload gives a worksheet: at least one row, and every
    row has a cell for every header. *)
Definition well_formed {num : Type} (sheet : WorksheetData num) : Prop :=
  (0 < List.length (data sheet))%nat /\ rectangular sheet.

(** What the page keeps true of its state: the loaded file names are
    the file names of the loaded worksheets, each once, in the order of
    their first worksheet, and every worksheet has the shape the upload
    gives. *)
Definition page_consistent {num : Type} (st : PageState num) : Prop :=
  getUniqueFileNames st = fileNames st
  /\ Forall well_formed (excelData st).

(** A string without the character [c]. *)
Fixpoint free_of (c : ascii) (s : string) : bool :=
  match s with
  | "" => true
  | String c' rest => negb (Ascii.eqb c' c) && free_of c rest
  end.

(** The rows of a worksheet in which the cell of a column is the string
    [v]. *)
Definition rows_of {num : Type} (column v : string)
    (rows : list (Row num)) : list (Row num) :=
  filter (fun row => match cell row column with
                     | VString s => String.eqb s v
                     | _ => false
                     end)
         rows.

(** A bucket without the name of its source file. *)
Definition unsourced {num : Type} (b : MonthlyDataPoint num)
  : MonthlyDataPoint num :=
  {| monthKey := monthKey b; month := month b; total := total b;
     date := date b; source := None |}.

Section UploadWords.
Context {num : Type}.
Variable num_toString : num -> string.
Variable Date_toString : Z -> string.

(** The file decodes to at least one worksheet with rows. *)
Definition decodes (file : File num) : bool :=
  match fst (processExcelFile num_toString Date_toString file) with
  | Some _ => true
  | None => false
  end.

(** The file decodes and its name is not among the loaded names of the
    page. *)
Definition loads (st : PageState num) (file : File num) : bool :=
  decodes file
  && negb (existsb (String.eqb (file_name file)) (fileNames st)).

(** The worksheets the upload makes of the decoded sheets that have
    rows. *)
Definition has_rows (sheet : DecodedSheet num) : bool :=
  match jsonData sheet with [] => false | _ => true end.

(** The page before anything is loaded. *)
Definition initial_page : PageState num :=
  {| excelData := []; activeFile := None; fileNames := [] |}.

(** The page states the user can bring about.  An upload reads its files
    one after the other and waits for each; while it waits the page is
    live, so a choice in the worksheet selector or a click on Clear can
    come between two files of one batch.  Every file that decodes is
    handed to [handleExcelData] as the render that started the upload
    made it: its setters write the lists of that render, [seen], while the
    selection they leave alone is that of the page as it is by then,
    [cur].  The relation does not record which render an upload in
    progress has captured: it lets [seen] be any page state that was
    brought about, and so holds of every state of every session. *)
Inductive reachable : PageState num -> Prop :=
| reach_initial : reachable initial_page
| reach_load (seen cur : PageState num) (file : File num)
    (sheets : list (WorksheetData num)) :
    reachable seen -> reachable cur ->
    fst (processExcelFile num_toString Date_toString file) = Some sheets ->
    reachable (fst (handleExcelData seen sheets (file_name file) cur))
| reach_choose (i : nat) (st : PageState num) :
    reachable st -> reachable (chooseWorksheet i st)
| reach_clear (st : PageState num) :
    reachable st -> reachable (fst (handleClearData st)).

End UploadWords.

(** The numbers of a column, row by row. *)
Definition amounts {num : Type} (valueColumn : string)
    (rows : list (Row num)) : list num :=
  collect (fun row => match cell row valueColumn with
                      | VNumber v => Some v
                      | _ => None
                      end)
          rows.

(** The sum of the absolute values of a list of integers. *)
Definition magnitude (zs : list Z) : Z :=
  fold_right (fun z s => Z.abs z + s) 0 zs.

(** [repr z] is the number of [z] units, one cent say.  The addition of
    the runtime is exact on whole units up to [bound]: it gives the number
    of [a + b] units when [a], [b] and [a + b] are within the bound.  With
    one unit for 1, binary64 is exact up to 2^53. *)
Definition exact_on {num : Type} (num_add : num -> num -> num)
    (repr : Z -> num) (bound : Z) : Prop :=
  forall a b,
    Z.abs a <= bound -> Z.abs b <= bound -> Z.abs (a + b) <= bound ->
    num_add (repr a) (repr b) = repr (a + b).

(** The values are whole units whose absolute values add up to no more
    than [bound]: no sum of some of them, in any order, leaves the
    bound. *)
Definition whole_amounts {num : Type} (repr : Z -> num) (bound : Z)
    (values : list num) : Prop :=
  exists zs, values = map repr zs /\ magnitude zs <= bound.

(** The integers from [- bound] to [bound]. *)
Definition units_within (bound : Z) : list Z :=
  map (fun i => Z.of_nat i - bound) (seq 0 (Z.to_nat (2 * bound + 1))).

(** Whether binary64 adds all whole numbers within the bound exactly, by
    trying every pair of them. *)
Definition exact_within (bound : Z) : bool :=
  forallb
    (fun a =>
       forallb
         (fun b =>
            negb (Z.abs (a + b) <=? bound)
            || PrimFloat.Leibniz.eqb (F64.add (F64.repr a) (F64.repr b))
                                     (F64.repr (a + b)))
         (units_within bound))
    (units_within bound).

(** An entry of [z] units as the entry of the number of [z] units. *)
Definition in_units {num : Type} (repr : Z -> num) (kv : string * Z)
  : string * num :=
  (fst kv, repr (snd kv)).

(** The comparator of the purchase-order report orders the values: of two
    of them at most one is above the other, and being not below is
    transitive. *)
Definition comparable {num : Type} (num_sub : num -> num -> num)
    (num_gt0 : num -> bool) (values : list num) : Prop :=
  (forall x y, In x values -> In y values ->
     num_gt0 (num_sub x y) = true -> num_gt0 (num_sub y x) = false)
  /\ (forall x y z, In x values -> In y values -> In z values ->
        not_below num_sub num_gt0 x y -> not_below num_sub num_gt0 y z ->
        not_below num_sub num_gt0 x z).

(** Label [a] is the label of an earlier month than label [b]. *)
Definition label_before (a b : string) : Prop :=
  exists ya ma yb mb,
    0 <= ya /\ 1 <= ma <= 12 /\ 0 <= yb /\ 1 <= mb <= 12
    /\ a = month_label ya ma /\ b = month_label yb mb
    /\ month_before ya ma yb mb.

Section TableTotals.
Context {num : Type}.
Variable num_zero : num.
Variable num_add : num -> num -> num.

(** The grand total of the report table (MonthlyReportTable.tsx):
    [data.reduce((sum, item) => sum + item.total, 0)]. *)
Definition totalSum (data : list (MonthlyDataPoint num)) : num :=
  fold_left (fun sum item => num_add sum (total item)) data num_zero.

(** The sum of a list of values from left to right, starting from 0. *)
Definition sum_of (vs : list num) : num := fold_left num_add vs num_zero.

End TableTotals.

(* ================================================================== *)
(** ** Worksheets and page states used as test data *)
(* ================================================================== *)

Module Examples.

Definition txt {num : Type} (s : string) : CellValue num :=
  {| value := VString s; formatted := Some s |}.

Definition int (n : Z) : CellValue Z :=
  {| value := VNumber n; formatted := Some (Z_toString n) |}.

Definition day {num : Type} (t : Z) : CellValue num :=
  {| value := VDate t; formatted := None |}.

Definition sheet_of {num : Type} (file sheet : string) (hs : list string)
    (rows : list (Row num)) : WorksheetData num :=
  {| name := sheet; fileName := file; headers := hs; data := rows;
     rawData := [] |}.

(** Two files that both contain a sheet called Sheet1. *)
Definition january : WorksheetData Z :=
  sheet_of "january.xlsx" "Sheet1" ["Date"; "Amount"]
           [[("Date", txt "2024-01-15"); ("Amount", int 100)]].

Definition february : WorksheetData Z :=
  sheet_of "february.xlsx" "Sheet1" ["Date"; "Amount"]
           [[("Date", txt "2024-02-01"); ("Amount", int 30)]].

Definition empty_page : PageState Z :=
  {| excelData := []; activeFile := None; fileNames := [] |}.

Definition january_loaded : PageState Z :=
  fst (handleExcelData empty_page [january] "january.xlsx" empty_page).

Definition both_loaded : PageState Z :=
  fst (handleExcelData january_loaded [february] "february.xlsx"
                       january_loaded).

(** A worksheet whose only string column holds free text. *)
Definition notes : WorksheetData Z :=
  sheet_of "notes.xlsx" "Notes" ["Note"; "Amount"]
           [[("Note", txt "hello"); ("Amount", int 5)]].

(** Files as the upload dialog hands them over. *)
Definition decoded (file : string) : File Z :=
  {| file_name := file;
     workbook :=
       Some [{| sheetName := "Sheet1";
                jsonData := [[("Date", VString "2024-01-15");
                              ("Amount", VNumber 100)]];
                grid := [] |}] |}.

Definition three_files : list (File Z) :=
  [decoded "a.xlsx"; decoded "b.xlsx"; decoded "c.csv"].

(** Purchase orders of January 2024. *)
Definition orders : WorksheetData Z :=
  sheet_of "orders.xlsx" "Orders" ["PO Number"; "Date"; "Amount"]
    [[("PO Number", txt "PO-1"); ("Date", txt "2024-01-10");
      ("Amount", int 200)];
     [("PO Number", txt "PO-2"); ("Date", txt "2024-01-20");
      ("Amount", int 500)]].

Definition orders_id : option string := Some "orders.xlsx-Orders".

(** Orders identified by a number. *)
Definition numbered : WorksheetData Z :=
  sheet_of "numbered.xlsx" "Orders" ["Order No"; "Date"; "Amount"]
    [[("Order No", int 1001); ("Date", txt "2024-01-10");
      ("Amount", int 200)]].

(** An order booked on the last day of January at ten o'clock, once as a
    timestamp and once as text. *)
Definition late_order : Row Z :=
  [("PO Number", txt "PO-9"); ("Date", day (at_local 2024 1 31 10 0));
   ("Amount", int 7)].

Definition late_order_text : Row Z :=
  [("PO Number", txt "PO-9"); ("Date", txt "2024-01-31T10:00");
   ("Amount", int 7)].

(** The same order dated 31 January without a time. *)
Definition last_day_order : Row Z :=
  [("PO Number", txt "PO-9"); ("Date", txt "2024-01-31");
   ("Amount", int 7)].

(** An order of March of the year 50. *)
Definition ancient_order : Row Z :=
  [("PO Number", txt "PO-7"); ("Date", txt "0050-03-10");
   ("Amount", int 4)].

Definition one_order (row : Row Z) : WorksheetData Z :=
  sheet_of "orders.xlsx" "Orders" ["PO Number"; "Date"; "Amount"] [row].

(** Amounts booked on two projects. *)
Definition booking (project date : string) (amount : Z) : Row Z :=
  [("Project", txt project); ("Date", txt date); ("Amount", int amount)].

Definition projects : WorksheetData Z :=
  sheet_of "projects.xlsx" "Hours" ["Project"; "Date"; "Amount"]
    [booking "Alpha" "2024-01-15" 100; booking "Beta" "2024-01-05" 7;
     booking "Alpha" "2024-01-20" 50; booking "Alpha" "2024-02-01" 30].

Definition projects_id : option string := Some "projects.xlsx-Hours".

(** Three amounts of one month with cents, in two row orders. *)
Import PrimFloat.
#[local] Set Warnings "-inexact-float".

Definition cents (date : string) (amount : PrimFloat.float)
  : Row PrimFloat.float :=
  [("Date", txt date);
   ("Amount", {| value := VNumber amount; formatted := None |})].

Definition ledger : WorksheetData PrimFloat.float :=
  sheet_of "ledger.xlsx" "Ledger" ["Date"; "Amount"]
    [cents "2024-01-05" 0.1%float; cents "2024-01-06" 0.2%float;
     cents "2024-01-07" 0.3%float].

Definition ledger_reversed : WorksheetData PrimFloat.float :=
  with_rows ledger (rev (data ledger)).

Definition sixty_cents_and_a_bit : PrimFloat.float :=
  0.6000000000000001%float.

Definition sixty_cents : PrimFloat.float := 0.6%float.

#[local] Set Warnings "inexact-float".

(** The same three amounts in whole cents. *)
Definition ledger_cents : WorksheetData PrimFloat.float :=
  sheet_of "ledger.xlsx" "Ledger" ["Date"; "Amount"]
    [cents "2024-01-05" 10%float; cents "2024-01-06" 20%float;
     cents "2024-01-07" 30%float].

Definition ledger_cents_reversed : WorksheetData PrimFloat.float :=
  with_rows ledger_cents (rev (data ledger_cents)).

Definition ledger_id : option string := Some "ledger.xlsx-Ledger".

(** The rows of the specification's monthly example, dates as text. *)
Definition sale (date : string) (amount : Z) : Row Z :=
  [("Date", txt date); ("Amount", int amount)].

Definition sales : WorksheetData Z :=
  sheet_of "sales.xlsx" "Sales" ["Date"; "Amount"]
    [sale "2024-01-15" 100; sale "2024-01-20" 50; sale "2024-02-01" 30].

(** The same rows with timestamps in the date column. *)
Definition sales_stamped : WorksheetData Z :=
  sheet_of "sales.xlsx" "Sales" ["Date"; "Amount"]
    [[("Date", day (at_local 2024 1 15 0 0)); ("Amount", int 100)];
     [("Date", day (at_local 2024 1 20 9 30)); ("Amount", int 50)];
     [("Date", day (at_local 2024 2 1 0 0)); ("Amount", int 30)]].

Definition sales_id : option string := Some "sales.xlsx-Sales".

(** A worksheet with a date of the year 50 and a date of the year 1900. *)
Definition archive : WorksheetData Z :=
  sheet_of "archive.csv" "Sheet1" ["Date"; "Amount"]
    [sale "0050-03-01" 20; sale "1900-01-01" 10].

Definition archive_id : option string := Some "archive.csv-Sheet1".

(** An upload of a workbook together with a text file. *)
Definition mixed_batch : list (File Z) :=
  [decoded "a.xlsx"; decoded "notes.txt"].

(** The amounts of a worksheet charted by date. *)
Definition amount_by_date : ChartConfig :=
  {| type := bar; xAxis := "Date"; yAxis := ["Amount"];
     title := "Amounts" |}.

(** A decoded sheet whose second row has a key the first row lacks, and
    lacks a key the first row has. *)
Definition ragged : DecodedSheet Z :=
  {| sheetName := "Sheet1";
     jsonData := [[("Date", VString "2024-01-15"); ("Amount", VNumber 100)];
                  [("Date", VString "2024-01-16"); ("Note", VString "late")]];
     grid := [] |}.

(** A sale without a date. *)
Definition undated_sale : Row Z :=
  [("Date", txt "to be confirmed"); ("Amount", int 999)].

(** The selections of the monthly report before a worksheet is chosen. *)
Definition nothing_selected : MonthlySelection :=
  {| m_selectedSheet := None; m_dateColumn := None; m_valueColumn := None |}.

(** The order of strings by their characters, as a stand-in for the
    comparison of the locale. *)
Definition compare_gt (a b : string) : bool :=
  match String.compare a b with Gt => true | _ => false end.

(** Five sales of one week, and a sixth row that is the first to hold a
    number in the column Note. *)
Definition week : WorksheetData Z :=
  sheet_of "week.xlsx" "Week" ["Date"; "Amount"; "Note"]
    [sale "2024-03-04" 10; sale "2024-03-05" 20; sale "2024-03-06" 30;
     sale "2024-03-07" 40; sale "2024-03-08" 50].

Definition noted_sale : Row Z :=
  [("Date", txt "2024-03-09"); ("Amount", int 60); ("Note", int 7)].

Definition week_id : option string := Some "week.xlsx-Week".

(** Orders of January 2024 in which PO-1 comes twice: its first amount is
    below that of PO-2, its total above. *)
Definition order (id date : string) (amount : Z) : Row Z :=
  [("PO Number", txt id); ("Date", txt date); ("Amount", int amount)].

Definition split_orders : WorksheetData Z :=
  sheet_of "orders.xlsx" "Orders" ["PO Number"; "Date"; "Amount"]
    [order "PO-2" "2024-01-05" 250; order "PO-1" "2024-01-10" 100;
     order "PO-1" "2024-01-20" 200].

(** A workbook with one sheet of the given name. *)
Definition book (file sheet : string) : File Z :=
  {| file_name := file;
     workbook :=
       Some [{| sheetName := sheet;
                jsonData := [[("Date", VString "2024-01-15");
                              ("Amount", VNumber 100)]];
                grid := [] |}] |}.

(** The worksheet the upload makes of such a workbook. *)
Definition page_of (file sheet : string) : WorksheetData Z :=
  {| name := sheet; fileName := file; headers := ["Date"; "Amount"];
     data := [[("Date", {| value := VString "2024-01-15";
                           formatted := Some "2024-01-15" |});
               ("Amount", {| value := VNumber 100;
                             formatted := Some "100" |})]];
     rawData := [] |}.

(** A session.  With a.xlsx loaded the user uploads b.xlsx and c.xlsx in
    one batch, and chooses the worksheet of b.xlsx as soon as it is there,
    before c.xlsx is read. *)
Definition a_loaded : PageState Z :=
  fst (handleExcelData empty_page [page_of "a.xlsx" "A"] "a.xlsx"
                       empty_page).

Definition b_loaded : PageState Z :=
  fst (handleExcelData a_loaded [page_of "b.xlsx" "B"] "b.xlsx" a_loaded).

Definition b_chosen : PageState Z := chooseWorksheet 1 b_loaded.

Definition c_loaded : PageState Z :=
  fst (handleExcelData a_loaded [page_of "c.xlsx" "C"] "c.xlsx" b_chosen).

End Examples.

(* ================================================================== *)
(** ** Page state and upload *)
(* ================================================================== *)

Section PageFacts.
Context {num : Type}.
Implicit Types (st seen : PageState num) (file : string).

Lemma existsb_eqb_In (file : string) (names : list string) :
  In file names -> existsb (String.eqb file) names = true.
Proof.
  intros Hin. apply existsb_exists. exists file. split; [exact Hin|].
  apply String.eqb_refl.
Qed.

(** C8.  A file whose name is among the loaded file names is rejected:
    the handler returns the page state it was given (worksheets, active
    worksheet and file names untouched) and its only effect is the error
    toast. *)
Theorem handleExcelData_rejects_loaded_name
    (seen st : PageState num) (newData : list (WorksheetData num))
    (file : string) :
  In file (fileNames seen) ->
  handleExcelData seen newData file st
  = (st, [ToastError ("File " ++ file ++ " is already loaded")]).
Proof.
  intros Hin. unfold handleExcelData.
  rewrite (existsb_eqb_In _ _ Hin). reflexivity.
Qed.

(** The worksheet found for the active selection depends on sheet names
    only: file names play no part in the lookup. *)
Lemma getActiveWorksheet_by_name st (sheet : WorksheetData num) :
  getActiveWorksheet st = Some sheet ->
  activeFile st = Some (name sheet).
Proof.
  unfold getActiveWorksheet. intros Hfind.
  apply find_some in Hfind. destruct Hfind as [_ Heq].
  destruct (activeFile st) as [a|]; [|discriminate].
  apply String.eqb_eq in Heq. now subst.
Qed.

Variable num_toString : num -> string.
Variable Date_toString : Z -> string.

(** C9.  An upload of more than two files stops at the count check: the
    page state is returned as it was, the only notification is the error
    toast, and the log holds no [Decode] event, so no file was read. *)
Theorem handleFileChange_rejects_large_batch
    (files : list (File num)) st :
  (2 < List.length files)%nat ->
  handleFileChange num_toString Date_toString files st
  = (st, [SetIsLoading true;
          Notify (ToastError "Please select a maximum of 2 files");
          SetIsLoading false; SetIsLoading false;
          ResetInput])
  /\ (forall file,
        ~ In (Decode file)
             (snd (handleFileChange num_toString Date_toString files st)))
  /\ excelData (fst (handleFileChange num_toString Date_toString files st))
     = excelData st.
Proof.
  intros Hlen.
  assert (Hrun : handleFileChange num_toString Date_toString files st
                 = (st, [SetIsLoading true;
                         Notify (ToastError
                                       "Please select a maximum of 2 files");
                         SetIsLoading false; SetIsLoading false;
                         ResetInput])).
  { unfold handleFileChange.
    destruct files as [|f fs]; [simpl in Hlen; lia|].
    apply Nat.ltb_lt in Hlen. rewrite Hlen. reflexivity. }
  rewrite Hrun. repeat split.
  intros file Hin. simpl in Hin.
  repeat (destruct Hin as [Hin|Hin]; [discriminate Hin|]).
  exact Hin.
Qed.

End PageFacts.

(** C8, at a concrete page: loading january.xlsx a second time. *)
Lemma handleExcelData_rejects_loaded_name_witness :
  In "january.xlsx" (fileNames Examples.january_loaded)
  /\ handleExcelData Examples.january_loaded [Examples.january]
       "january.xlsx" Examples.january_loaded
     = (Examples.january_loaded,
        [ToastError ("File " ++ "january.xlsx" ++ " is already loaded")]).
Proof.
  split.
  - simpl. left. reflexivity.
  - apply (handleExcelData_rejects_loaded_name
             Examples.january_loaded Examples.january_loaded
             [Examples.january] "january.xlsx").
    simpl. left. reflexivity.
Defined.

(** C9, at a concrete upload of three files. *)
Lemma handleFileChange_rejects_large_batch_witness :
  (2 < List.length Examples.three_files)%nat
  /\ fst (IntNum.handleFileChange Examples.three_files
            Examples.january_loaded)
     = Examples.january_loaded.
Proof.
  split.
  - simpl. lia.
  - exact (f_equal fst
             (proj1 (handleFileChange_rejects_large_batch
                       Z_toString DateText.Date_toString
                       Examples.three_files Examples.january_loaded
                       ltac:(simpl; lia)))).
Defined.

(** C5.  Both loaded files contain a sheet named Sheet1.  Choosing the
    second entry of the worksheet selector (february.xlsx - Sheet1) makes
    the page show the sheet of january.xlsx: the active worksheet is
    looked up by sheet name alone. *)
Theorem getActiveWorksheet_wrong_file :
  nth_error (excelData Examples.both_loaded) 1 = Some Examples.february
  /\ getActiveWorksheet (chooseWorksheet 1 Examples.both_loaded)
     = Some Examples.january
  /\ fileName Examples.january <> fileName Examples.february.
Proof.
  repeat split; try reflexivity.
  vm_compute. discriminate.
Qed.

(** The handler passed to the uploader is the one of the render in which
    the upload started.  When two files are uploaded together the second
    call still sees the page as it was before the first: the sheets of the
    first file are overwritten, its name is forgotten, and the active
    worksheet is taken from the second file. *)
Remark handleFileChange_second_file_wins :
  let page :=
    fst (IntNum.handleFileChange
           [Examples.decoded "a.xlsx"; Examples.decoded "b.xlsx"]
           Examples.empty_page) in
  map fileName (excelData page) = ["b.xlsx"]
  /\ fileNames page = ["b.xlsx"]
  /\ activeFile page = Some "Sheet1".
Proof. repeat split; reflexivity. Qed.

(* ================================================================== *)
(** ** Eligibility and column classification *)
(* ================================================================== *)

Section EligibilityFacts.
Context {num : Type}.
Implicit Types (sheet : WorksheetData num) (p : Value num -> bool).

Lemma first_row_some_iff sheet p :
  first_row_some sheet p = true <-> first_row_has sheet p.
Proof.
  unfold first_row_some, first_row_has. split.
  - destruct (data sheet) as [|row0 rest]; [discriminate|].
    intros Hex. apply existsb_exists in Hex as [header [Hin Hp]].
    now exists row0, rest, header.
  - intros (row0 & rest & header & Hdata & Hin & Hp). rewrite Hdata.
    apply existsb_exists. now exists header.
Qed.

Lemma first_row_has_headers sheet p :
  first_row_has sheet p -> headers sheet <> [] /\ data sheet <> [].
Proof.
  intros (row0 & rest & header & Hdata & Hin & _). split.
  - intros Hnil. rewrite Hnil in Hin. exact Hin.
  - rewrite Hdata. discriminate.
Qed.

(** The guard on empty headers and empty rows adds nothing to the three
    first-row tests that follow it. *)
Lemma guarded_by_first_row sheet (b : bool) p :
  (b = true -> first_row_has sheet p) ->
  match headers sheet, data sheet with
  | [], _ | _, [] => false
  | _, _ => b
  end = b.
Proof.
  intros Hb. destruct b; [|now destruct (headers sheet), (data sheet)].
  destruct (first_row_has_headers sheet p (Hb eq_refl)) as [Hh Hd].
  destruct (headers sheet); [contradiction|].
  destruct (data sheet); [contradiction|]. reflexivity.
Qed.

Lemma monthly_eligible_iff sheet :
  monthly_eligible sheet = true
  <-> first_row_has sheet string_or_Date /\ first_row_has sheet is_number.
Proof.
  unfold monthly_eligible.
  rewrite (guarded_by_first_row sheet _ is_number).
  - rewrite andb_true_iff, !first_row_some_iff. reflexivity.
  - intros H. apply andb_true_iff in H as [_ H].
    now apply first_row_some_iff.
Qed.

Lemma project_eligible_iff sheet :
  project_eligible sheet = true
  <-> first_row_has sheet is_string /\ first_row_has sheet string_or_Date
      /\ first_row_has sheet is_number.
Proof.
  unfold project_eligible.
  rewrite (guarded_by_first_row sheet _ is_number).
  - rewrite !andb_true_iff, !first_row_some_iff. tauto.
  - intros H. apply andb_true_iff in H as [_ H].
    now apply first_row_some_iff.
Qed.

Lemma po_eligible_iff sheet :
  po_eligible sheet = true
  <-> first_row_has sheet string_or_number
      /\ first_row_has sheet string_or_Date
      /\ first_row_has sheet is_number.
Proof.
  unfold po_eligible.
  rewrite (guarded_by_first_row sheet _ is_number).
  - rewrite !andb_true_iff, !first_row_some_iff. tauto.
  - intros H. apply andb_true_iff in H as [_ H].
    now apply first_row_some_iff.
Qed.

(** C4, as the code has it.  Eligibility reads the first data row only and
    asks for one column per role.  The date role is met by a timestamp or
    by any string (nothing is parsed); the identifier role of the
    purchase-order report by any string or number (the header is not
    looked at).  A worksheet without rows is eligible for no report. *)
Theorem eligibility_reads_first_row sheet :
  (monthly_eligible sheet = true
   <-> first_row_has sheet string_or_Date /\ first_row_has sheet is_number)
  /\ (project_eligible sheet = true
      <-> first_row_has sheet is_string
          /\ first_row_has sheet string_or_Date
          /\ first_row_has sheet is_number)
  /\ (po_eligible sheet = true
      <-> first_row_has sheet string_or_number
          /\ first_row_has sheet string_or_Date
          /\ first_row_has sheet is_number)
  /\ monthly_eligible (without_rows sheet) = false
  /\ project_eligible (without_rows sheet) = false
  /\ po_eligible (without_rows sheet) = false.
Proof.
  split; [apply monthly_eligible_iff|].
  split; [apply project_eligible_iff|].
  split; [apply po_eligible_iff|].
  unfold monthly_eligible, project_eligible, po_eligible, without_rows; simpl.
  now destruct (headers sheet).
Qed.

End EligibilityFacts.

(** C4, refuted as worded.  The first row of the worksheet holds the text
    hello and the number 5.  No cell is a timestamp and the text is not a
    date, so the worksheet has no date-like column and the claim makes it
    ineligible; the code offers it for the monthly report. *)
Lemma eligibility_accepts_unparsable_text :
  monthly_eligible Examples.notes = true
  /\ Spec.monthly_eligible iso_parse Examples.notes = false
  /\ iso_parse "hello" = None.
Proof. repeat split; reflexivity. Qed.

Section PoColumnFacts.
Context {num : Type}.
Variable Date_parse : string -> option Z.
Implicit Types (sheet : WorksheetData num) (header : string).

Lemma hasPo_iff sheet header :
  hasPo sheet header = true
  <-> po_header header = true
      /\ exists v, In v (sample sheet header) /\ string_or_number v = true.
Proof.
  unfold hasPo, string_or_number. rewrite existsb_exists. split.
  - intros (v & Hin & Hv). destruct (po_header header).
    + split; [reflexivity|]. exists v. split; [exact Hin|].
      now rewrite !andb_true_r in Hv.
    + now rewrite !andb_false_r in Hv.
  - intros (Hh & v & Hin & Hv). exists v. split; [exact Hin|].
    now rewrite Hh, !andb_true_r.
Qed.

(** The extra test on the first row is subsumed by the loop: the first row
    is part of the sample. *)
Lemma first_row_in_sample sheet header row0 rest :
  data sheet = row0 :: rest ->
  is_string (cell row0 header) && po_header header = true ->
  hasPo sheet header = true.
Proof.
  intros Hdata Hfirst. unfold hasPo, sample. rewrite Hdata. simpl.
  rewrite Hfirst. reflexivity.
Qed.

Lemma push_if_app (b : bool) (xs : list string) (x : string) :
  push_if b xs x = (xs ++ if b then [x] else [])%list.
Proof. destruct b; simpl; [reflexivity|now rewrite app_nil_r]. Qed.

Lemma po_classify_fold sheet row0 rest (hs : list string) (cols : PoColumns) :
  data sheet = row0 :: rest ->
  fold_left (po_classify Date_parse sheet) hs (Some cols)
  = Some {| poColumns := poColumns cols ++ filter (hasPo sheet) hs;
            dateColumns :=
              dateColumns cols
              ++ filter (fun h => existsb (date_like Date_parse)
                                          (sample sheet h)) hs;
            valueColumns :=
              valueColumns cols
              ++ filter (fun h => hasNumber sheet h && negb (hasPo sheet h))
                        hs |}.
Proof.
  intros Hdata. revert cols.
  induction hs as [|h hs IH]; intros cols; simpl.
  - rewrite !app_nil_r. now destruct cols.
  - rewrite Hdata. fold (hasPo sheet h). fold (hasNumber sheet h).
    rewrite IH. simpl. rewrite !push_if_app, <- !app_assoc.
    assert (Hsub : hasPo sheet h
                   || (is_string (cell row0 h) && po_header h)
                   = hasPo sheet h).
    { destruct (hasPo sheet h) eqn:Hpo; [reflexivity|]. simpl.
      destruct (is_string (cell row0 h) && po_header h) eqn:Hfirst;
        [|reflexivity].
      now rewrite (first_row_in_sample sheet h row0 rest Hdata Hfirst) in Hpo. }
    rewrite Hsub.
    destruct (hasPo sheet h), (hasNumber sheet h),
      (existsb (date_like Date_parse) (sample sheet h)); reflexivity.
Qed.

Lemma po_classify_no_rows sheet (hs : list string) :
  data sheet = [] -> hs <> [] ->
  fold_left (po_classify Date_parse sheet) hs (Some no_columns) = None.
Proof.
  intros Hdata Hhs. destruct hs as [|h hs]; [contradiction|].
  simpl. rewrite Hdata. clear. induction hs; simpl; auto.
Qed.

(** What [po_columns] returns for a selected worksheet. *)
Lemma po_columns_of_sheet excelData selectedSheet sheet cols :
  selectedSheetData excelData selectedSheet = Some sheet ->
  po_columns Date_parse excelData selectedSheet = Some cols ->
  poColumns cols = filter (hasPo sheet) (headers sheet)
  /\ valueColumns cols
     = filter (fun h => hasNumber sheet h && negb (hasPo sheet h))
              (headers sheet).
Proof.
  unfold po_columns. intros -> Hcols.
  destruct (data sheet) as [|row0 rest] eqn:Hdata.
  - destruct (headers sheet) as [|h hs] eqn:Hh.
    + simpl in Hcols. injection Hcols as <-. now split.
    + rewrite po_classify_no_rows in Hcols; [discriminate|exact Hdata|].
      discriminate.
  - rewrite (po_classify_fold sheet row0 rest _ _ Hdata) in Hcols.
    injection Hcols as <-. now split.
Qed.

(** C10.  Whenever the classification returns, a header offered as a
    purchase-order column is one that matches order, po or purchase
    (whatever the case) and has a string or a number among its sampled
    cells; every such header of the selected worksheet is offered as a
    purchase-order column; and no header offered as a purchase-order
    column is offered as a value column, numeric cells or not. *)
Theorem po_columns_exclude_identifiers excelData selectedSheet cols :
  po_columns Date_parse excelData selectedSheet = Some cols ->
  (forall header,
     In header (poColumns cols) ->
     po_header header = true
     /\ exists sheet v,
          selectedSheetData excelData selectedSheet = Some sheet
          /\ In header (headers sheet)
          /\ In v (sample sheet header) /\ string_or_number v = true)
  /\ (forall sheet header v,
        selectedSheetData excelData selectedSheet = Some sheet ->
        In header (headers sheet) ->
        po_header header = true ->
        In v (sample sheet header) -> string_or_number v = true ->
        In header (poColumns cols))
  /\ (forall header,
        In header (poColumns cols) -> ~ In header (valueColumns cols)).
Proof.
  intros Hcols.
  destruct (selectedSheetData excelData selectedSheet) as [sheet|] eqn:Hsel.
  - destruct (po_columns_of_sheet _ _ _ _ Hsel Hcols) as [Hpo Hval].
    rewrite Hpo, Hval. split; [|split].
    + intros header Hin. apply filter_In in Hin as [Hin Hpo'].
      apply hasPo_iff in Hpo' as [Hh (v & Hv & Hsn)].
      split; [exact Hh|]. exists sheet, v. now repeat split.
    + intros sheet' header v [= <-] Hin Hh Hv Hsn.
      apply filter_In. split; [exact Hin|].
      apply hasPo_iff. split; [exact Hh|]. now exists v.
    + intros header Hin Hin'.
      apply filter_In in Hin as [_ Hpo'].
      apply filter_In in Hin' as [_ Hv'].
      rewrite Hpo' in Hv'. now rewrite andb_false_r in Hv'.
  - unfold po_columns in Hcols. rewrite Hsel in Hcols.
    injection Hcols as <-. simpl. split; [|split].
    + intros header [].
    + intros; discriminate.
    + intros header [].
Qed.

End PoColumnFacts.

(* ================================================================== *)
(** ** Maps, sorting and aggregation *)
(* ================================================================== *)

Section MapFacts.
Context {V : Type}.
Implicit Types (m : JsMap V) (k : string) (v : V).

Lemma map_get_set_same m k v : map_get (map_set m k v) k = Some v.
Proof.
  induction m as [|[k' v'] m IH]; simpl.
  - now rewrite String.eqb_refl.
  - destruct (String.eqb k' k) eqn:E; simpl; rewrite E; [reflexivity|exact IH].
Qed.

Lemma map_get_set_other m k k' v :
  k <> k' -> map_get (map_set m k v) k' = map_get m k'.
Proof.
  intros Hne. induction m as [|[k0 v0] m IH]; simpl.
  - destruct (String.eqb k k') eqn:E; [|reflexivity].
    apply String.eqb_eq in E. contradiction.
  - destruct (String.eqb k0 k) eqn:E; simpl.
    + apply String.eqb_eq in E. subst k0.
      destruct (String.eqb k k') eqn:E'; [|reflexivity].
      apply String.eqb_eq in E'. contradiction.
    + now rewrite IH.
Qed.

Lemma map_get_None m k : map_get m k = None <-> ~ In k (map fst m).
Proof.
  induction m as [|[k' v'] m IH]; simpl.
  - tauto.
  - destruct (String.eqb k' k) eqn:E.
    + apply String.eqb_eq in E. split; [discriminate|]. intros H. tauto.
    + apply String.eqb_neq in E. rewrite IH. tauto.
Qed.

Lemma map_set_keys m k v :
  map fst (map_set m k v)
  = if map_has m k then map fst m else (map fst m ++ [k])%list.
Proof.
  unfold map_has. induction m as [|[k' v'] m IH]; simpl.
  - reflexivity.
  - destruct (String.eqb k' k) eqn:E; simpl.
    + reflexivity.
    + rewrite IH. now destruct (map_get m k).
Qed.

Lemma map_set_NoDup m k v :
  NoDup (map fst m) -> NoDup (map fst (map_set m k v)).
Proof.
  intros Hnd. rewrite map_set_keys. unfold map_has.
  destruct (map_get m k) eqn:E; [exact Hnd|].
  apply map_get_None in E.
  apply NoDup_app; auto.
  - constructor; [intros []|constructor].
  - intros x Hx [<-|[]]. contradiction.
Qed.

Lemma map_get_In m k v :
  NoDup (map fst m) -> (In (k, v) m <-> map_get m k = Some v).
Proof.
  induction m as [|[k' v'] m IH]; simpl; intros Hnd.
  - split; [intros []|discriminate].
  - inversion Hnd as [|? ? Hnotin Hnd']; subst.
    destruct (String.eqb k' k) eqn:E.
    + apply String.eqb_eq in E. subst k'. split.
      * intros [[= ->]|Hin]; [reflexivity|].
        exfalso. apply Hnotin. now apply (in_map fst) in Hin.
      * intros [= ->]. now left.
    + apply String.eqb_neq in E. rewrite <- (IH Hnd'). split.
      * intros [[= -> ->]|Hin]; [contradiction|exact Hin].
      * intros Hin. now right.
Qed.

(** Two maps with the same lookups hold the same entries. *)
Lemma map_ext_Permutation m m' :
  NoDup (map fst m) -> NoDup (map fst m') ->
  (forall k, map_get m k = map_get m' k) ->
  Permutation m m'.
Proof.
  intros Hnd Hnd' Hext.
  apply NoDup_Permutation.
  - now apply NoDup_map_inv in Hnd.
  - now apply NoDup_map_inv in Hnd'.
  - intros [k v]. rewrite (map_get_In m k v Hnd), (map_get_In m' k v Hnd').
    now rewrite Hext.
Qed.

End MapFacts.

Section SortFacts.
Context {A : Type}.
Variable gt : A -> A -> bool.

Lemma sort_insert_Permutation (x : A) (l : list A) :
  Permutation (sort_insert gt x l) (x :: l).
Proof.
  induction l as [|y l IH]; simpl.
  - reflexivity.
  - destruct (gt x y).
    + rewrite IH. apply perm_swap.
    + reflexivity.
Qed.

Lemma sort_Permutation (l : list A) : Permutation (sort gt l) l.
Proof.
  induction l as [|x l IH]; simpl.
  - reflexivity.
  - rewrite sort_insert_Permutation. now apply perm_skip.
Qed.

Lemma sort_In (l : list A) (x : A) : In x (sort gt l) <-> In x l.
Proof.
  split; apply Permutation_in;
    [apply sort_Permutation|symmetry; apply sort_Permutation].
Qed.

(** [x] may stand before [y]: the comparator does not ask to move it
    behind. *)
Local Abbreviation le := (fun x y : A => gt x y = false).

Hypothesis gt_asym : forall x y, gt x y = true -> gt y x = false.

Lemma sort_insert_Sorted (x : A) (l : list A) :
  Sorted le l -> Sorted le (sort_insert gt x l).
Proof.
  induction l as [|y l IH]; simpl; intros Hs.
  - repeat constructor.
  - destruct (gt x y) eqn:E.
    + inversion Hs as [|? ? Hs' Hhd]; subst.
      constructor; [now apply IH|].
      destruct l as [|z l]; simpl.
      * constructor. now apply gt_asym.
      * destruct (gt x z); constructor.
        -- now inversion Hhd.
        -- now apply gt_asym.
    + constructor; [exact Hs|]. now constructor.
Qed.

Lemma sort_Sorted (l : list A) : Sorted le (sort gt l).
Proof.
  induction l as [|x l IH]; simpl.
  - constructor.
  - now apply sort_insert_Sorted.
Qed.

Hypothesis le_trans : forall x y z, le x y -> le y z -> le x z.

Lemma sort_StronglySorted (l : list A) : StronglySorted le (sort gt l).
Proof.
  apply Sorted_StronglySorted; [exact le_trans|apply sort_Sorted].
Qed.

End SortFacts.

Section SumFacts.
Context {num : Type}.
Variable num_add : num -> num -> num.
Implicit Types (m : JsMap num) (k key : string) (v : num)
  (l : list (string * num)).

Lemma accumulate_get m k v k' :
  map_get (accumulate num_add m k v) k'
  = if String.eqb k k'
    then Some match map_get m k with Some x => num_add x v | None => v end
    else map_get m k'.
Proof.
  unfold accumulate. destruct (String.eqb k k') eqn:E.
  - apply String.eqb_eq in E. subst k'.
    destruct (map_get m k); apply map_get_set_same.
  - apply String.eqb_neq in E.
    destruct (map_get m k); now apply map_get_set_other.
Qed.

Lemma accumulate_NoDup m k v :
  NoDup (map fst m) -> NoDup (map fst (accumulate num_add m k v)).
Proof.
  intros Hnd. unfold accumulate.
  destruct (map_get m k); now apply map_set_NoDup.
Qed.

Lemma aggregate_into_NoDup l m :
  NoDup (map fst m) -> NoDup (map fst (aggregate_into num_add m l)).
Proof.
  revert m. induction l as [|[k v] l IH]; intros m Hnd; simpl.
  - exact Hnd.
  - apply IH. now apply accumulate_NoDup.
Qed.

(** The total filed under a key is the sum, from left to right, of what
    the map held before and of the values added under that key. *)
Lemma aggregate_into_get l m key :
  map_get (aggregate_into num_add m l) key
  = sum_from num_add (map_get m key) (values_for key l).
Proof.
  revert m. induction l as [|[k v] l IH]; intros m; simpl.
  - reflexivity.
  - unfold aggregate_into in *. simpl. rewrite IH, accumulate_get.
    unfold values_for. simpl.
    destruct (String.eqb k key) eqn:E; simpl; [|reflexivity].
    apply String.eqb_eq in E. now subst.
Qed.

Lemma aggregate_get l key :
  map_get (aggregate num_add l) key = sum_for num_add key l.
Proof. apply aggregate_into_get. Qed.

Lemma aggregate_NoDup l : NoDup (map fst (aggregate num_add l)).
Proof. apply aggregate_into_NoDup. constructor. Qed.

Lemma sum_from_Some (o : option num) (vs : list num) :
  vs <> [] -> exists s, sum_from num_add o vs = Some s.
Proof.
  revert o. induction vs as [|v vs IH]; intros o Hne; [contradiction|].
  simpl. destruct vs as [|v' vs].
  - simpl. eauto.
  - apply IH. discriminate.
Qed.

Lemma values_for_nil l key :
  values_for key l = [] <-> ~ In key (map fst l).
Proof.
  unfold values_for. induction l as [|[k v] l IH]; simpl.
  - tauto.
  - destruct (String.eqb k key) eqn:E; simpl.
    + apply String.eqb_eq in E. split; [discriminate|]. tauto.
    + apply String.eqb_neq in E. rewrite IH. tauto.
Qed.

Lemma values_for_In l key (v : num) :
  In v (values_for key l) <-> In (key, v) l.
Proof.
  unfold values_for. rewrite in_map_iff. split.
  - intros ([k v'] & <- & Hin). apply filter_In in Hin as [Hin Hk].
    apply String.eqb_eq in Hk. simpl in *. now subst.
  - intros Hin. exists (key, v). split; [reflexivity|].
    apply filter_In. split; [exact Hin|]. apply String.eqb_refl.
Qed.

Lemma sum_for_None l key :
  sum_for num_add key l = None <-> ~ In key (map fst l).
Proof.
  rewrite <- values_for_nil. unfold sum_for. split.
  - intros Hnone. destruct (values_for key l) as [|v vs] eqn:E;
      [reflexivity|].
    destruct (sum_from_Some None (v :: vs)) as [s Hs];
      [discriminate|congruence].
  - now intros ->.
Qed.

Lemma aggregate_keys l key :
  In key (map fst (aggregate num_add l)) <-> In key (map fst l).
Proof.
  destruct (in_dec string_dec key (map fst l)) as [Hin|Hout].
  - split; [now intros _|]. intros _.
    destruct (in_dec string_dec key (map fst (aggregate num_add l)))
      as [Hin'|Hout']; [exact Hin'|].
    apply map_get_None in Hout'. rewrite aggregate_get in Hout'.
    now apply sum_for_None in Hout'.
  - split; [|contradiction]. intros Hin'.
    apply sum_for_None in Hout. rewrite <- aggregate_get in Hout.
    now apply map_get_None in Hout.
Qed.

Lemma collect_In {A B : Type} (f : A -> option B) (rows : list A) (b : B) :
  In b (collect f rows) <-> exists a, In a rows /\ f a = Some b.
Proof.
  unfold collect. rewrite in_flat_map. split.
  - intros (a & Ha & Hb). exists a. split; [exact Ha|].
    destruct (f a); [|destruct Hb]. now destruct Hb as [->|[]].
  - intros (a & Ha & Hb). exists a. split; [exact Ha|].
    rewrite Hb. now left.
Qed.

End SumFacts.

Section AggregateFacts.
Context {num : Type}.
Variable num_add : num -> num -> num.
Variable num_truthy : num -> bool.
Variable num_toString : num -> string.
Variable Date_parse : string -> option Z.
Variable Date_toString : Z -> string.

(** The rows of a report are folded into the map through their
    contributions. *)
Lemma monthly_rows_aggregate dateColumn valueColumn
    (rows : list (Row num)) m :
  fold_left (monthly_row num_add num_truthy Date_parse dateColumn valueColumn)
            rows m
  = aggregate_into num_add m
      (collect (monthly_contribution num_truthy Date_parse
                                     dateColumn valueColumn) rows).
Proof.
  revert m. induction rows as [|row rows IH]; intros m; simpl.
  - reflexivity.
  - rewrite IH. unfold aggregate_into, collect. simpl.
    rewrite fold_left_app. f_equal.
    unfold monthly_row, monthly_contribution.
    destruct (row_date num_truthy Date_parse row dateColumn);
      [|reflexivity].
    now destruct (cell row valueColumn).
Qed.

Lemma po_rows_aggregate poColumn dateColumn valueColumn startDate endDate
    (rows : list (Row num)) m :
  fold_left (po_row num_add num_truthy num_toString Date_parse Date_toString
                    poColumn dateColumn valueColumn startDate endDate)
            rows m
  = aggregate_into num_add m
      (collect (po_contribution num_truthy num_toString Date_parse
                                Date_toString poColumn dateColumn
                                valueColumn startDate endDate) rows).
Proof.
  revert m. induction rows as [|row rows IH]; intros m; simpl.
  - reflexivity.
  - rewrite IH. unfold aggregate_into, collect. simpl.
    rewrite fold_left_app. f_equal.
    unfold po_row, po_contribution.
    destruct (row_date num_truthy Date_parse row dateColumn);
      [|reflexivity].
    destruct (before z startDate || after z endDate); [reflexivity|].
    destruct (truthy num_truthy (cell row poColumn)); [|reflexivity].
    now destruct (cell row valueColumn).
Qed.

Lemma project_rows_collect projectColumn dateColumn valueColumn
    selectedProject selectedMonth (rows : list (Row num))
    (points : list (DataPoint num)) :
  fold_left (project_row num_truthy Date_parse projectColumn dateColumn
                         valueColumn selectedProject selectedMonth)
            rows points
  = (points
     ++ collect (project_point num_truthy Date_parse projectColumn
                               dateColumn valueColumn selectedProject
                               selectedMonth) rows)%list.
Proof.
  revert points. induction rows as [|row rows IH]; intros points; simpl.
  - now rewrite app_nil_r.
  - rewrite IH. unfold collect. simpl. rewrite app_assoc. f_equal.
    unfold project_row, project_point.
    destruct (cell row projectColumn); try now rewrite app_nil_r.
    destruct (String.eqb s selectedProject); simpl;
      [|destruct (row_date num_truthy Date_parse row dateColumn);
        [destruct (cell row valueColumn)|]; now rewrite app_nil_r].
    destruct (row_date num_truthy Date_parse row dateColumn);
      [|now rewrite app_nil_r].
    destruct (selected selectedMonth
              && negb (String.eqb (monthYearOf z)
                                  (interpolate selectedMonth)));
      simpl; destruct (cell row valueColumn);
      try reflexivity; now rewrite app_nil_r.
Qed.

End AggregateFacts.

(* ================================================================== *)
(** ** Printing and reading numbers, month keys *)
(* ================================================================== *)

Section StringFacts.

Lemma digit_not_special (c : ascii) :
  is_digit c = true ->
  Ascii.eqb c "-" = false /\ Ascii.eqb c "+" = false
  /\ Ascii.eqb c "x" = false /\ Ascii.eqb c "X" = false
  /\ is_space c = false.
Proof.
  destruct c as [[] [] [] [] [] [] [] []];
    intros H; try discriminate H; repeat split.
Qed.

Lemma digits_only_uint (d : Decimal.uint) :
  digits_only (NilEmpty.string_of_uint d) = true.
Proof. induction d; simpl; auto. Qed.

Lemma digit_prefix_digits (s : string) :
  digits_only s = true -> digit_prefix s = s.
Proof.
  induction s as [|c s IH]; simpl; [reflexivity|].
  intros H. apply andb_true_iff in H as [Hc Hs].
  now rewrite Hc, IH.
Qed.

Lemma parse_magnitude_digits (s : string) :
  digits_only s = true -> parse_magnitude s = parse_decimal s.
Proof.
  destruct s as [|c0 [|c1 rest]]; simpl; try reflexivity.
  intros H. apply andb_true_iff in H as [_ H].
  apply andb_true_iff in H as [H1 _].
  destruct (digit_not_special c1 H1) as (_ & _ & Hx & HX & _).
  now rewrite Hx, HX, andb_false_r.
Qed.

Lemma parseInt_digits (s : string) :
  digits_only s = true -> s <> "" ->
  parseInt (Some s) = parse_decimal s.
Proof.
  intros Hd Hne. destruct s as [|c rest]; [contradiction|].
  pose proof Hd as Hd'. simpl in Hd'.
  apply andb_true_iff in Hd' as [Hc _].
  destruct (digit_not_special c Hc) as (Hm & Hp & _ & _ & Hsp).
  unfold parseInt, skip_spaces. rewrite Hsp, Hm, Hp.
  now apply parse_magnitude_digits.
Qed.

Lemma parse_decimal_uint (d : Decimal.uint) :
  d <> Decimal.Nil ->
  parse_decimal (NilEmpty.string_of_uint d) = Some (Z.of_uint d).
Proof.
  intros Hne. unfold parse_decimal.
  rewrite (digit_prefix_digits _ (digits_only_uint d)).
  destruct (NilEmpty.string_of_uint d) as [|c s] eqn:E.
  - destruct d; try contradiction; discriminate E.
  - rewrite <- E, NilEmpty.usu. reflexivity.
Qed.

Lemma Z_toString_pos (p : positive) :
  Z_toString (Z.pos p) = NilEmpty.string_of_uint (Pos.to_uint p)
  /\ Pos.to_uint p <> Decimal.Nil.
Proof.
  assert (Hne : Pos.to_uint p <> Decimal.Nil).
  { intros Hnil. pose proof (DecimalPos.Unsigned.of_to p) as H.
    rewrite Hnil in H. discriminate H. }
  split; [|exact Hne].
  unfold Z_toString. simpl. unfold NilZero.string_of_uint.
  destruct (Pos.to_uint p); try reflexivity. contradiction.
Qed.

Lemma Z_toString_digits (y : Z) :
  0 <= y -> digits_only (Z_toString y) = true /\ Z_toString y <> "".
Proof.
  intros Hy. destruct y as [|p|p]; [now split| |lia].
  destruct (Z_toString_pos p) as [-> Hne]. split.
  - apply digits_only_uint.
  - destruct (Pos.to_uint p); try contradiction; discriminate.
Qed.

(** Reading back a printed year. *)
Lemma parseInt_Z_toString (y : Z) :
  0 <= y -> parseInt (Some (Z_toString y)) = Some y.
Proof.
  intros Hy. destruct (Z_toString_digits y Hy) as [Hd Hne].
  rewrite (parseInt_digits _ Hd Hne).
  destruct y as [|p|p]; [reflexivity| |lia].
  destruct (Z_toString_pos p) as [-> Hnil].
  rewrite (parse_decimal_uint _ Hnil).
  unfold Z.of_uint. now rewrite DecimalPos.Unsigned.of_to.
Qed.

Lemma split_digits (s : string) :
  digits_only s = true -> split "-" s = [s].
Proof.
  induction s as [|c s IH]; simpl; [reflexivity|].
  intros H. apply andb_true_iff in H as [Hc Hs].
  destruct (digit_not_special c Hc) as (-> & _).
  now rewrite (IH Hs).
Qed.

Lemma split_digits_dash (a b : string) :
  digits_only a = true ->
  split "-" (a ++ String "-" b) = a :: split "-" b.
Proof.
  induction a as [|c a IH]; simpl; [reflexivity|].
  intros H. apply andb_true_iff in H as [Hc Ha].
  destruct (digit_not_special c Hc) as (-> & _).
  now rewrite (IH Ha).
Qed.

Lemma month_cases (m : Z) :
  1 <= m <= 12 ->
  In m [1; 2; 3; 4; 5; 6; 7; 8; 9; 10; 11; 12].
Proof. intros H. simpl. lia. Qed.

(** A month number from 1 to 12, padded and read back. *)
Lemma pad2_month (m : Z) :
  1 <= m <= 12 ->
  digits_only (pad2 m) = true /\ parseInt (Some (pad2 m)) = Some m
  /\ String.length (pad2 m) = 2%nat.
Proof.
  intros Hm. apply month_cases in Hm. simpl in Hm.
  repeat (destruct Hm as [<-|Hm]; [now vm_compute|]). contradiction.
Qed.

(** The key of a month splits back into its year and its month. *)
Lemma split_month_key (y m : Z) :
  0 <= y -> 1 <= m <= 12 ->
  split "-" (Z_toString y ++ "-" ++ pad2 m) = [Z_toString y; pad2 m].
Proof.
  intros Hy Hm. destruct (Z_toString_digits y Hy) as [Hd _].
  destruct (pad2_month m Hm) as (Hp & _).
  change ("-" ++ pad2 m)%string with (String "-" (pad2 m)).
  now rewrite (split_digits_dash _ _ Hd), (split_digits _ Hp).
Qed.

End StringFacts.

(* ================================================================== *)
(** ** Calendar facts *)
(* ================================================================== *)

Section DateFacts.

Lemma DaysBeforeMonth_bounds (y mn : Z) : 0 <= DaysBeforeMonth y mn <= 335.
Proof.
  unfold DaysBeforeMonth.
  destruct (DaysInYear y =? 366);
    repeat match goal with
           | |- context [if ?c then _ else _] => destruct c
           end; lia.
Qed.

(** The day after day 0 of a month is its day 1: day 0 is the last day of
    the month before. *)
Lemma MakeDay_succ (y m d : Z) : MakeDay y m (d + 1) = MakeDay y m d + 1.
Proof. unfold MakeDay. lia. Qed.

Lemma DayFromYear_bounds (y : Z) :
  100 <= y <= 275001 -> -700000 <= DayFromYear y <= 99800000.
Proof.
  intros Hy. unfold DayFromYear.
  Z.div_mod_to_equations. lia.
Qed.

Lemma MakeDay_bounds (y m d : Z) :
  100 <= y <= 275000 -> 0 <= m <= 12 -> 0 <= d <= 1 ->
  -700001 <= MakeDay y m d <= 99800400.
Proof.
  intros Hy Hm Hd. unfold MakeDay.
  assert (Hq : m / 12 = 0 \/ m / 12 = 1).
  { Z.div_mod_to_equations. lia. }
  pose proof (DaysBeforeMonth_bounds (y + m / 12) (m mod 12)) as Hb.
  pose proof (DayFromYear_bounds (y + m / 12)) as Hf.
  destruct Hq as [Hq|Hq]; rewrite Hq in *; lia.
Qed.

(** [new Date(y, m, d)] for the first or the zeroth day of a month of a
    year from 100 on is the local midnight of that day. *)
Lemma new_Date_month (y m d : Z) :
  100 <= y <= 275000 -> 0 <= m <= 12 -> 0 <= d <= 1 ->
  new_Date (Some y) (Some m) (Some d) = Some (MakeDate (MakeDay y m d) 0).
Proof.
  intros Hy Hm Hd. unfold new_Date.
  replace ((0 <=? y) && (y <=? 99)) with false
    by (symmetry; apply andb_false_iff; right; apply Z.leb_gt; lia).
  unfold TimeClip, MakeDate, msPerDay.
  pose proof (MakeDay_bounds y m d Hy Hm Hd) as Hb.
  replace (Z.abs (MakeDay y m d * 86400000 + 0) <=? 8640000000000000)
    with true; [reflexivity|].
  symmetry. apply Z.leb_le. lia.
Qed.

(** The window of the purchase-order report for the month [m] (from 1) of
    year [y]: from the midnight that starts its first day to the midnight
    that starts its last day. *)
Lemma po_window_of_month (y m : Z) :
  100 <= y <= 275000 -> 1 <= m <= 12 ->
  po_startDate (Z_toString y ++ "-" ++ pad2 m)
  = Some (MakeDate (MakeDay y (m - 1) 1) 0)
  /\ po_endDate (Z_toString y ++ "-" ++ pad2 m)
     = Some (MakeDate (MakeDay y m 0) 0).
Proof.
  intros Hy Hm. unfold po_startDate, po_endDate.
  rewrite split_month_key by lia. unfold nth_elem. simpl nth_error.
  rewrite parseInt_Z_toString by lia.
  destruct (pad2_month m Hm) as (_ & -> & _). simpl option_map.
  split; apply new_Date_month; lia.
Qed.

End DateFacts.

Section MonthOrderFacts.

Lemma getMonth_range (t : Z) : 0 <= getMonth t <= 11.
Proof.
  unfold getMonth, MonthFromTime.
  repeat match goal with
         | |- context [if ?c then _ else _] => destruct c
         end; lia.
Qed.

Lemma DaysBeforeMonth_linear (y m : Z) :
  0 <= m <= 11 -> 30 * m - 2 <= DaysBeforeMonth y m <= 31 * m.
Proof.
  intros Hm. unfold DaysBeforeMonth.
  destruct (DaysInYear y =? 366);
    repeat match goal with
           | |- context [if ?c then _ else _] => destruct c eqn:?
           end; lia.
Qed.

Lemma DayFromYear_step (y : Z) : DayFromYear y + 365 <= DayFromYear (y + 1).
Proof.
  unfold DayFromYear. Z.div_mod_to_equations. lia.
Qed.

Lemma DayFromYear_lt (y y' : Z) :
  y < y' -> DayFromYear y + 365 <= DayFromYear y'.
Proof.
  intros Hlt. replace y' with (y + 1 + (y' - y - 1)) by lia.
  assert (Hk : 0 <= y' - y - 1) by lia. revert Hk.
  generalize (y' - y - 1). apply natlike_ind.
  - rewrite Z.add_0_r. apply DayFromYear_step.
  - intros k Hk IH. pose proof (DayFromYear_step (y + 1 + k)).
    replace (y + 1 + Z.succ k) with (y + 1 + k + 1) by lia. lia.
Qed.

(** An earlier month starts earlier. *)
Lemma month_start_lt (ya ma yb mb : Z) :
  1 <= ma <= 12 -> 1 <= mb <= 12 ->
  month_before ya ma yb mb -> month_start ya ma < month_start yb mb.
Proof.
  intros Ha Hb Hlt. unfold month_start, MakeDate, MakeDay, msPerDay.
  rewrite !Z.div_small, !Z.mod_small, !Z.add_0_r by lia.
  pose proof (DaysBeforeMonth_linear ya (ma - 1)) as Hda.
  pose proof (DaysBeforeMonth_linear yb (mb - 1)) as Hdb.
  destruct Hlt as [Hy|[<- Hm]].
  - pose proof (DayFromYear_lt ya yb Hy). lia.
  - pose proof (DaysBeforeMonth_linear ya (mb - 1)). lia.
Qed.

End MonthOrderFacts.

Section CalendarFacts.

(** [YearFromDay] is the year of ECMA-262: the one whose first day is the
    last first day of a year not after [d]. *)
Lemma YearFromDay_spec (d : Z) :
  DayFromYear (YearFromDay d) <= d < DayFromYear (YearFromDay d + 1).
Proof.
  unfold YearFromDay.
  set (y0 := 1970 + d * 400 / 146097).
  assert (H0 : DayFromYear (y0 - 1) <= d < DayFromYear (y0 + 2)).
  { unfold y0, DayFromYear. Z.div_mod_to_equations. lia. }
  destruct (d <? DayFromYear y0) eqn:E1.
  - apply Z.ltb_lt in E1. replace (y0 - 1 + 1) with y0 by lia. lia.
  - apply Z.ltb_ge in E1.
    destruct (DayFromYear (y0 + 1) <=? d) eqn:E2.
    + apply Z.leb_le in E2. replace (y0 + 1 + 1) with (y0 + 2) by lia. lia.
    + apply Z.leb_gt in E2. lia.
Qed.

Lemma DayFromYear_next (y : Z) :
  DayFromYear (y + 1) = DayFromYear y + DaysInYear y.
Proof.
  unfold DayFromYear, DaysInYear.
  destruct (Z.eqb_spec (y mod 4) 0), (Z.eqb_spec (y mod 100) 0),
    (Z.eqb_spec (y mod 400) 0); cbn [negb];
    Z.div_mod_to_equations; lia.
Qed.

Lemma DayFromYear_le (y y' : Z) : y <= y' -> DayFromYear y <= DayFromYear y'.
Proof.
  intros Hle. destruct (Z.eq_dec y y') as [->|Hne]; [lia|].
  pose proof (DayFromYear_lt y y'). lia.
Qed.

Lemma YearFromDay_unique (d y : Z) :
  DayFromYear y <= d < DayFromYear (y + 1) -> YearFromDay d = y.
Proof.
  intros Hy. pose proof (YearFromDay_spec d) as Hs.
  destruct (Z.lt_trichotomy (YearFromDay d) y) as [Hlt|[Heq|Hgt]];
    [|exact Heq|].
  - pose proof (DayFromYear_le (YearFromDay d + 1) y). lia.
  - pose proof (DayFromYear_le (y + 1) (YearFromDay d)). lia.
Qed.

Lemma DaysInYear_cases (y : Z) : DaysInYear y = 365 \/ DaysInYear y = 366.
Proof.
  unfold DaysInYear.
  destruct (y mod 4 =? 0), (y mod 100 =? 0), (y mod 400 =? 0); simpl; auto.
Qed.

(** The local fields of a time value made from a year, a month, a day of
    that month and a time of day are these. *)
Lemma local_fields (y m dd ms : Z) :
  0 <= m <= 11 -> 1 <= dd <= DaysInMonth y m -> 0 <= ms < msPerDay ->
  let t := MakeDate (MakeDay y m dd) ms in
  getFullYear t = y /\ getMonth t = m /\ getDate t = dd.
Proof.
  intros Hm Hdd Hms t.
  assert (Hday : Day t = MakeDay y m dd).
  { unfold t, Day, MakeDate. unfold msPerDay in *.
    Z.div_mod_to_equations. lia. }
  assert (Hmk : MakeDay y m dd = DayFromYear y + DaysBeforeMonth y m + dd - 1).
  { unfold MakeDay. now rewrite Z.div_small, Z.mod_small, Z.add_0_r by lia. }
  assert (Hin : 0 <= DaysBeforeMonth y m + dd - 1 < DaysInYear y).
  { unfold DaysInMonth, DaysBeforeMonth in *.
    destruct (DaysInYear_cases y) as [E|E]; rewrite E in *; simpl in *;
      repeat match goal with
             | H : context [if ?c then _ else _] |- _ => destruct c eqn:?
             | |- context [if ?c then _ else _] => destruct c eqn:?
             end; lia. }
  assert (Hyear : YearFromTime t = y).
  { unfold YearFromTime. rewrite Hday, Hmk. apply YearFromDay_unique.
    rewrite DayFromYear_next. lia. }
  assert (Hwithin : DayWithinYear t = DaysBeforeMonth y m + dd - 1).
  { unfold DayWithinYear. rewrite Hyear, Hday, Hmk. lia. }
  assert (Hmonth : MonthFromTime t = m).
  { unfold MonthFromTime, InLeapYear. rewrite Hwithin, Hyear.
    unfold DaysInMonth, DaysBeforeMonth in *.
    destruct (DaysInYear_cases y) as [E|E]; rewrite E in *; simpl in *;
      repeat match goal with
             | H : context [if ?c then _ else _] |- _ => destruct c eqn:?
             | |- context [if ?c then _ else _] => destruct c eqn:?
             end; lia. }
  unfold getFullYear, getMonth, getDate, DateFromTime.
  rewrite Hyear, Hmonth, Hwithin. repeat split. lia.
Qed.

(** Day 0 of the month after [m] is the last day of [m]. *)
Lemma MakeDay_last_day (y m : Z) :
  1 <= m <= 12 ->
  MakeDay y m 0 = MakeDay y (m - 1) (DaysInMonth y (m - 1)).
Proof.
  intros Hm. unfold MakeDay.
  rewrite (Z.div_small (m - 1)), (Z.mod_small (m - 1)), !Z.add_0_r by lia.
  destruct (Z.eq_dec m 12) as [->|Hne].
  - change (12 / 12) with 1. change (12 mod 12) with 0.
    change (12 - 1) with 11.
    assert (H0 : DaysBeforeMonth (y + 1) 0 = 0) by reflexivity.
    assert (H11 : DaysBeforeMonth y 11
                  = 334 + (if DaysInYear y =? 366 then 1 else 0))
      by reflexivity.
    assert (H31 : DaysInMonth y 11 = 31) by reflexivity.
    rewrite H0, H11, H31, DayFromYear_next.
    destruct (DaysInYear_cases y) as [E|E]; rewrite E;
      [change (365 =? 366) with false|change (366 =? 366) with true];
      cbv iota; lia.
  - rewrite (Z.div_small m), (Z.mod_small m), !Z.add_0_r by lia.
    unfold DaysInMonth.
    replace (m - 1 =? 11) with false by (symmetry; apply Z.eqb_neq; lia).
    replace (m - 1 + 1) with m by lia. lia.
Qed.

End CalendarFacts.

(* ================================================================== *)
(** ** Purchase-order report *)
(* ================================================================== *)

(** C10, on a worksheet whose order numbers are numeric. *)
Lemma po_columns_exclude_identifiers_witness :
  IntNum.po_columns [Examples.numbered] (Some "numbered.xlsx-Orders")
  = Some {| poColumns := ["Order No"]; dateColumns := ["Date"];
            valueColumns := ["Amount"] |}
  /\ ~ In "Order No" ["Amount"].
Proof.
  split; [reflexivity|].
  apply (proj2 (proj2 (po_columns_exclude_identifiers
                         iso_parse [Examples.numbered]
                         (Some "numbered.xlsx-Orders")
                         {| poColumns := ["Order No"];
                            dateColumns := ["Date"];
                            valueColumns := ["Amount"] |}
                         eq_refl)) "Order No").
  simpl. left. reflexivity.
Defined.

Section PoWindowFacts.
Context {num : Type}.
Variable num_add : num -> num -> num.
Variable num_sub : num -> num -> num.
Variable num_gt0 : num -> bool.
Variable num_truthy : num -> bool.
Variable num_toString : num -> string.
Variable Date_parse : string -> option Z.
Variable Date_toString : Z -> string.

Lemma selectedSheetData_selected (excelData : list (WorksheetData num))
    (selectedSheet : option string) (sheet : WorksheetData num) :
  selectedSheetData excelData selectedSheet = Some sheet ->
  selected selectedSheet = true.
Proof.
  unfold selectedSheetData, selected.
  destruct selectedSheet as [id|]; [|discriminate].
  now destruct (String.eqb id "").
Qed.

Lemma selected_Some (s : string) : s <> "" -> selected (Some s) = true.
Proof.
  intros Hne. unfold selected. apply negb_true_iff.
  now apply String.eqb_neq.
Qed.

Lemma map_id_total_mapi_from (now : Z) (l : list (string * num)) (i : nat) :
  map id_total (mapi_from (po_bucket now) i l) = l.
Proof.
  revert i. induction l as [|[k v] l IH]; intros i; simpl.
  - reflexivity.
  - now rewrite IH.
Qed.

(** The purchase-order report of a complete selection. *)
Lemma poData_selected (now : Z) excelData selectedSheet sheet
    (pc dc vc sm : string) :
  selectedSheetData excelData selectedSheet = Some sheet ->
  pc <> "" -> dc <> "" -> vc <> "" -> sm <> "" ->
  poData num_add num_sub num_gt0 num_truthy num_toString Date_parse
         Date_toString now excelData selectedSheet
         (Some pc) (Some dc) (Some vc) (Some sm)
  = sort (by_total_desc num_sub num_gt0)
         (mapi (po_bucket now)
               (aggregate num_add
                  (collect (po_contribution num_truthy num_toString
                              Date_parse Date_toString pc dc vc
                              (po_startDate sm) (po_endDate sm))
                           (data sheet)))).
Proof.
  intros Hsheet Hpc Hdc Hvc Hsm. unfold poData.
  rewrite Hsheet, (selectedSheetData_selected _ _ _ Hsheet).
  rewrite !selected_Some by assumption. simpl.
  now rewrite po_rows_aggregate.
Qed.

(** Its buckets are the entries of the map: one per identifier, with the
    sum of the contributions filed under it. *)
Lemma poData_entries (now : Z) excelData selectedSheet sheet
    (pc dc vc sm : string) (id : string) (sum : num) :
  selectedSheetData excelData selectedSheet = Some sheet ->
  pc <> "" -> dc <> "" -> vc <> "" -> sm <> "" ->
  In (id, sum)
     (map id_total
          (poData num_add num_sub num_gt0 num_truthy num_toString Date_parse
                  Date_toString now excelData selectedSheet
                  (Some pc) (Some dc) (Some vc) (Some sm)))
  <-> sum_for num_add id
        (collect (po_contribution num_truthy num_toString Date_parse
                    Date_toString pc dc vc (po_startDate sm) (po_endDate sm))
                 (data sheet))
      = Some sum.
Proof.
  intros Hsheet Hpc Hdc Hvc Hsm.
  rewrite (poData_selected now _ _ _ _ _ _ _ Hsheet Hpc Hdc Hvc Hsm).
  rewrite <- aggregate_get.
  rewrite <- (map_get_In _ id sum (aggregate_NoDup num_add _)).
  set (entries := aggregate num_add _).
  assert (Hperm : Permutation
                    (map id_total
                       (sort (by_total_desc num_sub num_gt0)
                             (mapi (po_bucket now) entries)))
                    entries).
  { rewrite (Permutation_map id_total (sort_Permutation _ _)).
    unfold mapi. now rewrite map_id_total_mapi_from. }
  split; apply Permutation_in; [exact Hperm|now symmetry].
Qed.

Lemma month_key_nonempty (y m : Z) : Z_toString y ++ "-" ++ pad2 m <> "".
Proof.
  destruct (Z_toString y); discriminate.
Qed.

(** The window of the purchase-order report as the code computes it, for
    the month [m] of a year [y] of three digits or more, selected by its
    key: the buckets hold, per identifier, the sum of the contributions of
    the rows; a row contributes when its date cell yields a date from the
    midnight that starts the first day to the midnight that starts the
    last day, its identifier cell is truthy and its value cell is a
    number; and a row that contributes has a date within the month, a
    truthy identifier and a numeric value. *)
Theorem poData_window (y m : Z) (now : Z) excelData selectedSheet sheet
    (pc dc vc : string) :
  100 <= y <= 275000 -> 1 <= m <= 12 ->
  selectedSheetData excelData selectedSheet = Some sheet ->
  pc <> "" -> dc <> "" -> vc <> "" ->
  let sm := Z_toString y ++ "-" ++ pad2 m in
  let first := MakeDate (MakeDay y (m - 1) 1) 0 in
  let last := MakeDate (MakeDay y m 0) 0 in
  let next := MakeDate (MakeDay y m 1) 0 in
  let contribution :=
    po_contribution num_truthy num_toString Date_parse Date_toString
                    pc dc vc (po_startDate sm) (po_endDate sm) in
  (forall id sum,
     In (id, sum)
        (map id_total
             (poData num_add num_sub num_gt0 num_truthy num_toString
                     Date_parse Date_toString now excelData selectedSheet
                     (Some pc) (Some dc) (Some vc) (Some sm)))
     <-> sum_for num_add id (collect contribution (data sheet)) = Some sum)
  /\ (forall row d v,
        row_date num_truthy Date_parse row dc = Some d ->
        first <= d <= last ->
        truthy num_truthy (cell row pc) = true ->
        cell row vc = VNumber v ->
        contribution row
        = Some (toString num_toString Date_toString (cell row pc), v))
  /\ (forall row id v,
        contribution row = Some (id, v) ->
        exists d,
          row_date num_truthy Date_parse row dc = Some d
          /\ first <= d < next
          /\ truthy num_truthy (cell row pc) = true
          /\ id = toString num_toString Date_toString (cell row pc)
          /\ cell row vc = VNumber v)
  /\ next = last + msPerDay
  /\ last = MakeDate (MakeDay y (m - 1) (DaysInMonth y (m - 1))) 0.
Proof.
  intros Hy Hm Hsheet Hpc Hdc Hvc sm first last next contribution.
  destruct (po_window_of_month y m Hy Hm) as [Hstart Hend].
  fold sm in Hstart, Hend. fold first in Hstart. fold last in Hend.
  assert (Hnext : next = last + msPerDay).
  { unfold next, last, MakeDate.
    replace 1 with (0 + 1) at 1 by reflexivity.
    rewrite MakeDay_succ. lia. }
  split; [|split; [|split; [|split; [exact Hnext|]]]].
  - intros id sum. apply poData_entries; try assumption.
    apply month_key_nonempty.
  - intros row d v Hd Hwin Hpo Hv. unfold contribution, po_contribution.
    rewrite Hd, Hstart, Hend, Hpo, Hv. unfold before, after.
    replace (d <? first) with false by (symmetry; apply Z.ltb_ge; lia).
    replace (last <? d) with false by (symmetry; apply Z.ltb_ge; lia).
    reflexivity.
  - intros row id v. unfold contribution, po_contribution.
    rewrite Hstart, Hend. unfold before, after.
    destruct (row_date num_truthy Date_parse row dc) as [d|];
      [|discriminate].
    destruct (d <? first) eqn:Hlo; [discriminate|].
    destruct (last <? d) eqn:Hhi; [discriminate|]. simpl.
    destruct (truthy num_truthy (cell row pc)) eqn:Hpo; [|discriminate].
    destruct (cell row vc) eqn:Hv; try discriminate.
    intros [= <- <-]. exists d.
    apply Z.ltb_ge in Hlo, Hhi. unfold msPerDay in Hnext.
    repeat split; try reflexivity; lia.
  - unfold last. now rewrite MakeDay_last_day.
Qed.

End PoWindowFacts.

(** The window of January 2024, for an order of 10 January. *)
Lemma poData_window_witness :
  po_contribution IntNum.is_truthy Z_toString iso_parse
    DateText.Date_toString "PO Number" "Date" "Amount"
    (po_startDate "2024-01") (po_endDate "2024-01")
    [("PO Number", Examples.txt "PO-1");
     ("Date", Examples.day (at_local 2024 1 10 8 0));
     ("Amount", Examples.int 200)]
  = Some ("PO-1", 200).
Proof.
  exact (proj1 (proj2 (poData_window
                         IntNum.add IntNum.sub IntNum.gt0 IntNum.is_truthy
                         Z_toString iso_parse DateText.Date_toString
                         2024 1 0 [Examples.orders] Examples.orders_id
                         Examples.orders "PO Number" "Date" "Amount"
                         ltac:(lia) ltac:(lia) eq_refl
                         ltac:(discriminate) ltac:(discriminate)
                         ltac:(discriminate)))
               [("PO Number", Examples.txt "PO-1");
                ("Date", Examples.day (at_local 2024 1 10 8 0));
                ("Amount", Examples.int 200)]
               (at_local 2024 1 10 8 0) 200
               eq_refl
               ltac:(vm_compute; split; discriminate)
               eq_refl eq_refl).
Defined.

Section SortOnFacts.
Context {A : Type}.
Variable gt : A -> A -> bool.
Variable P : A -> Prop.

Local Abbreviation le := (fun x y : A => gt x y = false).

Hypothesis gt_asym : forall x y, P x -> P y -> gt x y = true -> gt y x = false.

Lemma sort_insert_Forall (x : A) (l : list A) :
  P x -> Forall P l -> Forall P (sort_insert gt x l).
Proof.
  intros Hx Hl. induction Hl as [|y l Hy Hl IH]; simpl.
  - now repeat constructor.
  - destruct (gt x y); repeat constructor; assumption.
Qed.

Lemma sort_Forall (l : list A) : Forall P l -> Forall P (sort gt l).
Proof.
  induction 1 as [|x l Hx Hl IH]; simpl; [constructor|].
  now apply sort_insert_Forall.
Qed.

Lemma sort_insert_Sorted_on (x : A) (l : list A) :
  P x -> Forall P l -> Sorted le l -> Sorted le (sort_insert gt x l).
Proof.
  intros Hx Hl. induction Hl as [|y l Hy Hl IH]; simpl; intros Hs.
  - repeat constructor.
  - destruct (gt x y) eqn:E.
    + inversion Hs as [|? ? Hs' Hhd]; subst.
      constructor; [now apply IH|].
      destruct Hl as [|z l Hz Hl]; simpl.
      * constructor. now apply gt_asym.
      * destruct (gt x z); constructor.
        -- now inversion Hhd.
        -- now apply gt_asym.
    + constructor; [exact Hs|]. now constructor.
Qed.

Lemma sort_Sorted_on (l : list A) : Forall P l -> Sorted le (sort gt l).
Proof.
  induction 1 as [|x l Hx Hl IH]; simpl; [constructor|].
  apply sort_insert_Sorted_on; [exact Hx|now apply sort_Forall|exact IH].
Qed.

Hypothesis le_trans :
  forall x y z, P x -> P y -> P z -> le x y -> le y z -> le x z.

Lemma Sorted_StronglySorted_on (l : list A) :
  Forall P l -> Sorted le l -> StronglySorted le l.
Proof.
  induction 1 as [|x l Hx Hl IH]; intros Hs; [constructor|].
  inversion Hs as [|? ? Hs' Hhd]; subst.
  specialize (IH Hs'). constructor; [exact IH|].
  destruct Hl as [|y l Hy Hl]; [constructor|].
  inversion Hhd as [|? ? Hxy]; subst.
  inversion IH as [|? ? _ Hall]; subst.
  constructor; [exact Hxy|].
  rewrite Forall_forall in *. intros z Hz.
  apply (le_trans x y z); auto.
Qed.

Lemma sort_StronglySorted_on (l : list A) :
  Forall P l -> StronglySorted le (sort gt l).
Proof.
  intros Hl. apply Sorted_StronglySorted_on;
    [now apply sort_Forall|now apply sort_Sorted_on].
Qed.

End SortOnFacts.

Section PoOrderFacts.
Context {num : Type}.
Variable num_add : num -> num -> num.
Variable num_sub : num -> num -> num.
Variable num_gt0 : num -> bool.
Variable num_truthy : num -> bool.
Variable num_toString : num -> string.
Variable Date_parse : string -> option Z.
Variable Date_toString : Z -> string.

(** C7.  The purchase-order report comes out in descending order of
    accumulated total.  The total of a bucket is the sum of the values of
    the rows of its identifier that the report counts, and, when the
    comparator orders these totals, no bucket is exceeded by a bucket
    behind it.  With PO-1 at 200 and PO-2 at 500 in the
    selected month the result is PO-2 (500), then PO-1 (200); with PO-2 at
    250 and PO-1 at 100 and at 200 it is PO-1 (300), then PO-2 (250). *)
Theorem poData_descending_total (now : Z)
    (excelData : list (WorksheetData num))
    (selectedSheet poColumn dateColumn valueColumn selectedMonth
     : option string) :
  let report :=
    poData num_add num_sub num_gt0 num_truthy num_toString Date_parse
           Date_toString now excelData selectedSheet poColumn dateColumn
           valueColumn selectedMonth in
  comparable num_sub num_gt0 (map total report) ->
  StronglySorted
    (fun a b => not_below num_sub num_gt0 (total a) (total b)) report
  /\ (forall sheet pc dc vc sm,
        selectedSheetData excelData selectedSheet = Some sheet ->
        poColumn = Some pc -> dateColumn = Some dc ->
        valueColumn = Some vc -> selectedMonth = Some sm ->
        pc <> "" -> dc <> "" -> vc <> "" -> sm <> "" ->
        forall id sum,
          In (id, sum) (map id_total report)
          <-> sum_for num_add id
                (collect (po_contribution num_truthy num_toString
                            Date_parse Date_toString pc dc vc
                            (po_startDate sm) (po_endDate sm))
                         (data sheet))
              = Some sum)
  /\ map id_total
       (IntNum.poData now [Examples.orders] Examples.orders_id
          (Some "PO Number") (Some "Date") (Some "Amount") (Some "2024-01"))
     = [("PO-2", 500); ("PO-1", 200)]
  /\ map id_total
       (IntNum.poData now [Examples.split_orders] Examples.orders_id
          (Some "PO Number") (Some "Date") (Some "Amount") (Some "2024-01"))
     = [("PO-1", 300); ("PO-2", 250)].
Proof.
  intros report [Hasym Htrans].
  split; [|split; [|split; reflexivity]].
  - revert Hasym Htrans. unfold report, poData.
    destruct (selectedSheetData excelData selectedSheet) as [sheet|];
      [|constructor].
    destruct poColumn as [pc|]; [|constructor].
    destruct dateColumn as [dc|]; [|constructor].
    destruct valueColumn as [vc|]; [|constructor].
    destruct selectedMonth as [sm|]; [|constructor].
    match goal with |- context [if ?c then _ else _] => destruct c end;
      [|constructor].
    match goal with
    | |- context [sort ?gt ?l] => set (buckets := l)
    end.
    intros Hasym Htrans.
    apply (sort_StronglySorted_on (by_total_desc num_sub num_gt0)
             (fun b => In (total b)
                          (map total
                               (sort (by_total_desc num_sub num_gt0)
                                     buckets)))).
    + intros a b Ha Hb. unfold by_total_desc. now apply Hasym.
    + intros a b c Ha Hb Hc. unfold by_total_desc.
      now apply (Htrans (total a) (total b) (total c)).
    + apply Forall_forall. intros b Hb. apply in_map.
      now apply sort_In.
  - intros sheet pc dc vc sm Hsheet -> -> -> -> Hpc Hdc Hvc Hsm id sum.
    now apply poData_entries.
Qed.

End PoOrderFacts.

(** The comparator orders all integers. *)
Lemma comparable_integers (values : list Z) :
  comparable IntNum.sub IntNum.gt0 values.
Proof.
  unfold comparable, not_below, IntNum.gt0, IntNum.sub. split.
  - intros x y _ _ H. apply Z.ltb_lt in H. apply Z.ltb_ge. lia.
  - intros x y z _ _ _ H1 H2. apply Z.ltb_ge in H1. apply Z.ltb_ge in H2.
    apply Z.ltb_ge. lia.
Qed.

(** It orders the totals of the examples as binary64 has them. *)
Remark comparable_binary64 :
  comparable F64.sub F64.gt0
    [F64.repr 200; F64.repr 250; F64.repr 300; F64.repr 500].
Proof.
  split.
  - intros x y Hx Hy. simpl in Hx, Hy.
    repeat (destruct Hx as [<-|Hx]); try contradiction;
      repeat (destruct Hy as [<-|Hy]); try contradiction;
      vm_compute; intros H; try reflexivity; discriminate H.
  - intros x y z Hx Hy Hz. simpl in Hx, Hy, Hz.
    repeat (destruct Hx as [<-|Hx]); try contradiction;
      repeat (destruct Hy as [<-|Hy]); try contradiction;
      repeat (destruct Hz as [<-|Hz]); try contradiction;
      vm_compute; intros H1 H2; try reflexivity;
      try discriminate H1; discriminate H2.
Qed.

(** It does not order numbers with a [NaN] among them: [NaN] does not
    exceed 1 and 2 does not exceed [NaN], yet 2 exceeds 1. *)
Remark not_comparable_NaN :
  not_below F64.sub F64.gt0 PrimFloat.one PrimFloat.nan
  /\ not_below F64.sub F64.gt0 PrimFloat.nan PrimFloat.two
  /\ F64.gt0 (F64.sub PrimFloat.two PrimFloat.one) = true.
Proof. repeat split. Qed.

(** C7, for the orders in which PO-1 comes twice: the total of PO-1 is
    the sum of its two amounts, and it comes first. *)
Lemma poData_descending_total_witness :
  comparable IntNum.sub IntNum.gt0
    (map total
         (IntNum.poData 0 [Examples.split_orders] Examples.orders_id
            (Some "PO Number") (Some "Date") (Some "Amount")
            (Some "2024-01")))
  /\ StronglySorted
       (fun a b => not_below IntNum.sub IntNum.gt0 (total a) (total b))
       (IntNum.poData 0 [Examples.split_orders] Examples.orders_id
          (Some "PO Number") (Some "Date") (Some "Amount")
          (Some "2024-01"))
  /\ (In ("PO-1", 300)
         (map id_total
              (IntNum.poData 0 [Examples.split_orders] Examples.orders_id
                 (Some "PO Number") (Some "Date") (Some "Amount")
                 (Some "2024-01")))
      <-> sum_for IntNum.add "PO-1"
            [("PO-2", 250); ("PO-1", 100); ("PO-1", 200)]
          = Some 300).
Proof.
  split; [apply comparable_integers|].
  destruct (poData_descending_total
              IntNum.add IntNum.sub IntNum.gt0 IntNum.is_truthy
              Z_toString iso_parse DateText.Date_toString
              0 [Examples.split_orders] Examples.orders_id
              (Some "PO Number") (Some "Date") (Some "Amount")
              (Some "2024-01") (comparable_integers _))
    as [Hsorted [Htotals _]].
  split; [exact Hsorted|].
  exact (Htotals Examples.split_orders "PO Number" "Date" "Amount"
           "2024-01" eq_refl eq_refl eq_refl eq_refl eq_refl
           ltac:(discriminate) ltac:(discriminate) ltac:(discriminate)
           ltac:(discriminate) "PO-1" 300).
Defined.

(** C2.  The claim is what the code means to do: its comments read "Last
    day of month" and "Check if date is within selected month".  It falls
    short of it on the last day.  The end of its window for January 2024
    is the midnight that starts 31 January.  An order dated 31 January,
    ten o'clock, with an identifier and a numeric amount, passes the
    filter of the claim, as a timestamp and as text, and the report of
    January is empty; the same order dated 31 January without a time,
    which an engine at UTC reads as that midnight, is in the report. *)
Theorem poData_misses_last_day :
  po_endDate "2024-01" = Some (at_local 2024 1 31 0 0)
  /\ Spec.po_filter iso_parse IntNum.is_truthy 2024 1 "PO Number" "Date"
       Examples.late_order = true
  /\ IntNum.poData 0 [Examples.one_order Examples.late_order]
       Examples.orders_id (Some "PO Number") (Some "Date") (Some "Amount")
       (Some "2024-01") = []
  /\ Spec.po_filter iso_parse IntNum.is_truthy 2024 1 "PO Number" "Date"
       Examples.late_order_text = true
  /\ IntNum.poData 0 [Examples.one_order Examples.late_order_text]
       Examples.orders_id (Some "PO Number") (Some "Date") (Some "Amount")
       (Some "2024-01") = []
  /\ Spec.po_filter iso_parse IntNum.is_truthy 2024 1 "PO Number" "Date"
       Examples.last_day_order = true
  /\ map id_total
       (IntNum.poData 0 [Examples.one_order Examples.last_day_order]
          Examples.orders_id (Some "PO Number") (Some "Date")
          (Some "Amount") (Some "2024-01"))
     = [("PO-9", 7)].
Proof. repeat split; vm_compute; reflexivity. Qed.

(** The window of a month of a year of one or two digits is that of the
    same month 1900 years later, as the buckets of the monthly report are
    dated: an order of March of the year 50 passes the filter of the claim
    and the report of that month is empty. *)
Remark poData_window_two_digit_year :
  po_startDate (month_key 50 3) = Some (at_local 1950 3 1 0 0)
  /\ Spec.po_filter iso_parse IntNum.is_truthy 50 3 "PO Number" "Date"
       Examples.ancient_order = true
  /\ IntNum.poData 0 [Examples.one_order Examples.ancient_order]
       Examples.orders_id (Some "PO Number") (Some "Date") (Some "Amount")
       (Some (month_key 50 3)) = [].
Proof. repeat split; vm_compute; reflexivity. Qed.

(* ================================================================== *)
(** ** Project report *)
(* ================================================================== *)

Section ProjectFacts.
Context {num : Type}.
Variable num_add : num -> num -> num.
Variable num_truthy : num -> bool.
Variable Date_parse : string -> option Z.

Lemma selected_interpolate (sm : string) :
  sm <> "" ->
  forall s, selected (Some sm) && negb (String.eqb s (interpolate (Some sm)))
            = negb (String.eqb s sm).
Proof. intros Hsm s. now rewrite selected_Some. Qed.

(** The rows that give a data point when a month is selected. *)
Lemma project_point_iff (pc dc vc proj sm : string) (row : Row num)
    (p : DataPoint num) :
  sm <> "" ->
  project_point num_truthy Date_parse pc dc vc proj (Some sm) row = Some p
  <-> exists d v,
        cell row pc = VString proj
        /\ row_date num_truthy Date_parse row dc = Some d
        /\ monthYearOf d = sm
        /\ cell row vc = VNumber v
        /\ p = {| p_date := d; p_value := v; p_month := sm;
                  p_monthKey := monthKeyOf d |}.
Proof.
  intros Hsm. unfold project_point. split.
  - destruct (cell row pc) as [s| | | | |]; try discriminate.
    destruct (row_date num_truthy Date_parse row dc) as [d|];
      [|discriminate].
    destruct (cell row vc) as [|v| | | |]; try discriminate.
    rewrite (selected_interpolate sm Hsm), negb_involutive.
    destruct (String.eqb s proj) eqn:Hs; [|discriminate].
    destruct (String.eqb (monthYearOf d) sm) eqn:Hd; [|discriminate].
    apply String.eqb_eq in Hs, Hd. intros [= <-].
    exists d, v. subst. now repeat split.
  - intros (d & v & -> & -> & Hd & -> & ->).
    rewrite (selected_interpolate sm Hsm), negb_involutive.
    rewrite String.eqb_refl. rewrite <- Hd at 1.
    rewrite String.eqb_refl. simpl. now rewrite Hd.
Qed.

(** C3, as the code has it.  With a project and a month selected the
    report holds one bucket per row of that project and month (with a
    readable date and a numeric value), nothing is summed: the total of a
    bucket is the value of its row.  The key of a bucket is the key of the
    calendar month of its row, the same for all buckets; its label is the
    selected month. *)
Theorem projectData_detail_view excelData selectedSheet sheet
    (pc dc vc proj sm : string) :
  selectedSheetData excelData selectedSheet = Some sheet ->
  pc <> "" -> dc <> "" -> vc <> "" -> proj <> "" -> sm <> "" ->
  let matching :=
    collect (project_point num_truthy Date_parse pc dc vc proj (Some sm))
            (data sheet) in
  let report :=
    projectData num_add num_truthy Date_parse excelData selectedSheet
                (Some pc) (Some dc) (Some vc) (Some proj) (Some sm) in
  Permutation report (map point_bucket matching)
  /\ (forall p,
        In p matching
        <-> exists row d v,
              In row (data sheet)
              /\ cell row pc = VString proj
              /\ row_date num_truthy Date_parse row dc = Some d
              /\ monthYearOf d = sm
              /\ cell row vc = VNumber v
              /\ p = {| p_date := d; p_value := v; p_month := sm;
                        p_monthKey := monthKeyOf d |})
  /\ (forall b,
        In b report ->
        month b = sm
        /\ exists d, date b = Some d /\ monthKey b = monthKeyOf d
                     /\ monthYearOf d = sm).
Proof.
  intros Hsheet Hpc Hdc Hvc Hproj Hsm matching report.
  assert (Hreport : report = sort by_date (map point_bucket matching)).
  { unfold report, projectData.
    rewrite Hsheet, (selectedSheetData_selected _ _ _ Hsheet).
    rewrite !selected_Some by assumption. simpl.
    now rewrite project_rows_collect. }
  assert (Hmatching :
            forall p,
              In p matching
              <-> exists row d v,
                    In row (data sheet)
                    /\ cell row pc = VString proj
                    /\ row_date num_truthy Date_parse row dc = Some d
                    /\ monthYearOf d = sm
                    /\ cell row vc = VNumber v
                    /\ p = {| p_date := d; p_value := v; p_month := sm;
                              p_monthKey := monthKeyOf d |}).
  { intros p. unfold matching, collect. rewrite in_flat_map. split.
    - intros (row & Hrow & Hin).
      destruct (project_point num_truthy Date_parse pc dc vc proj
                              (Some sm) row) as [q|] eqn:Hq; [|destruct Hin].
      destruct Hin as [<-|[]].
      apply (project_point_iff pc dc vc proj sm row q Hsm) in Hq
        as (d & v & H).
      now exists row, d, v.
    - intros (row & d & v & Hrow & H). exists row. split; [exact Hrow|].
      assert (Hq : project_point num_truthy Date_parse pc dc vc proj
                                 (Some sm) row = Some p).
      { apply (project_point_iff pc dc vc proj sm row p Hsm).
        now exists d, v. }
      rewrite Hq. now left. }
  split; [|split; [exact Hmatching|]].
  - rewrite Hreport. apply sort_Permutation.
  - intros b Hb. rewrite Hreport in Hb. apply sort_In in Hb.
    apply in_map_iff in Hb as (p & <- & Hp).
    apply Hmatching in Hp as (row & d & v & _ & _ & _ & Hd & _ & ->).
    simpl. split; [reflexivity|]. now exists d.
Qed.

End ProjectFacts.

(** C3, for project Alpha in January 2024. *)
Lemma projectData_detail_view_witness :
  Permutation
    (IntNum.projectData [Examples.projects] Examples.projects_id
       (Some "Project") (Some "Date") (Some "Amount") (Some "Alpha")
       (Some "01/2024"))
    (map point_bucket
         (collect (project_point IntNum.is_truthy iso_parse "Project" "Date"
                                 "Amount" "Alpha" (Some "01/2024"))
                  (data Examples.projects))).
Proof.
  exact (proj1 (projectData_detail_view
                  IntNum.add IntNum.is_truthy iso_parse
                  [Examples.projects] Examples.projects_id Examples.projects
                  "Project" "Date" "Amount" "Alpha" "01/2024"
                  eq_refl ltac:(discriminate) ltac:(discriminate)
                  ltac:(discriminate) ltac:(discriminate)
                  ltac:(discriminate))).
Defined.

(** C3, refuted as worded.  Project Alpha has two rows in January 2024,
    of 100 and of 50.  The two buckets of the detail view carry these
    values, and both carry the key of the calendar month, 2024-01: the key
    is neither an index nor particular to a row. *)
Lemma projectData_detail_keys_are_months :
  map (fun b => (monthKey b, total b))
      (IntNum.projectData [Examples.projects] Examples.projects_id
         (Some "Project") (Some "Date") (Some "Amount") (Some "Alpha")
         (Some "01/2024"))
  = [("2024-01", 100); ("2024-01", 50)].
Proof. reflexivity. Qed.

(* ================================================================== *)
(** ** Row order *)
(* ================================================================== *)

Section RowOrderFacts.
Context {num : Type}.
Variable num_add : num -> num -> num.
Variable num_sub : num -> num -> num.
Variable num_gt0 : num -> bool.
Variable num_truthy : num -> bool.
Variable num_toString : num -> string.
Variable Date_parse : string -> option Z.
Variable Date_toString : Z -> string.

Lemma collect_Permutation {A B : Type} (f : A -> option B) (l l' : list A) :
  Permutation l l' -> Permutation (collect f l) (collect f l').
Proof. intros Hperm. unfold collect. now apply Permutation_flat_map. Qed.

Lemma values_for_Permutation (key : string) (l l' : list (string * num)) :
  Permutation l l' -> Permutation (values_for key l) (values_for key l').
Proof.
  intros Hperm. unfold values_for. apply Permutation_map.
  induction Hperm as [|x l l' _ IH|x y l|l l' l'' _ IH1 _ IH2]; simpl.
  - constructor.
  - destruct (String.eqb (fst x) key); [now constructor|exact IH].
  - destruct (String.eqb (fst x) key), (String.eqb (fst y) key);
      try reflexivity. apply perm_swap.
  - now transitivity (filter (fun kv => String.eqb (fst kv) key) l').
Qed.

(** The keys of the map do not depend on the order of the
    contributions, whatever the addition. *)
Lemma aggregate_keys_Permutation (l l' : list (string * num)) :
  Permutation l l' ->
  Permutation (map fst (aggregate num_add l))
              (map fst (aggregate num_add l')).
Proof.
  intros Hperm. apply NoDup_Permutation.
  - apply aggregate_NoDup.
  - apply aggregate_NoDup.
  - intros key. rewrite !aggregate_keys. split.
    + apply Permutation_in. now apply Permutation_map.
    + apply Permutation_in. apply Permutation_map. now symmetry.
Qed.

Lemma sum_from_Permutation (vs vs' : list num) :
  exact_addition num_add ->
  Permutation vs vs' ->
  forall start, sum_from num_add start vs = sum_from num_add start vs'.
Proof.
  intros [add_assoc add_comm].
  induction 1 as [|x l l' _ IH|x y l|l l' l'' _ IH1 _ IH2]; intros start.
  - reflexivity.
  - simpl. apply IH.
  - simpl. f_equal. f_equal. destruct start as [s|].
    + now rewrite !add_assoc, (add_comm y x).
    + apply add_comm.
  - now rewrite IH1.
Qed.

(** With exact addition the whole map does not depend on the order of
    the contributions, up to the order of its entries. *)
Lemma aggregate_Permutation (l l' : list (string * num)) :
  exact_addition num_add ->
  Permutation l l' ->
  Permutation (aggregate num_add l) (aggregate num_add l').
Proof.
  intros Hexact Hperm.
  apply map_ext_Permutation; try apply aggregate_NoDup.
  intros key. rewrite !aggregate_get. unfold sum_for.
  apply (sum_from_Permutation _ _ Hexact).
  now apply values_for_Permutation.
Qed.

End RowOrderFacts.

(** *** Sums of whole units *)

Section ExactFacts.
Context {num : Type}.
Variable num_add : num -> num -> num.
Variable repr : Z -> num.
Variable bound : Z.
Hypothesis exact : exact_on num_add repr bound.

Lemma magnitude_nonneg (zs : list Z) : 0 <= magnitude zs.
Proof. induction zs as [|z zs IH]; simpl; lia. Qed.

Lemma magnitude_Permutation (zs zs' : list Z) :
  Permutation zs zs' -> magnitude zs = magnitude zs'.
Proof. induction 1; simpl; lia. Qed.

Lemma magnitude_get (m : JsMap Z) (k : string) (old : Z) :
  map_get m k = Some old -> Z.abs old <= magnitude (map snd m).
Proof.
  induction m as [|[k' v'] m IH]; simpl; [discriminate|].
  pose proof (magnitude_nonneg (map snd m)).
  destruct (String.eqb k' k).
  - intros [= ->]. lia.
  - intros H'. specialize (IH H'). lia.
Qed.

Lemma magnitude_set (m : JsMap Z) (k : string) (old v : Z) :
  map_get m k = Some old ->
  magnitude (map snd (map_set m k (old + v)))
  <= magnitude (map snd m) + Z.abs v.
Proof.
  induction m as [|[k' v'] m IH]; simpl; [discriminate|].
  destruct (String.eqb k' k).
  - intros [= ->]. simpl. lia.
  - intros H. specialize (IH H). simpl. lia.
Qed.

Lemma magnitude_add (m : JsMap Z) (k : string) (v : Z) :
  map_get m k = None ->
  magnitude (map snd (map_set m k v)) = magnitude (map snd m) + Z.abs v.
Proof.
  induction m as [|[k' v'] m IH]; simpl; [lia|].
  destruct (String.eqb k' k); [discriminate|].
  intros H. specialize (IH H). simpl. lia.
Qed.

Lemma magnitude_accumulate (m : JsMap Z) (k : string) (v : Z) :
  magnitude (map snd (accumulate Z.add m k v))
  <= magnitude (map snd m) + Z.abs v.
Proof.
  unfold accumulate. destruct (map_get m k) as [old|] eqn:E.
  - now apply magnitude_set.
  - rewrite (magnitude_add _ _ _ E). lia.
Qed.

Lemma map_get_in_units (m : JsMap Z) (k : string) :
  map_get (map (in_units repr) m) k = option_map repr (map_get m k).
Proof.
  induction m as [|[k' v'] m IH]; [reflexivity|]. simpl.
  destruct (String.eqb k' k); [reflexivity|exact IH].
Qed.

Lemma map_set_in_units (m : JsMap Z) (k : string) (v : Z) :
  map_set (map (in_units repr) m) k (repr v)
  = map (in_units repr) (map_set m k v).
Proof.
  induction m as [|[k' v'] m IH]; [reflexivity|]. simpl.
  destruct (String.eqb k' k); [reflexivity|]. simpl. now rewrite IH.
Qed.

Lemma accumulate_in_units (m : JsMap Z) (k : string) (v : Z) :
  magnitude (map snd m) + Z.abs v <= bound ->
  accumulate num_add (map (in_units repr) m) k (repr v)
  = map (in_units repr) (accumulate Z.add m k v).
Proof.
  intros Hb. unfold accumulate. rewrite map_get_in_units.
  pose proof (magnitude_nonneg (map snd m)) as H0.
  destruct (map_get m k) as [old|] eqn:E; simpl.
  - pose proof (magnitude_get _ _ _ E) as Hold.
    rewrite exact by lia. apply map_set_in_units.
  - apply map_set_in_units.
Qed.

(** The map of the numbers is the map of the units, entry by entry. *)
Lemma aggregate_into_in_units (l m : list (string * Z)) :
  magnitude (map snd m) + magnitude (map snd l) <= bound ->
  aggregate_into num_add (map (in_units repr) m) (map (in_units repr) l)
  = map (in_units repr) (aggregate_into Z.add m l).
Proof.
  revert m. induction l as [|[k v] l IH]; intros m Hb; [reflexivity|].
  unfold aggregate_into in *. simpl in *.
  pose proof (magnitude_nonneg (map snd l)) as H0.
  rewrite accumulate_in_units by lia. apply IH.
  pose proof (magnitude_accumulate m k v). lia.
Qed.

Lemma aggregate_in_units (l : list (string * Z)) :
  magnitude (map snd l) <= bound ->
  aggregate num_add (map (in_units repr) l)
  = map (in_units repr) (aggregate Z.add l).
Proof.
  intros Hb. apply (aggregate_into_in_units l []). simpl. lia.
Qed.

(** Entries whose values are whole units are entries of units. *)
Lemma whole_entries (l : list (string * num)) :
  whole_amounts repr bound (map snd l) ->
  exists units,
    l = map (in_units repr) units /\ magnitude (map snd units) <= bound.
Proof.
  intros [zs [Hzs Hb]]. exists (combine (map fst l) zs). split.
  - clear Hb. revert zs Hzs.
    induction l as [|[k v] l IH]; intros [|z zs] Hzs; try discriminate;
      [reflexivity|].
    simpl in *. injection Hzs as -> Hzs. now rewrite <- IH.
  - replace (map snd (combine (map fst l) zs)) with zs; [exact Hb|].
    clear Hb. revert zs Hzs.
    induction l as [|[k v] l IH]; intros [|z zs] Hzs; try discriminate;
      [reflexivity|].
    simpl in *. injection Hzs as _ Hzs. now rewrite <- IH.
Qed.

(** The values a report counts are among the numbers of its value
    column. *)
Lemma collect_amounts {K : Type} (valueColumn : string)
    (f : Row num -> option (K * num)) (rows : list (Row num))
    (zs : list Z) :
  (forall row k v, f row = Some (k, v) ->
                   cell row valueColumn = VNumber v) ->
  amounts valueColumn rows = map repr zs ->
  exists zs',
    map snd (collect f rows) = map repr zs'
    /\ magnitude zs' <= magnitude zs.
Proof.
  intros Hf. revert zs.
  induction rows as [|row rows IH]; intros zs Hzs.
  - exists []. split; [reflexivity|]. apply magnitude_nonneg.
  - unfold amounts, collect in *. cbn [flat_map] in *.
    destruct (f row) as [[k v]|] eqn:E.
    + rewrite (Hf _ _ _ E) in Hzs. destruct zs as [|z zs]; [discriminate|].
      simpl in Hzs. injection Hzs as -> Hzs.
      destruct (IH zs Hzs) as [zs' [Hzs' Hb']].
      exists (z :: zs'). simpl. split; [now rewrite Hzs'|lia].
    + destruct (cell row valueColumn) eqn:Ec;
        try (destruct (IH zs Hzs) as [zs' [Hzs' Hb']];
             exists zs'; split; [exact Hzs'|exact Hb']).
      destruct zs as [|z zs]; [discriminate|].
      simpl in Hzs. injection Hzs as _ Hzs.
      destruct (IH zs Hzs) as [zs' [Hzs' Hb']].
      exists zs'. split; [exact Hzs'|]. simpl. lia.
Qed.

Lemma whole_collect {K : Type} (valueColumn : string)
    (f : Row num -> option (K * num)) (rows : list (Row num)) :
  (forall row k v, f row = Some (k, v) ->
                   cell row valueColumn = VNumber v) ->
  whole_amounts repr bound (amounts valueColumn rows) ->
  whole_amounts repr bound (map snd (collect f rows)).
Proof.
  intros Hf [zs [Hzs Hb]].
  destruct (collect_amounts valueColumn f rows zs Hf Hzs) as [zs' [H1 H2]].
  exists zs'. split; [exact H1|lia].
Qed.

(** With addition exact on the values, the map does not depend on the
    order of the contributions, up to the order of its entries. *)
Lemma aggregate_Permutation_exact (l l' : list (string * num)) :
  whole_amounts repr bound (map snd l) ->
  Permutation l l' ->
  Permutation (aggregate num_add l) (aggregate num_add l').
Proof.
  intros Hwhole Hperm.
  destruct (whole_entries l Hwhole) as [units [-> Hb]].
  symmetry in Hperm. apply Permutation_map_inv in Hperm.
  destruct Hperm as [units' [-> Hperm]].
  assert (Hb' : magnitude (map snd units') <= bound).
  { rewrite <- (magnitude_Permutation _ _ (Permutation_map snd Hperm)).
    exact Hb. }
  rewrite !aggregate_in_units by assumption.
  apply Permutation_map. apply aggregate_Permutation; [|exact Hperm].
  split; intros; lia.
Qed.

End ExactFacts.

Section ContributionFacts.
Context {num : Type}.

Lemma monthly_contribution_number (num_truthy : num -> bool)
    (Date_parse : string -> option Z) (dc vc : string) (row : Row num)
    (k : string) (v : num) :
  monthly_contribution num_truthy Date_parse dc vc row = Some (k, v) ->
  cell row vc = VNumber v.
Proof.
  unfold monthly_contribution.
  destruct (row_date num_truthy Date_parse row dc); [|discriminate].
  destruct (cell row vc); try discriminate. now intros [= _ ->].
Qed.

Lemma po_contribution_number (num_truthy : num -> bool)
    (num_toString : num -> string) (Date_parse : string -> option Z)
    (Date_toString : Z -> string) (pc dc vc : string)
    (startDate endDate : option Z) (row : Row num)
    (k : string) (v : num) :
  po_contribution num_truthy num_toString Date_parse Date_toString
                  pc dc vc startDate endDate row = Some (k, v) ->
  cell row vc = VNumber v.
Proof.
  unfold po_contribution.
  destruct (row_date num_truthy Date_parse row dc) as [d|]; [|discriminate].
  destruct (before d startDate || after d endDate); [discriminate|].
  destruct (truthy num_truthy (cell row pc)); [|discriminate].
  destruct (cell row vc); try discriminate. now intros [= _ ->].
Qed.

End ContributionFacts.

(** *** The reports on reordered rows *)

Section ReportOrderFacts.
Context {num : Type}.
Variable num_add : num -> num -> num.
Variable num_sub : num -> num -> num.
Variable num_gt0 : num -> bool.
Variable num_truthy : num -> bool.
Variable num_toString : num -> string.
Variable Date_parse : string -> option Z.
Variable Date_toString : Z -> string.

(** The monthly report of a complete selection. *)
Lemma monthlyData_selected excelData selectedSheet sheet (dc vc : string) :
  selectedSheetData excelData selectedSheet = Some sheet ->
  dc <> "" -> vc <> "" ->
  monthlyData num_add num_truthy Date_parse excelData selectedSheet
              (Some dc) (Some vc)
  = sort by_date
         (map (month_bucket (Some (fileName sheet)))
              (aggregate num_add
                 (collect (monthly_contribution num_truthy Date_parse dc vc)
                          (data sheet)))).
Proof.
  intros Hsheet Hdc Hvc. unfold monthlyData.
  rewrite Hsheet, (selectedSheetData_selected _ _ _ Hsheet).
  rewrite !selected_Some by assumption. simpl.
  now rewrite monthly_rows_aggregate.
Qed.

Lemma monthlyData_unselected excelData selectedSheet dateColumn valueColumn :
  selected dateColumn && selected valueColumn = false ->
  monthlyData num_add num_truthy Date_parse excelData selectedSheet
              dateColumn valueColumn = [].
Proof.
  intros Hsel. unfold monthlyData.
  destruct (selectedSheetData excelData selectedSheet); [|reflexivity].
  destruct dateColumn as [dc|], valueColumn as [vc|]; try reflexivity.
  destruct (selected selectedSheet), (selected (Some dc)),
    (selected (Some vc)); try reflexivity; discriminate Hsel.
Qed.

Lemma poData_unselected (now : Z) excelData selectedSheet
    poColumn dateColumn valueColumn selectedMonth :
  selected poColumn && selected dateColumn && selected valueColumn
  && selected selectedMonth = false ->
  poData num_add num_sub num_gt0 num_truthy num_toString Date_parse
         Date_toString now excelData selectedSheet poColumn dateColumn
         valueColumn selectedMonth = [].
Proof.
  intros Hsel. unfold poData.
  destruct (selectedSheetData excelData selectedSheet); [|reflexivity].
  destruct poColumn as [pc|], dateColumn as [dc|], valueColumn as [vc|],
    selectedMonth as [sm|]; try reflexivity.
  destruct (selected selectedSheet), (selected (Some pc)),
    (selected (Some dc)), (selected (Some vc)), (selected (Some sm));
    try reflexivity; discriminate Hsel.
Qed.

Lemma map_month_mapi_from (now : Z) (l : list (string * num)) (i : nat) :
  map month (mapi_from (po_bucket now) i l) = map fst l.
Proof.
  revert i. induction l as [|[k v] l IH]; intros i; simpl.
  - reflexivity.
  - now rewrite IH.
Qed.

Lemma map_monthKey_month_bucket (src : option string)
    (l : list (string * num)) :
  map monthKey (map (month_bucket src) l) = map fst l.
Proof.
  rewrite map_map. apply map_ext. now intros [k v].
Qed.

(** Monthly reports of two worksheets that differ in row order. *)
Lemma monthlyData_row_order excelData excelData' selectedSheet sheet
    (rows' : list (Row num)) (dateColumn valueColumn : option string) :
  selectedSheetData excelData selectedSheet = Some sheet ->
  selectedSheetData excelData' selectedSheet = Some (with_rows sheet rows') ->
  Permutation (data sheet) rows' ->
  Permutation
    (map monthKey
         (monthlyData num_add num_truthy Date_parse excelData selectedSheet
                      dateColumn valueColumn))
    (map monthKey
         (monthlyData num_add num_truthy Date_parse excelData' selectedSheet
                      dateColumn valueColumn))
  /\ (forall (repr : Z -> num) (bound : Z),
        exact_on num_add repr bound ->
        (forall vc, valueColumn = Some vc ->
                    whole_amounts repr bound (amounts vc (data sheet))) ->
        Permutation
          (monthlyData num_add num_truthy Date_parse excelData selectedSheet
                       dateColumn valueColumn)
          (monthlyData num_add num_truthy Date_parse excelData'
                       selectedSheet dateColumn valueColumn)).
Proof.
  intros Hsheet Hsheet' Hperm.
  destruct (selected dateColumn && selected valueColumn) eqn:Hsel.
  - destruct dateColumn as [dc|]; [|discriminate].
    destruct valueColumn as [vc|]; [|now rewrite andb_false_r in Hsel].
    apply andb_true_iff in Hsel as [Hdc Hvc].
    assert (dc <> "" /\ vc <> "") as [Hdc' Hvc'].
    { split; intros ->; discriminate. }
    rewrite (monthlyData_selected _ _ _ dc vc Hsheet Hdc' Hvc').
    rewrite (monthlyData_selected _ _ _ dc vc Hsheet' Hdc' Hvc').
    simpl. split.
    + rewrite !(Permutation_map monthKey (sort_Permutation _ _)).
      rewrite !map_monthKey_month_bucket.
      apply aggregate_keys_Permutation. now apply collect_Permutation.
    + intros repr bound Hexact Hwhole. rewrite !sort_Permutation.
      apply Permutation_map.
      apply (aggregate_Permutation_exact num_add repr bound Hexact).
      * apply (whole_collect repr bound vc);
          [apply monthly_contribution_number|now apply Hwhole].
      * now apply collect_Permutation.
  - rewrite !monthlyData_unselected by exact Hsel. now split.
Qed.

(** Purchase-order reports of two worksheets that differ in row order. *)
Lemma poData_row_order (now : Z) excelData excelData' selectedSheet sheet
    (rows' : list (Row num))
    (poColumn dateColumn valueColumn selectedMonth : option string) :
  selectedSheetData excelData selectedSheet = Some sheet ->
  selectedSheetData excelData' selectedSheet = Some (with_rows sheet rows') ->
  Permutation (data sheet) rows' ->
  Permutation
    (map month
         (poData num_add num_sub num_gt0 num_truthy num_toString
                 Date_parse Date_toString now excelData selectedSheet
                 poColumn dateColumn valueColumn selectedMonth))
    (map month
         (poData num_add num_sub num_gt0 num_truthy num_toString
                 Date_parse Date_toString now excelData' selectedSheet
                 poColumn dateColumn valueColumn selectedMonth))
  /\ (forall (repr : Z -> num) (bound : Z),
        exact_on num_add repr bound ->
        (forall vc, valueColumn = Some vc ->
                    whole_amounts repr bound (amounts vc (data sheet))) ->
        Permutation
          (map id_total
               (poData num_add num_sub num_gt0 num_truthy num_toString
                       Date_parse Date_toString now excelData selectedSheet
                       poColumn dateColumn valueColumn selectedMonth))
          (map id_total
               (poData num_add num_sub num_gt0 num_truthy num_toString
                       Date_parse Date_toString now excelData'
                       selectedSheet poColumn dateColumn valueColumn
                       selectedMonth))).
Proof.
  intros Hsheet Hsheet' Hperm.
  destruct (selected poColumn && selected dateColumn
            && selected valueColumn && selected selectedMonth) eqn:Hsel.
  - destruct poColumn as [pc|]; [|discriminate].
    destruct dateColumn as [dc|]; [|now rewrite andb_false_r in Hsel].
    destruct valueColumn as [vc|]; [|now rewrite andb_false_r in Hsel].
    destruct selectedMonth as [sm|]; [|now rewrite andb_false_r in Hsel].
    apply andb_true_iff in Hsel as [Hsel Hsm].
    apply andb_true_iff in Hsel as [Hsel Hvc].
    apply andb_true_iff in Hsel as [Hpc Hdc].
    assert (pc <> "" /\ dc <> "" /\ vc <> "" /\ sm <> "")
      as (Hpc' & Hdc' & Hvc' & Hsm').
    { repeat split; intros ->; discriminate. }
    rewrite (poData_selected num_add num_sub num_gt0 num_truthy num_toString
               Date_parse Date_toString now _ _ _ pc dc vc sm
               Hsheet Hpc' Hdc' Hvc' Hsm').
    rewrite (poData_selected num_add num_sub num_gt0 num_truthy num_toString
               Date_parse Date_toString now _ _ _ pc dc vc sm
               Hsheet' Hpc' Hdc' Hvc' Hsm').
    simpl. split.
    + rewrite !(Permutation_map month (sort_Permutation _ _)).
      unfold mapi. rewrite !map_month_mapi_from.
      apply aggregate_keys_Permutation. now apply collect_Permutation.
    + intros repr bound Hexact Hwhole.
      rewrite !(Permutation_map id_total (sort_Permutation _ _)).
      unfold mapi. rewrite !map_id_total_mapi_from.
      apply (aggregate_Permutation_exact num_add repr bound Hexact).
      * apply (whole_collect repr bound vc);
          [apply po_contribution_number|now apply Hwhole].
      * now apply collect_Permutation.
  - rewrite !poData_unselected by exact Hsel. now split.
Qed.

(** C6, as the code has it.  Two pages whose selected worksheets differ
    in the order of their rows only.  The monthly reports have the same
    bucket keys and the purchase-order reports the same identifiers.  When
    the numbers of the value column are whole units, of one cent say, and
    the addition of the runtime is exact on whole units up to a bound that
    their absolute values together do not exceed, the monthly reports hold
    the same buckets and the purchase-order reports the same identifiers
    with the same totals. *)
Theorem reports_ignore_row_order (now : Z) excelData excelData'
    selectedSheet sheet (rows' : list (Row num))
    (poColumn dateColumn valueColumn selectedMonth : option string) :
  selectedSheetData excelData selectedSheet = Some sheet ->
  selectedSheetData excelData' selectedSheet = Some (with_rows sheet rows') ->
  Permutation (data sheet) rows' ->
  let monthly excelData :=
    monthlyData num_add num_truthy Date_parse excelData selectedSheet
                dateColumn valueColumn in
  let po excelData :=
    poData num_add num_sub num_gt0 num_truthy num_toString Date_parse
           Date_toString now excelData selectedSheet poColumn dateColumn
           valueColumn selectedMonth in
  Permutation (map monthKey (monthly excelData))
              (map monthKey (monthly excelData'))
  /\ Permutation (map month (po excelData)) (map month (po excelData'))
  /\ (forall (repr : Z -> num) (bound : Z),
        exact_on num_add repr bound ->
        (forall vc, valueColumn = Some vc ->
                    whole_amounts repr bound (amounts vc (data sheet))) ->
        Permutation (monthly excelData) (monthly excelData')
        /\ Permutation (map id_total (po excelData))
                       (map id_total (po excelData'))).
Proof.
  intros Hsheet Hsheet' Hperm monthly po.
  destruct (monthlyData_row_order excelData excelData' selectedSheet sheet
              rows' dateColumn valueColumn Hsheet Hsheet' Hperm)
    as [Hkeys Hbuckets].
  destruct (poData_row_order now excelData excelData' selectedSheet sheet
              rows' poColumn dateColumn valueColumn selectedMonth
              Hsheet Hsheet' Hperm)
    as [Hids Htotals].
  split; [exact Hkeys|]. split; [exact Hids|].
  intros repr bound Hexact Hwhole.
  split; [now apply (Hbuckets repr bound)|now apply (Htotals repr bound)].
Qed.

End ReportOrderFacts.

(** Trying every pair settles whether binary64 is exact within a
    bound. *)
Lemma exact_within_sound (bound : Z) :
  exact_within bound = true -> exact_on F64.add F64.repr bound.
Proof.
  intros Hall a b Ha Hb Hab. unfold exact_within in Hall.
  rewrite forallb_forall in Hall.
  assert (Hin : forall z, Z.abs z <= bound -> In z (units_within bound)).
  { intros z Hz. unfold units_within. apply in_map_iff.
    exists (Z.to_nat (z + bound)). split; [lia|].
    apply in_seq. lia. }
  specialize (Hall a (Hin a Ha)). rewrite forallb_forall in Hall.
  specialize (Hall b (Hin b Hb)).
  apply Z.leb_le in Hab. rewrite Hab in Hall. simpl in Hall.
  now apply FloatAxioms.Leibniz.eqb_spec.
Qed.

(** Binary64 adds whole numbers exactly up to 100. *)
Lemma binary64_exact_100 : exact_on F64.add F64.repr 100.
Proof. apply exact_within_sound. vm_compute. reflexivity. Qed.

(** C6, for three amounts of January 2024 in whole cents, 10, 20 and 30,
    and their reversal, in binary64: the total is 60 either way.  The
    monthly report prints no number, so the text of a number is
    immaterial here. *)
Lemma reports_ignore_row_order_witness :
  exact_on F64.add F64.repr 100
  /\ whole_amounts F64.repr 100
       (amounts "Amount" (data Examples.ledger_cents))
  /\ Permutation
       (F64.monthlyData [Examples.ledger_cents] Examples.ledger_id
          (Some "Date") (Some "Amount"))
       (F64.monthlyData [Examples.ledger_cents_reversed] Examples.ledger_id
          (Some "Date") (Some "Amount"))
  /\ map total
         (F64.monthlyData [Examples.ledger_cents_reversed]
            Examples.ledger_id (Some "Date") (Some "Amount"))
     = [F64.repr 60].
Proof.
  assert (Hwhole : whole_amounts F64.repr 100
                     (amounts "Amount" (data Examples.ledger_cents))).
  { exists [10; 20; 30]. split; [reflexivity|vm_compute; discriminate]. }
  split; [exact binary64_exact_100|]. split; [exact Hwhole|].
  split; [|reflexivity].
  destruct (reports_ignore_row_order
              F64.add F64.sub F64.gt0 F64.is_truthy
              (fun _ => "") iso_parse DateText.Date_toString
              0 [Examples.ledger_cents] [Examples.ledger_cents_reversed]
              Examples.ledger_id Examples.ledger_cents
              (rev (data Examples.ledger_cents))
              None (Some "Date") (Some "Amount") None
              eq_refl eq_refl (Permutation_rev _))
    as [_ [_ Htotals]].
  destruct (Htotals F64.repr 100 binary64_exact_100) as [Hmonthly _].
  - intros vc [= <-]. exact Hwhole.
  - exact Hmonthly.
Defined.

(** C6, refuted as worded.  Three amounts of January 2024, of 10, 20 and
    30 cents.  Read in this order their total is 0.6000000000000001; with
    the rows reversed it is 0.6: the addition of doubles is not
    associative. *)
Lemma monthly_total_depends_on_row_order :
  Permutation (data Examples.ledger) (data Examples.ledger_reversed)
  /\ map (fun b => (monthKey b, total b))
         (F64.monthlyData [Examples.ledger] Examples.ledger_id
            (Some "Date") (Some "Amount"))
     = [("2024-01", Examples.sixty_cents_and_a_bit)]
  /\ map (fun b => (monthKey b, total b))
         (F64.monthlyData [Examples.ledger_reversed] Examples.ledger_id
            (Some "Date") (Some "Amount"))
     = [("2024-01", Examples.sixty_cents)]
  /\ PrimFloat.ltb Examples.sixty_cents Examples.sixty_cents_and_a_bit = true.
Proof.
  split; [apply Permutation_rev|].
  repeat split; vm_compute; reflexivity.
Qed.

(* ================================================================== *)
(** ** Monthly report *)
(* ================================================================== *)

(** The monthly example of the specification: two buckets, January with
    150 and February with 30, in this order; with the dates as text and
    as timestamps. *)
Lemma monthlyData_specification_example :
  map (fun b => (monthKey b, month b, total b))
      (IntNum.monthlyData [Examples.sales] Examples.sales_id
         (Some "Date") (Some "Amount"))
  = [("2024-01", "01/2024", 150); ("2024-02", "02/2024", 30)]
  /\ map (fun b => (monthKey b, month b, total b))
         (IntNum.monthlyData [Examples.sales_stamped] Examples.sales_id
            (Some "Date") (Some "Amount"))
     = [("2024-01", "01/2024", 150); ("2024-02", "02/2024", 30)].
Proof. split; reflexivity. Qed.

(** C1, where the code departs from it.  The worksheet holds a row dated
    1 March of the year 50 and a row dated 1 January 1900.  The bucket of
    the year 50 is built with [new Date(50, 2, 1)], which is 1 March 1950,
    and comes out behind the bucket of January 1900: the buckets are not
    in chronological order. *)
Theorem monthlyData_two_digit_year_misplaced :
  map (fun row => option_map getFullYear
                    (row_date IntNum.is_truthy iso_parse row "Date"))
      (data Examples.archive)
  = [Some 50; Some 1900]
  /\ map (fun b => (monthKey b, month b, total b))
         (IntNum.monthlyData [Examples.archive] Examples.archive_id
            (Some "Date") (Some "Amount"))
     = [("1900-01", "01/1900", 10); ("50-03", "03/50", 20)]
  /\ map date
         (IntNum.monthlyData [Examples.archive] Examples.archive_id
            (Some "Date") (Some "Amount"))
     = [Some (at_local 1900 1 1 0 0); Some (at_local 1950 3 1 0 0)].
Proof. repeat split; vm_compute; reflexivity. Qed.

Section MonthKeyFacts.

Lemma monthKeyOf_month_key (d : Z) :
  monthKeyOf d = month_key (getFullYear d) (getMonth d + 1).
Proof. reflexivity. Qed.

Lemma monthYearOf_month_label (d : Z) :
  monthYearOf d = month_label (getFullYear d) (getMonth d + 1).
Proof. reflexivity. Qed.

Lemma month_key_inj (y m y' m' : Z) :
  0 <= y -> 1 <= m <= 12 -> 0 <= y' -> 1 <= m' <= 12 ->
  month_key y m = month_key y' m' -> y = y' /\ m = m'.
Proof.
  intros Hy Hm Hy' Hm' Heq. unfold month_key in Heq.
  apply (f_equal (split "-")) in Heq.
  rewrite !split_month_key in Heq by assumption.
  injection Heq as Hys Hms.
  apply (f_equal (fun s => parseInt (Some s))) in Hys, Hms.
  rewrite !parseInt_Z_toString in Hys by assumption.
  destruct (pad2_month m Hm) as (_ & Hpm & _).
  destruct (pad2_month m' Hm') as (_ & Hpm' & _).
  rewrite Hpm, Hpm' in Hms. split; congruence.
Qed.

(** A month key is turned back into the bucket of its month, for years
    from 100 on. *)
Lemma month_bucket_of_key {num : Type} (src : option string) (y m : Z)
    (sum : num) :
  100 <= y <= 275000 -> 1 <= m <= 12 ->
  month_bucket src (month_key y m, sum) = bucket_of_month src y m sum.
Proof.
  intros Hy Hm. unfold month_bucket, bucket_of_month, month_key.
  rewrite split_month_key by lia. unfold nth_elem. simpl nth_error.
  rewrite parseInt_Z_toString by lia.
  destruct (pad2_month m Hm) as (_ & -> & _). simpl option_map.
  rewrite new_Date_month by lia. reflexivity.
Qed.

End MonthKeyFacts.

Section SortedOn.
Context {A : Type}.
Variables (R : A -> A -> Prop) (P : A -> Prop).
Hypothesis R_trans_on :
  forall x y z, P x -> P y -> P z -> R x y -> R y z -> R x z.

(** A list sorted link by link is sorted throughout when the order is
    transitive on its elements. *)
Lemma Sorted_StronglySorted_Forall (l : list A) :
  Forall P l -> Sorted R l -> StronglySorted R l.
Proof.
  induction l as [|a l IH]; intros HP Hs; [constructor|].
  inversion HP as [|? ? Pa HPl]; subst.
  inversion Hs as [|? ? Hs' Hhd]; subst.
  specialize (IH HPl Hs'). constructor; [exact IH|].
  destruct l as [|b l]; [constructor|].
  inversion Hhd as [|? ? Rab]; subst.
  inversion IH as [|? ? _ Hall]; subst.
  inversion HPl as [|? ? Pb HPl']; subst.
  constructor; [exact Rab|].
  rewrite Forall_forall in *. intros c Hc.
  apply (R_trans_on a b c); auto.
Qed.

End SortedOn.

Section MonthlyFacts.
Context {num : Type}.
Variable num_add : num -> num -> num.
Variable num_truthy : num -> bool.
Variable Date_parse : string -> option Z.
Implicit Types (l : list (string * num)) (key : string).

Lemma monthly_contribution_iff (dc vc : string) (row : Row num)
    key (v : num) :
  monthly_contribution num_truthy Date_parse dc vc row = Some (key, v)
  <-> exists d, row_date num_truthy Date_parse row dc = Some d
                /\ cell row vc = VNumber v /\ key = monthKeyOf d.
Proof.
  unfold monthly_contribution. split.
  - destruct (row_date num_truthy Date_parse row dc) as [d|];
      [|discriminate].
    destruct (cell row vc); try discriminate.
    intros [= <- <-]. now exists d.
  - intros (d & -> & -> & ->). reflexivity.
Qed.

Lemma by_date_asym (a b : MonthlyDataPoint num) :
  by_date a b = true -> by_date b a = false.
Proof.
  unfold by_date. destruct (date a), (date b); try discriminate.
  intros H. apply Z.ltb_lt in H. apply Z.ltb_ge. lia.
Qed.

Lemma monthKey_month_bucket (src : option string) (e : string * num) :
  monthKey (month_bucket src e) = fst e.
Proof. now destruct e. Qed.

(** X16.  What the monthly report does for years from 100 on.  Every row
    with a readable date and a numeric value is counted in the bucket of the
    month of its date, whose key is year-month and whose label is
    month/year; every bucket is the bucket of a month, with the sum of the
    values of that month; no two buckets have the same key; and the buckets
    are in chronological order. *)
Theorem monthlyData_chronological excelData selectedSheet sheet
    (dc vc : string) :
  selectedSheetData excelData selectedSheet = Some sheet ->
  dc <> "" -> vc <> "" ->
  (forall row d,
     In row (data sheet) ->
     row_date num_truthy Date_parse row dc = Some d ->
     100 <= getFullYear d <= 275000) ->
  let contributions :=
    collect (monthly_contribution num_truthy Date_parse dc vc)
            (data sheet) in
  let report :=
    monthlyData num_add num_truthy Date_parse excelData selectedSheet
                (Some dc) (Some vc) in
  (forall row d v,
     In row (data sheet) ->
     row_date num_truthy Date_parse row dc = Some d ->
     cell row vc = VNumber v ->
     In v (values_for (monthKeyOf d) contributions)
     /\ exists sum,
          sum_for num_add (monthKeyOf d) contributions = Some sum
          /\ In (bucket_of_month (Some (fileName sheet)) (getFullYear d)
                                 (getMonth d + 1) sum)
                report)
  /\ (forall b,
        In b report ->
        exists y m,
          0 <= y /\ 1 <= m <= 12
          /\ sum_for num_add (month_key y m) contributions = Some (total b)
          /\ b = bucket_of_month (Some (fileName sheet)) y m (total b))
  /\ NoDup (map monthKey report)
  /\ StronglySorted bucket_before report.
Proof.
  intros Hsheet Hdc Hvc Hyears contributions report.
  set (src := Some (fileName sheet)).
  set (entries := aggregate num_add contributions).
  assert (Hreport : report = sort by_date (map (month_bucket src) entries)).
  { unfold report. now rewrite (monthlyData_selected _ _ _ _ _ _ dc vc
                                  Hsheet Hdc Hvc). }
  (* the keys of the contributions are keys of months in range *)
  assert (Hkeys : forall key,
             In key (map fst contributions) ->
             exists y m, 100 <= y <= 275000 /\ 1 <= m <= 12
                         /\ key = month_key y m).
  { intros key Hin. apply in_map_iff in Hin as ([k v] & <- & Hin).
    apply collect_In in Hin as (row & Hrow & Hc).
    apply monthly_contribution_iff in Hc as (d & Hd & _ & ->).
    exists (getFullYear d), (getMonth d + 1).
    pose proof (getMonth_range d). pose proof (Hyears row d Hrow Hd).
    repeat split; lia. }
  (* the buckets before sorting *)
  assert (Hbuckets : forall b,
             In b (map (month_bucket src) entries) <->
             exists y m, 100 <= y <= 275000 /\ 1 <= m <= 12
                         /\ sum_for num_add (month_key y m) contributions
                            = Some (total b)
                         /\ b = bucket_of_month src y m (total b)).
  { intros b. rewrite in_map_iff. split.
    - intros ([key sum] & <- & Hin).
      assert (Hk : In key (map fst contributions)).
      { apply (aggregate_keys num_add contributions key).
        now apply (in_map fst) in Hin. }
      destruct (Hkeys key Hk) as (y & m & Hy & Hm & ->).
      exists y, m. rewrite (month_bucket_of_key src y m sum Hy Hm).
      split; [exact Hy|]. split; [exact Hm|]. split; [|reflexivity].
      change (total (bucket_of_month src y m sum)) with sum.
      rewrite <- aggregate_get.
      now apply (map_get_In _ _ _ (aggregate_NoDup num_add contributions)).
    - intros (y & m & Hy & Hm & Hsum & ->).
      exists (month_key y m, total b). split.
      + now rewrite (month_bucket_of_key src y m _ Hy Hm).
      + apply (map_get_In _ _ _ (aggregate_NoDup num_add contributions)).
        now rewrite aggregate_get. }
  assert (Hin_report : forall b,
             In b report <-> In b (map (month_bucket src) entries)).
  { intros b. rewrite Hreport. apply sort_In. }
  split; [|split; [|split]].
  - intros row d v Hrow Hd Hv.
    assert (Hc : In (monthKeyOf d, v) contributions).
    { apply collect_In. exists row. split; [exact Hrow|].
      apply monthly_contribution_iff. now exists d. }
    split; [now apply values_for_In|].
    destruct (sum_for num_add (monthKeyOf d) contributions) as [sum|] eqn:Hs.
    + exists sum. split; [reflexivity|].
      apply Hin_report, Hbuckets.
      exists (getFullYear d), (getMonth d + 1).
      pose proof (getMonth_range d). pose proof (Hyears row d Hrow Hd).
      repeat split; try lia. exact Hs.
    + apply sum_for_None in Hs. exfalso. apply Hs.
      now apply (in_map fst) in Hc.
  - intros b Hb. apply Hin_report, Hbuckets in Hb
      as (y & m & Hy & Hm & Hsum & Hb).
    exists y, m. repeat split; try assumption; lia.
  - rewrite Hreport.
    apply (Permutation_NoDup
             (l := map monthKey (map (month_bucket src) entries))).
    + apply Permutation_map. symmetry. apply sort_Permutation.
    + rewrite map_map.
      rewrite (map_ext _ fst (monthKey_month_bucket src)).
      apply aggregate_NoDup.
  - assert (Hnodup : NoDup (map monthKey report)).
    { rewrite Hreport.
      apply (Permutation_NoDup
               (l := map monthKey (map (month_bucket src) entries))).
      - apply Permutation_map. symmetry. apply sort_Permutation.
      - rewrite map_map.
        rewrite (map_ext _ fst (monthKey_month_bucket src)).
        apply aggregate_NoDup. }
    assert (Hvalid : Forall (fun b =>
               exists y m sum, 100 <= y <= 275000 /\ 1 <= m <= 12
                               /\ b = bucket_of_month src y m sum) report).
    { apply Forall_forall. intros b Hb.
      apply Hin_report, Hbuckets in Hb as (y & m & Hy & Hm & _ & Hb).
      now exists y, m, (total b). }
    assert (Hsorted : StronglySorted (fun a b => by_date a b = false) report).
    { apply (Sorted_StronglySorted_Forall
               (fun a b => by_date a b = false)
               (fun b => exists y m sum,
                           100 <= y <= 275000 /\ 1 <= m <= 12
                           /\ b = bucket_of_month src y m sum)).
      - intros x y z Px Py Pz.
        destruct Px as (? & ? & ? & _ & _ & ->).
        destruct Py as (? & ? & ? & _ & _ & ->).
        destruct Pz as (? & ? & ? & _ & _ & ->).
        unfold by_date. simpl. rewrite !Z.ltb_ge. lia.
      - exact Hvalid.
      - rewrite Hreport. apply sort_Sorted. apply by_date_asym. }
    clear Hreport Hin_report Hbuckets.
    induction report as [|a l IH]; [constructor|].
    inversion Hnodup as [|? ? Hnotin Hnodup']; subst.
    inversion Hvalid as [|? ? Ha Hvalid']; subst.
    inversion Hsorted as [|? ? Hsorted' Hall]; subst.
    constructor; [now apply IH|].
    rewrite Forall_forall in *. intros b Hb.
    destruct Ha as (ya & ma & sa & Hya & Hma & ->).
    destruct (Hvalid' b Hb) as (yb & mb & sb & Hyb & Hmb & ->).
    specialize (Hall _ Hb). unfold by_date in Hall. simpl in Hall.
    apply Z.ltb_ge in Hall.
    exists ya, ma, yb, mb. repeat split; try lia.
    assert (Hne : ~ (ya = yb /\ ma = mb)).
    { intros [-> ->]. apply Hnotin.
      apply in_map_iff. exists (bucket_of_month src yb mb sb).
      now split. }
    destruct (Z.lt_trichotomy ya yb) as [Hlt|[Heq|Hgt]].
    + now left.
    + destruct (Z.lt_trichotomy ma mb) as [Hlt|[Heq'|Hgt]].
      * right. now split.
      * exfalso. apply Hne. now split.
      * pose proof (month_start_lt yb mb ya ma Hmb Hma
                      (or_intror (conj (eq_sym Heq) Hgt))). lia.
    + pose proof (month_start_lt yb mb ya ma Hmb Hma (or_introl Hgt)). lia.
Qed.

End MonthlyFacts.

(** X16.  The monthly report on the sales of the example is in chronological
    order. *)
Lemma monthlyData_chronological_witness :
  selectedSheetData [Examples.sales] Examples.sales_id
  = Some Examples.sales
  /\ StronglySorted bucket_before
       (IntNum.monthlyData [Examples.sales] Examples.sales_id
          (Some "Date") (Some "Amount")).
Proof.
  split; [reflexivity|].
  exact (proj2 (proj2 (proj2
           (monthlyData_chronological IntNum.add IntNum.is_truthy iso_parse
              [Examples.sales] Examples.sales_id Examples.sales
              "Date" "Amount" eq_refl
              ltac:(discriminate) ltac:(discriminate)
              ltac:(intros row d Hin Hd; simpl in Hin;
                    repeat (destruct Hin as [<-|Hin];
                            [vm_compute in Hd; injection Hd as <-;
                             vm_compute; split; discriminate|]);
                    destruct Hin))))).
Defined.
(* ================================================================== *)
(** ** Upload: extensions, decoding, batches *)
(* ================================================================== *)

Section SplitFacts.

Lemma split_nonempty (c : ascii) (s : string) : split c s <> [].
Proof.
  destruct s as [|x s]; simpl; [discriminate|].
  destruct (Ascii.eqb x c); [discriminate|].
  destruct (split c s); discriminate.
Qed.

Lemma split_free (c : ascii) (s : string) :
  free_of c s = true -> split c s = [s].
Proof.
  induction s as [|x s IH]; simpl; [reflexivity|].
  intros H. apply andb_true_iff in H. destruct H as [Hx Hs].
  apply negb_true_iff in Hx. rewrite Hx, (IH Hs). reflexivity.
Qed.

Lemma split_app (c : ascii) (a b : string) :
  split c (a ++ String c b) = (split c a ++ split c b)%list.
Proof.
  induction a as [|x a IH]; simpl.
  - rewrite Ascii.eqb_refl. reflexivity.
  - destruct (Ascii.eqb x c); rewrite IH; [reflexivity|].
    destruct (split c a) as [|w ws] eqn:E; [|reflexivity].
    now apply split_nonempty in E.
Qed.

Lemma last_app_nonempty {A : Type} (l1 l2 : list A) (d : A) :
  l2 <> [] -> last (l1 ++ l2) d = last l2 d.
Proof.
  intros H. induction l1 as [|x l1 IH]; [reflexivity|].
  simpl. destruct (l1 ++ l2)%list eqn:E; [|exact IH].
  apply app_eq_nil in E. destruct E as [_ E]. contradiction.
Qed.

Lemma last_split (c : ascii) (a b : string) :
  free_of c b = true -> last (split c (a ++ String c b)) "" = b.
Proof.
  intros H. rewrite split_app, last_app_nonempty by apply split_nonempty.
  rewrite (split_free _ _ H). reflexivity.
Qed.

Lemma first_split (c : ascii) (a b : string) :
  free_of c a = true -> nth_elem 0 (split c (a ++ String c b)) = Some a.
Proof.
  intros H. rewrite split_app, (split_free _ _ H). reflexivity.
Qed.

End SplitFacts.

Section UploadFacts.
Context {num : Type}.
Variable num_toString : num -> string.
Variable Date_toString : Z -> string.
Implicit Types (st cur : PageState num) (file : File num).

Local Abbreviation processExcelFile :=
  (processExcelFile num_toString Date_toString).
Local Abbreviation handleFileChange :=
  (handleFileChange num_toString Date_toString).
Local Abbreviation upload_one := (upload_one num_toString Date_toString).

(** X1.  The extension test reads the text after the last dot of the name,
    or the whole name when it has no dot, without regard to letter case;
    what the file contains and what precedes the last dot play no part. *)
Theorem accepted_by_last_segment (base ext : string)
    (content : option (list (DecodedSheet num))) :
  free_of "." ext = true ->
  let allowed :=
    String.eqb (lower_string ext) "xlsx"
    || String.eqb (lower_string ext) "xls"
    || String.eqb (lower_string ext) "csv" in
  accepted {| file_name := base ++ "." ++ ext; workbook := content |}
  = allowed
  /\ accepted {| file_name := ext; workbook := content |} = allowed.
Proof.
  intros Hfree allowed. unfold accepted, file_name. split.
  - change (base ++ "." ++ ext) with (base ++ String "." ext).
    rewrite (last_split _ _ _ Hfree). reflexivity.
  - rewrite (split_free _ _ Hfree). reflexivity.
Qed.


Lemma worksheetOf_shape (fname : string) (d : DecodedSheet num)
    (sheet : WorksheetData num) :
  In sheet (worksheetOf num_toString Date_toString fname d) ->
  fileName sheet = fname /\ name sheet = sheetName d
  /\ well_formed sheet /\ has_rows d = true.
Proof.
  unfold worksheetOf, has_rows.
  destruct (jsonData d) as [|row0 rest] eqn:E; [intros []|].
  intros [<-|[]]. cbn [fileName name data headers].
  repeat split; try reflexivity.
  - simpl. lia.
  - unfold rectangular. cbn [data headers].
    apply Forall_forall. intros row Hin. apply in_map_iff in Hin.
    destruct Hin as [r [<- _]]. unfold processedRow.
    rewrite map_map. simpl. apply map_id.
Qed.

Lemma worksheetOf_name (fname : string) (d : DecodedSheet num) :
  map name (worksheetOf num_toString Date_toString fname d)
  = if has_rows d then [sheetName d] else [].
Proof.
  unfold worksheetOf, has_rows. now destruct (jsonData d).
Qed.

Lemma flat_map_names (fname : string) (decoded : list (DecodedSheet num)) :
  map name (flat_map (worksheetOf num_toString Date_toString fname) decoded)
  = map sheetName (filter has_rows decoded).
Proof.
  induction decoded as [|d rest IH]; [reflexivity|].
  simpl. rewrite map_app, worksheetOf_name, IH.
  now destruct (has_rows d).
Qed.

Lemma processExcelFile_Some file (sheets : list (WorksheetData num)) :
  fst (processExcelFile file) = Some sheets ->
  snd (processExcelFile file) = [Decode (file_name file)]
  /\ sheets <> []
  /\ Forall (fun sheet => fileName sheet = file_name file
                          /\ well_formed sheet) sheets
  /\ exists decoded,
       workbook file = Some decoded
       /\ map name sheets = map sheetName (filter has_rows decoded).
Proof.
  unfold processExcelFile.
  destruct (workbook file) as [decoded|]; [|discriminate].
  destruct (flat_map _ decoded) as [|s ss] eqn:E; [discriminate|].
  cbn [fst snd]. intros [= <-]. split; [reflexivity|].
  split; [discriminate|]. split.
  - apply Forall_forall. intros sheet Hin. rewrite <- E in Hin.
    apply in_flat_map in Hin. destruct Hin as [d [_ Hin]].
    apply worksheetOf_shape in Hin. tauto.
  - exists decoded. split; [reflexivity|].
    rewrite <- E. apply flat_map_names.
Qed.

(** X2.  A file is turned into worksheets only when the library can read it
    and some sheet of it has a row.  Then the worksheets are, in order,
    those of the sheets that have rows, each under the name of its sheet and
    of the file, with at least one row and with a cell for every header in
    every row; the only event is the read.  Otherwise nothing is returned. *)
Theorem processExcelFile_result file :
  match fst (processExcelFile file) with
  | Some sheets =>
      snd (processExcelFile file) = [Decode (file_name file)]
      /\ (0 < List.length sheets)%nat
      /\ Forall (fun sheet => fileName sheet = file_name file
                              /\ well_formed sheet) sheets
      /\ exists decoded,
           workbook file = Some decoded
           /\ map name sheets = map sheetName (filter has_rows decoded)
  | None =>
      match workbook file with
      | None => True
      | Some decoded => filter has_rows decoded = []
      end
  end.
Proof.
  destruct (fst (processExcelFile file)) as [sheets|] eqn:E.
  - destruct (processExcelFile_Some _ _ E) as [H1 [H2 [H3 H4]]].
    repeat split; try assumption.
    destruct sheets; [contradiction|simpl; lia].
  - unfold processExcelFile in E.
    destruct (workbook file) as [decoded|]; [|exact I].
    destruct (flat_map _ decoded) as [|s ss] eqn:F; [|discriminate].
    apply (f_equal (map name)) in F. rewrite flat_map_names in F.
    destruct (filter has_rows decoded); [reflexivity|discriminate].
Qed.

(** The state after one turn of the upload loop. *)
Lemma upload_one_state st cur (log : list Event) file :
  fst (upload_one (handleExcelData st) (cur, log) file)
  = match fst (processExcelFile file) with
    | Some sheets => fst (handleExcelData st sheets (file_name file) cur)
    | None => cur
    end.
Proof.
  unfold upload_one.
  destruct (processExcelFile file) as [[sheets|] ev]; [|reflexivity].
  cbn [fst]. now destruct (handleExcelData st sheets (file_name file) cur).
Qed.

Lemma upload_fold_state st (files : list (File num)) cur
    (log : list Event) :
  fst (fold_left (upload_one (handleExcelData st)) files (cur, log))
  = fold_left
      (fun cur file =>
         match fst (processExcelFile file) with
         | Some sheets =>
             fst (handleExcelData st sheets (file_name file) cur)
         | None => cur
         end)
      files cur.
Proof.
  revert cur log. induction files as [|file files IH]; [reflexivity|].
  intros cur log. cbn [fold_left].
  rewrite <- (upload_one_state st cur log file).
  destruct (upload_one (handleExcelData st) (cur, log) file) as [cur' log'].
  apply IH.
Qed.

(** The page after an upload: untouched by a batch that is empty, too
    large or holds a file of another type, the result of the loop
    otherwise. *)
Lemma handleFileChange_state (files : list (File num)) st :
  fst (handleFileChange files st)
  = if (2 <? List.length files)%nat
       || existsb (fun file => negb (accepted file)) files
    then st
    else fold_left
           (fun cur file =>
              match fst (processExcelFile file) with
              | Some sheets =>
                  fst (handleExcelData st sheets (file_name file) cur)
              | None => cur
              end)
           files st.
Proof.
  unfold handleFileChange.
  destruct files as [|f fs]; [reflexivity|].
  destruct (2 <? List.length (f :: fs))%nat; [reflexivity|].
  cbn [orb].
  destruct (find (fun file => negb (accepted file)) (f :: fs)) as [bad|]
    eqn:E.
  - apply find_some in E.
    assert (H : existsb (fun file => negb (accepted file)) (f :: fs) = true).
    { apply existsb_exists. exists bad. exact E. }
    rewrite H. reflexivity.
  - assert (H : existsb (fun file => negb (accepted file)) (f :: fs) = false).
    { apply not_true_is_false. intros H. apply existsb_exists in H.
      destruct H as [x [Hin Hx]].
      now rewrite (find_none _ _ E x Hin) in Hx. }
    rewrite H.
    destruct (fold_left (upload_one (handleExcelData st)) (f :: fs)
                        (st, [SetIsLoading true])) as [st' log] eqn:F.
    cbn [fst]. rewrite <- (upload_fold_state st (f :: fs) st
                             [SetIsLoading true]), F.
    reflexivity.
Qed.

(** X3.  A batch in which some file has another extension than the three is
    turned down as a whole: the page is as it was, the notification names
    the first such file, and no file of the batch is read, not even those
    before it. *)
Theorem handleFileChange_rejects_other_types
    (files : list (File num)) st :
  (List.length files <= 2)%nat ->
  (exists file, In file files /\ accepted file = false) ->
  exists front bad back,
    files = (front ++ bad :: back)%list
    /\ forallb accepted front = true /\ accepted bad = false
    /\ handleFileChange files st
       = (st, [SetIsLoading true;
               Notify (ToastError
                         ("Invalid file type: " ++ file_name bad
                          ++ ". Please upload Excel or CSV files only"));
               SetIsLoading false; SetIsLoading false; ResetInput])
    /\ forall fname : string,
         ~ In (Decode fname) (snd (handleFileChange files st)).
Proof.
  intros Hlen [x [Hin Hx]].
  assert (Hsplit : exists front bad back,
            files = (front ++ bad :: back)%list
            /\ forallb accepted front = true /\ accepted bad = false
            /\ find (fun file => negb (accepted file)) files = Some bad).
  { clear Hlen. induction files as [|f fs IH]; [destruct Hin|].
    destruct (accepted f) eqn:Hf.
    - destruct Hin as [->|Hin]; [congruence|].
      destruct (IH Hin) as [b [bad [a [-> [Hb [Hbad Hfind]]]]]].
      exists (f :: b), bad, a. simpl. rewrite Hf, Hb. simpl.
      repeat split; try assumption.
    - exists [], f, fs. simpl. rewrite Hf. simpl. repeat split. }
  destruct Hsplit as [b [bad [a [Hfiles [Hb [Hbad Hfind]]]]]].
  exists b, bad, a.
  assert (Hrun : handleFileChange files st
                 = (st, [SetIsLoading true;
                         Notify (ToastError
                                   ("Invalid file type: "
                                    ++ file_name bad
                                    ++ ". Please upload Excel or CSV "
                                    ++ "files only"));
                         SetIsLoading false; SetIsLoading false;
                         ResetInput])).
  { unfold handleFileChange. rewrite Hfind.
    destruct files as [|f fs]; [destruct b; discriminate|].
    destruct (2 <? List.length (f :: fs))%nat eqn:L; [|reflexivity].
    apply Nat.ltb_lt in L. lia. }
  rewrite Hrun. repeat split; try assumption.
  intros fname H. simpl in H.
  repeat (destruct H as [H|H]; [discriminate H|]). exact H.
Qed.

(** X4.  A file that is read successfully but whose name is already loaded
    changes nothing on the page, and the upload reports it twice: as already
    loaded, then as successfully loaded. *)
Theorem handleFileChange_loaded_name_reported_twice file st :
  accepted file = true ->
  decodes num_toString Date_toString file = true ->
  In (file_name file) (fileNames st) ->
  handleFileChange [file] st
  = (st, [SetIsLoading true;
          Decode (file_name file);
          Notify (ToastError
                    ("File " ++ file_name file ++ " is already loaded"));
          Notify (ToastSuccess ("Successfully loaded " ++ file_name file));
          SetIsLoading false; ResetInput]).
Proof.
  intros Hacc Hdec Hin. unfold decodes in Hdec.
  destruct (fst (processExcelFile file)) as [sheets|] eqn:E;
    [|discriminate].
  destruct (processExcelFile_Some _ _ E) as [Hev _].
  unfold handleFileChange. cbn [List.length Nat.ltb Nat.leb find].
  rewrite Hacc. cbn [negb fold_left]. unfold upload_one.
  destruct (processExcelFile file) as [o ev]. cbn [fst snd] in E, Hev.
  subst o ev. unfold handleExcelData.
  rewrite (existsb_eqb_In _ _ Hin). reflexivity.
Qed.

(** X5.  Two files uploaded together: the handler the loop calls is the one
    of the render in which the upload started, so the second call sees the
    page as it was before the first.  When the second file loads, the page
    ends as if it had been uploaded alone (the worksheets and the name of
    the first file are gone); otherwise the page ends as if the first had
    been uploaded alone. *)
Theorem handleFileChange_two_files (f1 f2 : File num) st :
  accepted f1 = true -> accepted f2 = true ->
  fst (handleFileChange [f1; f2] st)
  = if loads num_toString Date_toString st f2
    then fst (handleFileChange [f2] st)
    else fst (handleFileChange [f1] st).
Proof.
  intros H1 H2. rewrite !handleFileChange_state.
  cbn [List.length Nat.ltb Nat.leb existsb orb fold_left].
  rewrite H1, H2. cbn [negb orb].
  unfold loads, decodes.
  destruct (fst (processExcelFile f2)) as [d2|]; [|reflexivity].
  cbn [andb]. unfold handleExcelData at 1 3.
  destruct (existsb (String.eqb (file_name f2)) (fileNames st));
    [reflexivity|].
  cbn [negb fst].
  destruct (fst (processExcelFile f1)) as [d1|]; [|reflexivity].
  unfold handleExcelData.
  destruct (existsb (String.eqb (file_name f1)) (fileNames st));
    [reflexivity|].
  cbn [fst activeFile].
  destruct (negb (selected (activeFile st))); reflexivity.
Qed.

End UploadFacts.

(** X1.  The extension test at the file Report.2024.XLSX. *)
Lemma accepted_by_last_segment_witness :
  free_of "." "XLSX" = true
  /\ @accepted Z {| file_name := "Report.2024" ++ "." ++ "XLSX";
                    workbook := None |}
     = true.
Proof.
  split; [reflexivity|].
  exact (proj1 (accepted_by_last_segment (num := Z) "Report.2024" "XLSX"
                  None eq_refl)).
Defined.

(** X3.  A workbook uploaded together with a text file: nothing is loaded. *)
Lemma handleFileChange_rejects_other_types_witness :
  (List.length Examples.mixed_batch <= 2)%nat
  /\ fst (IntNum.handleFileChange Examples.mixed_batch Examples.empty_page)
     = Examples.empty_page.
Proof.
  split; [simpl; lia|].
  destruct (handleFileChange_rejects_other_types
              Z_toString DateText.Date_toString
              Examples.mixed_batch Examples.empty_page
              ltac:(simpl; lia)
              (ex_intro _ (Examples.decoded "notes.txt")
                 (conj (or_intror (or_introl eq_refl)) eq_refl)))
    as [b [bad [a [_ [_ [_ [Hrun _]]]]]]].
  exact (f_equal fst Hrun).
Defined.

(** X4.  Uploading january.xlsx a second time. *)
Lemma handleFileChange_loaded_name_reported_twice_witness :
  In "january.xlsx" (fileNames Examples.january_loaded)
  /\ snd (IntNum.handleFileChange [Examples.decoded "january.xlsx"]
            Examples.january_loaded)
     = [SetIsLoading true;
        Decode "january.xlsx";
        Notify (ToastError "File january.xlsx is already loaded");
        Notify (ToastSuccess "Successfully loaded january.xlsx");
        SetIsLoading false; ResetInput].
Proof.
  split; [now left|].
  exact (f_equal snd
           (handleFileChange_loaded_name_reported_twice
              Z_toString DateText.Date_toString
              (Examples.decoded "january.xlsx") Examples.january_loaded
              eq_refl eq_refl (or_introl eq_refl))).
Defined.

(** X5.  a.xlsx and b.xlsx uploaded together on the empty page: the page
    ends as if b.xlsx had been uploaded alone. *)
Lemma handleFileChange_two_files_witness :
  accepted (Examples.decoded "a.xlsx") = true
  /\ accepted (Examples.decoded "b.xlsx") = true
  /\ fst (IntNum.handleFileChange
            [Examples.decoded "a.xlsx"; Examples.decoded "b.xlsx"]
            Examples.empty_page)
     = fst (IntNum.handleFileChange [Examples.decoded "b.xlsx"]
              Examples.empty_page).
Proof.
  split; [reflexivity|]. split; [reflexivity|].
  exact (handleFileChange_two_files Z_toString DateText.Date_toString
           (Examples.decoded "a.xlsx") (Examples.decoded "b.xlsx")
           Examples.empty_page eq_refl eq_refl).
Defined.
(* ================================================================== *)
(** ** Sets of strings *)
(* ================================================================== *)

Section SetFacts.
Implicit Types (s l : list string) (x y : string).

Lemma existsb_eqb_false x s :
  ~ In x s -> existsb (String.eqb x) s = false.
Proof.
  intros H. apply not_true_is_false. intros E. apply H.
  apply existsb_exists in E. destruct E as [y [Hin Hy]].
  apply String.eqb_eq in Hy. now subst.
Qed.

Lemma set_add_In s x y : In y (set_add s x) <-> In y s \/ y = x.
Proof.
  unfold set_add. destruct (existsb (String.eqb x) s) eqn:E.
  - apply existsb_exists in E. destruct E as [z [Hin Hz]].
    apply String.eqb_eq in Hz. subst z. split; [tauto|].
    intros [H| ->]; assumption.
  - rewrite in_app_iff. simpl. intuition congruence.
Qed.

Lemma set_add_NoDup s x : NoDup s -> NoDup (set_add s x).
Proof.
  intros H. unfold set_add. destruct (existsb (String.eqb x) s) eqn:E;
    [exact H|].
  apply NoDup_app; [exact H|constructor; [intros []|constructor]|].
  intros y Hy [<-|[]].
  rewrite (existsb_eqb_In _ _ Hy) in E. discriminate.
Qed.

Lemma set_add_fold_In l s y :
  In y (fold_left set_add l s) <-> In y s \/ In y l.
Proof.
  revert s. induction l as [|x l IH]; intros s; simpl; [tauto|].
  rewrite IH, set_add_In. intuition congruence.
Qed.

Lemma set_add_fold_NoDup l s : NoDup s -> NoDup (fold_left set_add l s).
Proof.
  revert s. induction l as [|x l IH]; intros s H; simpl; [exact H|].
  apply IH, set_add_NoDup, H.
Qed.

Lemma set_of_In l y : In y (set_of l) <-> In y l.
Proof. unfold set_of. rewrite set_add_fold_In. simpl. tauto. Qed.

Lemma set_of_NoDup l : NoDup (set_of l).
Proof. apply set_add_fold_NoDup. constructor. Qed.

Lemma set_of_app l1 l2 :
  set_of (l1 ++ l2) = fold_left set_add l2 (set_of l1).
Proof. unfold set_of. apply fold_left_app. Qed.

Lemma set_add_known s x : In x s -> set_add s x = s.
Proof. intros H. unfold set_add. now rewrite (existsb_eqb_In _ _ H). Qed.

(** Adding one new element any number of times appends it once. *)
Lemma set_add_fold_one l s x :
  Forall (eq x) l -> l <> [] -> ~ In x s ->
  fold_left set_add l s = (s ++ [x])%list.
Proof.
  intros Hall Hne Hnew. destruct l as [|y l]; [contradiction|].
  apply Forall_cons_iff in Hall. destruct Hall as [<- Hl]. simpl.
  unfold set_add at 2. rewrite (existsb_eqb_false _ _ Hnew).
  clear Hne. induction l as [|y l IH]; [reflexivity|].
  apply Forall_cons_iff in Hl. destruct Hl as [<- Hl]. simpl.
  rewrite set_add_known; [apply IH, Hl|].
  apply in_app_iff. right. now left.
Qed.

End SetFacts.

(* ================================================================== *)
(** ** What the page keeps true of its state *)
(* ================================================================== *)

Section PageInvariant.
Context {num : Type}.
Variable num_toString : num -> string.
Variable Date_toString : Z -> string.
Implicit Types (st cur : PageState num) (file : File num).

Local Abbreviation processExcelFile :=
  (processExcelFile num_toString Date_toString).
Local Abbreviation handleFileChange :=
  (handleFileChange num_toString Date_toString).
Local Abbreviation reachable := (reachable num_toString Date_toString).

Lemma initial_page_consistent : page_consistent (@initial_page num).
Proof. split; [reflexivity|constructor]. Qed.

(** Loading the worksheets of a file as the handler of the page [seen]
    does on the current page [cur]. *)
Lemma handleExcelData_consistent seen cur
    (sheets : list (WorksheetData num)) (fname : string) :
  page_consistent seen ->
  page_consistent cur ->
  sheets <> [] ->
  Forall (fun sheet => fileName sheet = fname /\ well_formed sheet) sheets ->
  page_consistent (fst (handleExcelData seen sheets fname cur)).
Proof.
  intros [Hnames Hshape] Hcur Hne Hsheets.
  destruct (in_dec string_dec fname (fileNames seen)) as [Hin|Hnew].
  { unfold handleExcelData. rewrite (existsb_eqb_In _ _ Hin). exact Hcur. }
  unfold handleExcelData. rewrite (existsb_eqb_false _ _ Hnew).
  cbn [fst]. split; cbn [excelData fileNames].
  - unfold getUniqueFileNames in *. cbn [excelData].
    rewrite map_app, set_of_app, Hnames.
    apply set_add_fold_one; [| |exact Hnew].
    + apply Forall_forall. intros x Hx. apply in_map_iff in Hx.
      destruct Hx as [sheet [<- Hin]].
      rewrite Forall_forall in Hsheets. symmetry. apply Hsheets, Hin.
    + destruct sheets; [contradiction|discriminate].
  - apply Forall_app. split; [exact Hshape|].
    apply Forall_forall. intros sheet Hin.
    rewrite Forall_forall in Hsheets. apply Hsheets, Hin.
Qed.

Lemma chooseWorksheet_consistent (i : nat) st :
  page_consistent st -> page_consistent (chooseWorksheet i st).
Proof.
  intros Hst. unfold chooseWorksheet.
  destruct (nth_error (excelData st) i) as [sheet|]; exact Hst.
Qed.

Lemma reachable_consistent st : reachable st -> page_consistent st.
Proof.
  induction 1 as [|seen cur file sheets _ IHseen _ IHcur Hfile
                  |i st _ IH|st _ _].
  - apply initial_page_consistent.
  - destruct (processExcelFile_Some _ _ _ _ Hfile) as [_ [Hne [Hall _]]].
    now apply handleExcelData_consistent.
  - apply chooseWorksheet_consistent, IH.
  - apply initial_page_consistent.
Qed.

(** An upload that nothing interrupts is among the steps of the page:
    every file of the batch is loaded by the handler of the page on which
    the upload started. *)
Lemma reachable_handleFileChange (files : list (File num)) st :
  reachable st -> reachable (fst (handleFileChange files st)).
Proof.
  intros Hst. rewrite handleFileChange_state.
  destruct ((2 <? List.length files)%nat
            || existsb (fun file => negb (accepted file)) files);
    [exact Hst|].
  assert (H : forall cur,
             reachable cur ->
             reachable
               (fold_left
                  (fun cur file =>
                     match fst (processExcelFile file) with
                     | Some sheets =>
                         fst (handleExcelData st sheets (file_name file)
                                              cur)
                     | None => cur
                     end)
                  files cur)).
  { induction files as [|file files IH]; intros cur Hcur; [exact Hcur|].
    cbn [fold_left]. apply IH.
    destruct (fst (processExcelFile file)) as [sheets|] eqn:E;
      [|exact Hcur].
    now apply reach_load. }
  apply H, Hst.
Qed.

(** X6.  Whatever the user uploads, chooses and clears, in any order and
    also between the files of one upload: the file names the page remembers
    are those of the loaded worksheets, each once and in the order in which
    their worksheets come; every loaded worksheet has a row, and every row
    a cell for every header. *)
Theorem reachable_page_invariant st :
  reachable st ->
  fileNames st = getUniqueFileNames st
  /\ NoDup (fileNames st)
  /\ Forall well_formed (excelData st).
Proof.
  intros H. apply reachable_consistent in H.
  destruct H as [Hnames Hshape].
  split; [symmetry; exact Hnames|]. split; [|exact Hshape].
  rewrite <- Hnames. apply set_of_NoDup.
Qed.

End PageInvariant.

(** The session of the examples, step by step. *)
Lemma session_reachable :
  reachable Z_toString DateText.Date_toString Examples.a_loaded
  /\ reachable Z_toString DateText.Date_toString Examples.b_chosen
  /\ reachable Z_toString DateText.Date_toString Examples.c_loaded.
Proof.
  assert (Ha : reachable Z_toString DateText.Date_toString
                         Examples.a_loaded).
  { exact (reach_load Z_toString DateText.Date_toString
             initial_page initial_page (Examples.book "a.xlsx" "A")
             [Examples.page_of "a.xlsx" "A"]
             (reach_initial _ _) (reach_initial _ _) eq_refl). }
  assert (Hb : reachable Z_toString DateText.Date_toString
                         Examples.b_chosen).
  { apply reach_choose.
    exact (reach_load Z_toString DateText.Date_toString
             Examples.a_loaded Examples.a_loaded
             (Examples.book "b.xlsx" "B") [Examples.page_of "b.xlsx" "B"]
             Ha Ha eq_refl). }
  split; [exact Ha|]. split; [exact Hb|].
  exact (reach_load Z_toString DateText.Date_toString
           Examples.a_loaded Examples.b_chosen
           (Examples.book "c.xlsx" "C") [Examples.page_of "c.xlsx" "C"]
           Ha Hb eq_refl).
Defined.

(** The selection is not part of what the page keeps true.  At the end
    of the session of the examples the page holds the worksheets A and C,
    the selection is still B, and the chart and the table find no
    worksheet: the handler that loaded c.xlsx had the worksheets of the
    render that started the upload. *)
Remark selection_without_worksheet :
  reachable Z_toString DateText.Date_toString Examples.c_loaded
  /\ map name (excelData Examples.c_loaded) = ["A"; "C"]
  /\ activeFile Examples.c_loaded = Some "B"
  /\ getActiveWorksheet Examples.c_loaded = None.
Proof.
  split; [exact (proj2 (proj2 session_reachable))|].
  repeat split.
Qed.

(** X6.  The page at the end of the session of the examples. *)
Lemma reachable_page_invariant_witness :
  reachable Z_toString DateText.Date_toString Examples.c_loaded
  /\ fileNames Examples.c_loaded = ["a.xlsx"; "c.xlsx"]
  /\ fileNames Examples.c_loaded = getUniqueFileNames Examples.c_loaded
  /\ NoDup (fileNames Examples.c_loaded).
Proof.
  split; [exact (proj2 (proj2 session_reachable))|].
  split; [reflexivity|].
  destruct (reachable_page_invariant Z_toString DateText.Date_toString
              Examples.c_loaded (proj2 (proj2 session_reachable)))
    as [H1 [H2 _]].
  split; assumption.
Defined.
(* ================================================================== *)
(** ** Dashboard, chart and export on loaded worksheets *)
(* ================================================================== *)

Section RowFacts.
Context {num : Type}.
Implicit Types (row : Row num) (h : string).

Lemma row_lookup_In row h :
  In h (map fst row) -> exists c, row_lookup row h = Some c.
Proof.
  induction row as [|[k c] row IH]; simpl; [intros []|].
  destruct (String.eqb k h) eqn:E; [intros _; now exists c|].
  intros [->|Hin]; [now rewrite String.eqb_refl in E|apply IH, Hin].
Qed.

Lemma cell_value_In row h :
  In h (map fst row) -> cell_value row h = Some (cell row h).
Proof.
  intros Hin. destruct (row_lookup_In _ _ Hin) as [c Hc].
  unfold cell_value, cell. now rewrite Hc.
Qed.

Lemma all_some_map {A B : Type} (f : A -> option B) (g : A -> B)
    (l : list A) :
  (forall a, In a l -> f a = Some (g a)) ->
  all_some (map f l) = Some (map g l).
Proof.
  induction l as [|a l IH]; intros H; [reflexivity|].
  simpl. rewrite (H a) by now left.
  rewrite IH by (intros; apply H; now right). reflexivity.
Qed.

End RowFacts.

Section DashboardFacts.
Context {num : Type}.
Variable num_toString : num -> string.
Variable Date_toString : Z -> string.
Implicit Types (st : PageState num).

Local Abbreviation reachable := (reachable num_toString Date_toString).

Lemma totalRows_from (sheets : list (WorksheetData num)) (n : nat) :
  Forall well_formed sheets ->
  (n + List.length sheets
   <= fold_left (fun sum sheet => sum + List.length (data sheet))
                sheets n)%nat.
Proof.
  revert n. induction sheets as [|sheet sheets IH]; intros n H; simpl;
    [lia|].
  apply Forall_cons_iff in H. destruct H as [[Hrow _] H].
  specialize (IH (n + List.length (data sheet))%nat H). lia.
Qed.

Lemma totalColumns_from (sheets : list (WorksheetData num)) (n : nat) :
  fold_left (fun sum sheet => sum + List.length (headers sheet))%nat
            sheets n
  = (n + List.length (flat_map headers sheets))%nat.
Proof.
  revert n. induction sheets as [|sheet sheets IH]; intros n; simpl;
    [lia|].
  rewrite IH, length_app. lia.
Qed.

(** X7.  On every page the user can bring about, the dashboard is shown
    exactly when a file name is loaded.  Its file counter is the number of
    loaded file names; there is at least one file, at most as many files
    as worksheets and as many worksheets as rows; the column counter is
    the number of headers of all worksheets together. *)
Theorem page_stats_counts st :
  reachable st ->
  match page_stats st with
  | None => excelData st = [] /\ fileNames st = []
  | Some stats =>
      totalFiles stats = List.length (fileNames st)
      /\ (1 <= totalFiles stats <= totalSheets stats)%nat
      /\ (totalSheets stats <= totalRows stats)%nat
      /\ totalColumns stats
         = List.length (flat_map headers (excelData st))
  end.
Proof.
  intros H. apply reachable_consistent in H.
  destruct H as [Hnames Hshape]. unfold page_stats.
  destruct (excelData st) as [|sheet sheets] eqn:E.
  - split; [reflexivity|]. rewrite <- Hnames.
    unfold getUniqueFileNames. now rewrite E.
  - rewrite <- E in *. unfold DashboardStats.
    cbn [totalFiles totalSheets totalRows totalColumns]. rewrite Hnames.
    split; [reflexivity|]. repeat split.
    + rewrite <- Hnames. unfold getUniqueFileNames.
      assert (Hin : In (fileName sheet)
                       (set_of (map fileName (excelData st)))).
      { apply set_of_In. rewrite E. now left. }
      destruct (set_of (map fileName (excelData st)));
        [destruct Hin|simpl; lia].
    + rewrite <- Hnames. unfold getUniqueFileNames.
      rewrite <- (length_map fileName (excelData st)).
      apply NoDup_incl_length; [apply set_of_NoDup|].
      intros x Hx. now apply set_of_In.
    + apply (totalRows_from (excelData st) 0 Hshape).
    + apply (totalColumns_from (excelData st) 0).
Qed.

End DashboardFacts.

Section ChartFacts.
Context {num : Type}.
Variable num_zero : num.
Variable num_toString : num -> string.
Variable Date_toString : Z -> string.
Implicit Types (row : Row num) (worksheet : WorksheetData num)
  (chartConfig : ChartConfig).

Local Abbreviation number_or_zero := (number_or_zero num_zero).
Local Abbreviation processedData := (processedData num_zero).
Local Abbreviation pieData :=
  (pieData num_zero num_toString Date_toString).

Lemma chart_add_y_fold row (ys : list string) (e : JsMap (Value num)) :
  (forall y, In y ys -> In y (map fst row)) ->
  exists e',
    fold_left (chart_add_y num_zero row) ys (Some e) = Some e'
    /\ forall k,
         map_get e' k
         = if existsb (String.eqb k) ys
           then Some (number_or_zero (cell row k))
           else map_get e k.
Proof.
  revert e. induction ys as [|y ys IH]; intros e Hys.
  - exists e. split; reflexivity.
  - cbn [fold_left]. unfold chart_add_y at 2.
    rewrite (cell_value_In row y) by (apply Hys; now left).
    destruct (IH (map_set e y (number_or_zero (cell row y))))
      as [e' [Hrun Hget]].
    { intros z Hz. apply Hys. now right. }
    exists e'. split; [exact Hrun|].
    intros k. rewrite Hget. cbn [existsb].
    destruct (existsb (String.eqb k) ys); [now rewrite orb_true_r|].
    rewrite orb_false_r. destruct (String.eqb k y) eqn:E.
    + apply String.eqb_eq in E. subst k. apply map_get_set_same.
    + apply String.eqb_neq in E. apply map_get_set_other. congruence.
Qed.

Lemma all_some_Forall2 {A B : Type} (f : A -> option B)
    (R : A -> B -> Prop) (l : list A) :
  (forall a, In a l -> exists b, f a = Some b /\ R a b) ->
  exists bs, all_some (map f l) = Some bs /\ Forall2 R l bs.
Proof.
  induction l as [|a l IH]; intros H.
  - exists []. split; [reflexivity|constructor].
  - destruct (H a (or_introl eq_refl)) as [b [Hb HR]].
    destruct IH as [bs [Hbs HF]]; [intros; apply H; now right|].
    exists (b :: bs). simpl. rewrite Hb, Hbs. split; [reflexivity|].
    now constructor.
Qed.

Lemma processedData_rows worksheet chartConfig :
  rectangular worksheet ->
  In (xAxis chartConfig) (headers worksheet) ->
  incl (yAxis chartConfig) (headers worksheet) ->
  String.eqb (xAxis chartConfig) "" = false ->
  (0 < List.length (yAxis chartConfig))%nat ->
  exists entries,
    processedData worksheet chartConfig = Some entries
    /\ Forall2
         (fun row entry =>
            forall k,
              map_get entry k
              = if existsb (String.eqb k) (yAxis chartConfig)
                then Some (number_or_zero (cell row k))
                else if String.eqb k (xAxis chartConfig)
                     then Some (cell row k)
                     else None)
         (data worksheet) entries.
Proof.
  intros Hrect Hx Hys Hsel Hlen. unfold processedData. rewrite Hsel.
  destruct (yAxis chartConfig) as [|y0 ys] eqn:Ey; [simpl in Hlen; lia|].
  cbn [List.length Nat.eqb orb]. rewrite <- Ey in *.
  apply all_some_Forall2. intros row Hrow.
  unfold rectangular in Hrect. rewrite Forall_forall in Hrect.
  specialize (Hrect row Hrow).
  unfold chart_entry. rewrite (cell_value_In row (xAxis chartConfig))
    by (rewrite Hrect; exact Hx).
  destruct (chart_add_y_fold row (yAxis chartConfig)
              [(xAxis chartConfig, cell row (xAxis chartConfig))])
    as [e' [Hrun Hget]].
  { intros y Hy. rewrite Hrect. apply Hys, Hy. }
  exists e'. split; [exact Hrun|].
  intros k. rewrite Hget. simpl.
  destruct (existsb (String.eqb k) (yAxis chartConfig)); [reflexivity|].
  rewrite String.eqb_sym.
  destruct (String.eqb k (xAxis chartConfig)) eqn:E; [|reflexivity].
  apply String.eqb_eq in E. now subst k.
Qed.


End ChartFacts.

Section ToggleFacts.
Implicit Types (chartConfig : ChartConfig).

(** X9.  Clicking a header in the list of series adds it when it is not
    chosen and removes it when it is: the chosen series stay free of
    repetitions, the header changes sides, every other header stays where it
    was, and nothing else of the configuration changes.  Clicking a header
    that was not chosen twice gives the configuration back. *)
Theorem handleToggleYAxis_toggles chartConfig (header : string) :
  NoDup (yAxis chartConfig) ->
  let toggled := handleToggleYAxis chartConfig header in
  NoDup (yAxis toggled)
  /\ (In header (yAxis toggled) <-> ~ In header (yAxis chartConfig))
  /\ (forall y, y <> header ->
        (In y (yAxis toggled) <-> In y (yAxis chartConfig)))
  /\ type toggled = type chartConfig
  /\ xAxis toggled = xAxis chartConfig
  /\ title toggled = title chartConfig
  /\ (~ In header (yAxis chartConfig) ->
      yAxis (handleToggleYAxis toggled header) = yAxis chartConfig).
Proof.
  intros Hnd toggled. unfold toggled, handleToggleYAxis.
  cbn [yAxis type xAxis title].
  destruct (existsb (String.eqb header) (yAxis chartConfig)) eqn:E.
  - apply existsb_exists in E. destruct E as [y [Hin Hy]].
    apply String.eqb_eq in Hy. subst y.
    split; [apply NoDup_filter, Hnd|].
    split; [split|].
    + intros H. apply filter_In in H. destruct H as [_ H].
      now rewrite String.eqb_refl in H.
    + intros H. contradiction.
    + split; [|tauto]. intros y Hy. split.
      * intros H. apply filter_In in H. tauto.
      * intros H. apply filter_In. split; [exact H|].
        apply negb_true_iff, String.eqb_neq. assumption.
  - assert (Hnot : ~ In header (yAxis chartConfig)).
    { intros H. now rewrite (existsb_eqb_In _ _ H) in E. }
    split.
    { apply NoDup_app; [exact Hnd|constructor; [intros []|constructor]|].
      intros y Hy [<-|[]]. contradiction. }
    split; [split|].
    + intros _. exact Hnot.
    + intros _. apply in_app_iff. right. now left.
    + split; [|repeat split].
      * intros y Hy. split.
        -- intros H. apply in_app_iff in H.
           destruct H as [H|[H|[]]]; [exact H|congruence].
        -- intros H. apply in_app_iff. now left.
      * intros _.
        assert (Hex : existsb (String.eqb header)
                              (yAxis chartConfig ++ [header]) = true).
        { apply existsb_eqb_In, in_app_iff. right. now left. }
        rewrite Hex. rewrite filter_app. simpl.
        rewrite String.eqb_refl. simpl. rewrite app_nil_r.
        apply forallb_filter_id. apply forallb_forall. intros y Hy.
        apply negb_true_iff, String.eqb_neq. intros ->. contradiction.
Qed.

End ToggleFacts.

Section ExportFacts.
Context {num : Type}.
Variable num_toString : num -> string.
Variable Date_toString : Z -> string.
Implicit Types (row : Row num) (worksheet : WorksheetData num).

(** The grid written on export, for a worksheet whose rows have a cell
    for every header. *)
Lemma wsData_of_rectangular worksheet :
  rectangular worksheet ->
  wsData worksheet
  = Some (map VString (headers worksheet)
          :: map (fun row => map (cell row) (headers worksheet))
                 (data worksheet)).
Proof.
  intros Hrect. unfold wsData.
  rewrite (all_some_map _ (fun row => map (cell row) (headers worksheet)));
    [reflexivity|].
  intros row Hrow. apply all_some_map. intros h Hh.
  apply cell_value_In. unfold rectangular in Hrect.
  rewrite Forall_forall in Hrect. now rewrite (Hrect row Hrow).
Qed.

Lemma json_lookup_processedRow (hs : list string)
    (r : list (string * Value num)) (h : string) :
  In h hs ->
  cell (processedRow num_toString Date_toString hs r) h = json_lookup r h.
Proof.
  intros Hin. unfold cell, processedRow.
  induction hs as [|k hs IH]; [destruct Hin|]. simpl.
  destruct (String.eqb k h) eqn:E.
  - apply String.eqb_eq in E. now subst k.
  - apply IH. destruct Hin as [->|Hin]; [|exact Hin].
    now rewrite String.eqb_refl in E.
Qed.

(** X10.  Upload, then export: for a decoded sheet with rows, the export is
    computed without an exception; the sheet keeps its name, and the grid
    holds the keys of the first decoded row as headers and, for every
    decoded row in order, what that row holds under each of these keys
    (nothing where it lacks the key).  Keys that the first row does not have
    are lost. *)
Theorem exportToExcel_of_upload (fname : string) (sheet : DecodedSheet num)
    (row0 : list (string * Value num))
    (rest : list (list (string * Value num))) :
  jsonData sheet = row0 :: rest ->
  exists worksheet,
    worksheetOf num_toString Date_toString fname sheet = [worksheet]
    /\ exportToExcel worksheet
       = Some (sheetName sheet,
               map VString (map fst row0)
               :: map (fun r => map (json_lookup r) (map fst row0))
                      (row0 :: rest),
               export_fileName worksheet).
Proof.
  intros Hjson. unfold worksheetOf. rewrite Hjson.
  eexists. split; [reflexivity|].
  unfold exportToExcel. rewrite wsData_of_rectangular.
  - cbn [headers data name]. f_equal. f_equal. f_equal. f_equal.
    rewrite map_map.
    apply map_ext. intros r. apply map_ext_in. intros h Hh.
    now apply json_lookup_processedRow.
  - unfold rectangular. cbn [headers data]. apply Forall_forall.
    intros row Hin. apply in_map_iff in Hin. destruct Hin as [r [<- _]].
    unfold processedRow. rewrite map_map. apply map_id.
Qed.

(** X11.  The name of the exported file is the name of the source file up to
    its first dot, an underscore, the sheet name and [.xlsx]: whatever
    follows the first dot of the source name is dropped, not only the
    extension. *)
Theorem export_fileName_first_dot worksheet (base rest : string) :
  free_of "." base = true ->
  fileName worksheet = base ++ "." ++ rest ->
  export_fileName worksheet = base ++ "_" ++ name worksheet ++ ".xlsx".
Proof.
  intros Hfree Hname. unfold export_fileName. rewrite Hname.
  change (base ++ "." ++ rest) with (base ++ String "." rest).
  now rewrite (first_split _ _ _ Hfree).
Qed.

End ExportFacts.

(** X7.  The counters of the dashboard at the end of the session of the
    examples: two files, two worksheets, two rows, four columns. *)
Lemma page_stats_counts_witness :
  reachable Z_toString DateText.Date_toString Examples.c_loaded
  /\ page_stats Examples.c_loaded
     = Some {| totalFiles := 2; totalSheets := 2; totalRows := 2;
               totalColumns := 4 |}
  /\ match page_stats Examples.c_loaded with
     | None => False
     | Some stats =>
         totalFiles stats = 2%nat
         /\ (1 <= totalFiles stats <= totalSheets stats)%nat
         /\ (totalSheets stats <= totalRows stats)%nat
         /\ totalColumns stats = 4%nat
     end.
Proof.
  split; [exact (proj2 (proj2 session_reachable))|].
  split; [reflexivity|].
  exact (page_stats_counts Z_toString DateText.Date_toString
           Examples.c_loaded (proj2 (proj2 session_reachable))).
Defined.


(** X9.  Clicking Amount in the chart of the amounts by date. *)
Lemma handleToggleYAxis_toggles_witness :
  NoDup (yAxis Examples.amount_by_date)
  /\ NoDup (yAxis (handleToggleYAxis Examples.amount_by_date "Amount")).
Proof.
  assert (H : NoDup (yAxis Examples.amount_by_date))
    by (repeat constructor; intros []).
  split; [exact H|].
  exact (proj1 (handleToggleYAxis_toggles Examples.amount_by_date
                  "Amount" H)).
Defined.

(** X10.  Upload and export of a sheet whose rows differ in their keys. *)
Lemma exportToExcel_of_upload_witness :
  exists worksheet,
    worksheetOf Z_toString DateText.Date_toString "ragged.xlsx"
                Examples.ragged
    = [worksheet]
    /\ exportToExcel worksheet
       = Some ("Sheet1",
               [[VString "Date"; VString "Amount"];
                [VString "2024-01-15"; VNumber 100];
                [VString "2024-01-16"; VUndefined]],
               export_fileName worksheet).
Proof.
  exact (exportToExcel_of_upload Z_toString DateText.Date_toString
           "ragged.xlsx" Examples.ragged _ _ eq_refl).
Defined.

(** X11.  The export of a worksheet of the file sales.2024.xlsx. *)
Lemma export_fileName_first_dot_witness :
  free_of "." "sales" = true
  /\ export_fileName
       (Examples.sheet_of (num := Z) "sales.2024.xlsx" "Sheet1" [] [])
     = "sales_Sheet1.xlsx".
Proof.
  split; [reflexivity|].
  exact (export_fileName_first_dot
           (Examples.sheet_of (num := Z) "sales.2024.xlsx" "Sheet1" [] [])
           "sales" "2024.xlsx" eq_refl eq_refl).
Defined.
(* ================================================================== *)
(** ** Column pickers and the choice of a worksheet *)
(* ================================================================== *)

Section PickerFacts.
Context {num : Type}.
Variable num_add : num -> num -> num.
Variable num_truthy : num -> bool.
Variable Date_parse : string -> option Z.
Implicit Types (sheet : WorksheetData num)
  (excelData : list (WorksheetData num)) (h : string).

Local Abbreviation monthly_columns := (monthly_columns Date_parse).
Local Abbreviation project_columns := (project_columns Date_parse).
Local Abbreviation date_like := (date_like Date_parse).
Local Abbreviation monthly_handleSheetChange :=
  (monthly_handleSheetChange Date_parse).

Lemma sheetId_nonempty sheet : String.eqb (sheetId sheet) "" = false.
Proof. unfold sheetId. now destruct (fileName sheet). Qed.

Lemma selectedSheetData_alone sheet (rows : list (Row num)) :
  selectedSheetData [with_rows sheet rows] (Some (sheetId sheet))
  = Some (with_rows sheet rows).
Proof.
  unfold selectedSheetData. rewrite sheetId_nonempty. simpl.
  change (sheetId (with_rows sheet rows)) with (sheetId sheet).
  now rewrite String.eqb_refl.
Qed.

Lemma selectedSheetData_In excelData selectedSheet sheet :
  selectedSheetData excelData selectedSheet = Some sheet ->
  In sheet excelData /\ selectedSheet = Some (sheetId sheet).
Proof.
  unfold selectedSheetData. destruct selectedSheet as [id|]; [|discriminate].
  destruct (String.eqb id ""); [discriminate|]. intros H.
  apply find_some in H. destruct H as [Hin Hid].
  apply String.eqb_eq in Hid. now subst.
Qed.

(** X12.  The pickers of the monthly report read the headers and the first
    five rows of the worksheet and nothing else: replacing the rows by
    others with the same first five leaves the offered columns as they were.
    The first row is among those read, so a column whose first cell is a
    number is offered as value column and one whose first cell is a
    timestamp as date column; a worksheet that passes the eligibility test
    therefore always has a value column to offer. *)
Theorem monthly_columns_read_five_rows excelData selectedSheet sheet :
  selectedSheetData excelData selectedSheet = Some sheet ->
  let columns := monthly_columns excelData selectedSheet in
  (forall rows : list (Row num),
     firstn 5 rows = firstn 5 (data sheet) ->
     monthly_columns [with_rows sheet rows] (Some (sheetId sheet))
     = columns)
  /\ (forall h row0 rest,
        data sheet = row0 :: rest -> In h (headers sheet) ->
        (is_number (cell row0 h) = true -> In h (m_valueColumns columns))
        /\ (is_Date (cell row0 h) = true -> In h (m_dateColumns columns)))
  /\ (monthly_eligible sheet = true ->
      (0 < List.length (m_valueColumns columns))%nat).
Proof.
  intros Hsheet columns. unfold columns, monthly_columns.
  rewrite Hsheet.
  assert (Hfirst : forall h row0 rest,
             data sheet = row0 :: rest -> In h (headers sheet) ->
             (is_number (cell row0 h) = true ->
              In h (filter (fun h => existsb is_number (sample sheet h))
                           (headers sheet)))
             /\ (is_Date (cell row0 h) = true ->
                 In h (filter (fun h => existsb date_like (sample sheet h))
                              (headers sheet)))).
  { intros h row0 rest Hdata Hh. split; intros Hcell; apply filter_In;
      (split; [exact Hh|]); unfold sample; rewrite Hdata; simpl.
    - now rewrite Hcell.
    - destruct (cell row0 h); try discriminate. reflexivity. }
  split; [|split].
  - intros rows Hrows. rewrite selectedSheetData_alone.
    unfold sample. cbn [data headers with_rows]. now rewrite Hrows.
  - cbn [m_valueColumns m_dateColumns]. exact Hfirst.
  - intros Hel. apply monthly_eligible_iff in Hel.
    destruct Hel as [_ (row0 & rest & h & Hdata & Hh & Hnum)].
    cbn [m_valueColumns].
    destruct (Hfirst h row0 rest Hdata Hh) as [Hv _].
    specialize (Hv Hnum).
    destruct (filter _ (headers sheet)); [destruct Hv|simpl; lia].
Qed.

Lemma project_classify_fold sheet (hs : list string)
    (acc : ProjectColumns) :
  let hasString h := existsb nonempty_string (sample sheet h) in
  let hasDate h := existsb date_like (sample sheet h) in
  let hasNumber h := existsb is_number (sample sheet h) in
  fold_left (project_classify Date_parse sheet) hs acc
  = {| stringColumns :=
         (stringColumns acc
          ++ filter (fun h => hasString h && negb (hasDate h)) hs)%list;
       pr_dateColumns := (pr_dateColumns acc ++ filter hasDate hs)%list;
       pr_valueColumns :=
         (pr_valueColumns acc ++ filter hasNumber hs)%list |}.
Proof.
  intros hasString hasDate hasNumber. revert acc.
  induction hs as [|h hs IH]; intros acc.
  - simpl. rewrite !app_nil_r. now destruct acc.
  - cbn [fold_left]. rewrite IH. unfold project_classify.
    cbn [stringColumns pr_dateColumns pr_valueColumns filter].
    rewrite !push_if_app, <- !app_assoc.
    fold (hasString h) (hasDate h) (hasNumber h).
    destruct (hasString h), (hasDate h), (hasNumber h); reflexivity.
Qed.

(** X13.  The pickers of the project report.  A header is offered as project
    column when one of the first five cells of the column is a non-empty
    string and none of them is a timestamp or a string that parses as a
    date; as date column when one of them is; as value column when one of
    them is a number.  No header is offered both as project column and as
    date column, and the pickers keep the order of the headers. *)
Theorem project_columns_partition excelData selectedSheet sheet :
  selectedSheetData excelData selectedSheet = Some sheet ->
  let columns := project_columns excelData selectedSheet in
  let hasString h := existsb nonempty_string (sample sheet h) in
  let hasDate h := existsb date_like (sample sheet h) in
  let hasNumber h := existsb is_number (sample sheet h) in
  stringColumns columns
  = filter (fun h => hasString h && negb (hasDate h)) (headers sheet)
  /\ pr_dateColumns columns = filter hasDate (headers sheet)
  /\ pr_valueColumns columns = filter hasNumber (headers sheet)
  /\ forall h,
       In h (stringColumns columns) -> In h (pr_dateColumns columns) ->
       False.
Proof.
  intros Hsheet columns hasString hasDate hasNumber.
  unfold columns, project_columns. rewrite Hsheet.
  rewrite project_classify_fold.
  cbn [stringColumns pr_dateColumns pr_valueColumns no_project_columns app].
  repeat split. intros h Hs Hd.
  apply filter_In in Hs. apply filter_In in Hd.
  destruct Hs as [_ Hs]. destruct Hd as [_ Hd]. cbv beta in Hs.
  apply andb_true_iff in Hs. destruct Hs as [_ Hs].
  rewrite Hd in Hs. discriminate.
Qed.

(** X14.  Choosing a worksheet in the monthly report.  The handler reads the
    column lists of the render that created it, which are those of the
    worksheet selected until now.  So the first choice selects no column and
    the report stays empty; a later choice selects columns that are headers
    of the worksheet selected before; and only choosing the same worksheet a
    second time selects its own first date and value columns. *)
Theorem monthly_handleSheetChange_previous_columns excelData
    (st : MonthlySelection) (id : string) :
  let st' := monthly_handleSheetChange excelData st id in
  m_selectedSheet st' = Some id
  /\ (m_selectedSheet st = None ->
      m_dateColumn st' = None /\ m_valueColumn st' = None
      /\ monthlyData num_add num_truthy Date_parse excelData
           (m_selectedSheet st') (m_dateColumn st') (m_valueColumn st')
         = [])
  /\ (forall c,
        m_dateColumn st' = Some c \/ m_valueColumn st' = Some c ->
        exists previous,
          selectedSheetData excelData (m_selectedSheet st) = Some previous
          /\ In c (headers previous))
  /\ (forall sheet,
        selectedSheetData excelData (Some id) = Some sheet ->
        let again := monthly_handleSheetChange excelData st' id in
        m_selectedSheet again = Some id
        /\ m_dateColumn again
           = hd_error (filter (fun h => existsb date_like (sample sheet h))
                              (headers sheet))
        /\ m_valueColumn again
           = hd_error (filter (fun h => existsb is_number (sample sheet h))
                              (headers sheet))).
Proof.
  intros st'.
  assert (Hsel : m_selectedSheet st' = Some id).
  { unfold st', monthly_handleSheetChange.
    now destruct (find _ excelData). }
  split; [exact Hsel|]. split; [|split].
  - intros Hnone.
    assert (Hd : m_dateColumn st' = None /\ m_valueColumn st' = None).
    { unfold st', monthly_handleSheetChange.
      destruct (find _ excelData); [|now split].
      rewrite Hnone. now split. }
    destruct Hd as [Hd Hv]. rewrite Hd, Hv. repeat split.
    apply monthlyData_unselected. reflexivity.
  - intros c Hc. unfold st', monthly_handleSheetChange in Hc.
    destruct (find _ excelData); [|destruct Hc; discriminate].
    cbn [m_dateColumn m_valueColumn] in Hc.
    unfold monthly_columns in Hc.
    destruct (selectedSheetData excelData (m_selectedSheet st))
      as [previous|]; [|destruct Hc; discriminate].
    exists previous. split; [reflexivity|].
    cbn [m_dateColumns m_valueColumns] in Hc.
    destruct Hc as [Hc|Hc];
      match type of Hc with
      | hd_error ?l = _ =>
          assert (Hin : In c l)
            by (destruct l; [discriminate|injection Hc as ->; now left])
      end;
      apply filter_In in Hin; tauto.
  - intros sheet Hsheet again.
    assert (Hfind : find (fun s => String.eqb (sheetId s) id) excelData
                    = Some sheet).
    { unfold selectedSheetData in Hsheet.
      now destruct (String.eqb id ""). }
    unfold again, monthly_handleSheetChange.
    rewrite Hfind, Hsel. unfold monthly_columns. rewrite Hsheet.
    repeat split.
Qed.

End PickerFacts.

(** X12.  The pickers of the monthly report on the week of the example: the
    sixth row, the first with a number under Note, changes nothing. *)
Lemma monthly_columns_read_five_rows_witness :
  selectedSheetData [Examples.week] Examples.week_id = Some Examples.week
  /\ monthly_columns iso_parse
       [with_rows Examples.week
          (data Examples.week ++ [Examples.noted_sale])]
       (Some (sheetId Examples.week))
     = monthly_columns iso_parse [Examples.week] Examples.week_id.
Proof.
  split; [reflexivity|].
  exact (proj1 (monthly_columns_read_five_rows iso_parse
                  [Examples.week] Examples.week_id Examples.week
                  eq_refl)
               (data Examples.week ++ [Examples.noted_sale])%list
               eq_refl).
Defined.

(** X13.  The pickers of the project report on the bookings of the example:
    the dates are not offered as project column. *)
Lemma project_columns_partition_witness :
  selectedSheetData [Examples.projects] Examples.projects_id
  = Some Examples.projects
  /\ stringColumns (project_columns iso_parse [Examples.projects]
                                    Examples.projects_id)
     = ["Project"].
Proof.
  split; [reflexivity|].
  exact (proj1 (project_columns_partition iso_parse
                  [Examples.projects] Examples.projects_id
                  Examples.projects eq_refl)).
Defined.
(* ================================================================== *)
(** ** The reports: totals, keys, skipped rows *)
(* ================================================================== *)

Section SortMapFacts.
Context {A B : Type}.
Variables (gtA : A -> A -> bool) (gtB : B -> B -> bool) (f : A -> B).
Hypothesis gt_f : forall a b, gtB (f a) (f b) = gtA a b.

Lemma sort_insert_map (x : A) (l : list A) :
  sort_insert gtB (f x) (map f l) = map f (sort_insert gtA x l).
Proof.
  induction l as [|y l IH]; [reflexivity|]. simpl. rewrite gt_f.
  destruct (gtA x y); simpl; [now rewrite IH|reflexivity].
Qed.

Lemma sort_map (l : list A) : sort gtB (map f l) = map f (sort gtA l).
Proof.
  induction l as [|x l IH]; [reflexivity|]. simpl.
  now rewrite IH, sort_insert_map.
Qed.

End SortMapFacts.

Section ReportFacts.
Context {num : Type}.
Variable num_add : num -> num -> num.
Variable num_sub : num -> num -> num.
Variable num_gt0 : num -> bool.
Variable num_truthy : num -> bool.
Variable num_toString : num -> string.
Variable Date_parse : string -> option Z.
Variable Date_toString : Z -> string.
Implicit Types (sheet : WorksheetData num)
  (excelData : list (WorksheetData num)) (row : Row num)
  (rows : list (Row num)).

Local Abbreviation monthlyData :=
  (monthlyData num_add num_truthy Date_parse).
Local Abbreviation projectData :=
  (projectData num_add num_truthy Date_parse).
Local Abbreviation poData :=
  (poData num_add num_sub num_gt0 num_truthy num_toString Date_parse
          Date_toString).
Local Abbreviation row_date := (row_date num_truthy Date_parse).
Local Abbreviation monthly_contribution :=
  (monthly_contribution num_truthy Date_parse).
Local Abbreviation po_contribution :=
  (po_contribution num_truthy num_toString Date_parse Date_toString).
Local Abbreviation project_point :=
  (project_point num_truthy Date_parse).

Lemma key_total_month_bucket (src : option string)
    (entries : list (string * num)) :
  map (fun b => (monthKey b, total b)) (map (month_bucket src) entries)
  = entries.
Proof.
  induction entries as [|[k v] l IH]; [reflexivity|].
  simpl. now rewrite IH.
Qed.

(** X15.  The totals of the monthly report, whatever the years of the dates.
    The report holds one bucket per month key that some row with a readable
    date and a numeric value has, and no other; the total of a bucket is the
    sum, in row order, of the values of the rows with that key; no two
    buckets have the same key; and every bucket names the file of the
    worksheet as its source. *)
Theorem monthlyData_totals excelData selectedSheet sheet
    (dc vc : string) :
  selectedSheetData excelData selectedSheet = Some sheet ->
  dc <> "" -> vc <> "" ->
  let contributions := collect (monthly_contribution dc vc) (data sheet) in
  let report := monthlyData excelData selectedSheet (Some dc) (Some vc) in
  (forall key sum,
     In (key, sum) (map (fun b => (monthKey b, total b)) report)
     <-> sum_for num_add key contributions = Some sum)
  /\ (forall row d v,
        In row (data sheet) -> row_date row dc = Some d ->
        cell row vc = VNumber v ->
        In (monthKeyOf d) (map monthKey report)
        /\ In v (values_for (monthKeyOf d) contributions))
  /\ NoDup (map monthKey report)
  /\ Forall (fun b => source b = Some (fileName sheet)) report.
Proof.
  intros Hsheet Hdc Hvc contributions report.
  set (entries := aggregate num_add contributions).
  set (src := Some (fileName sheet)).
  assert (Hreport : report = sort by_date (map (month_bucket src) entries)).
  { unfold report.
    now rewrite (monthlyData_selected _ _ _ _ _ _ dc vc Hsheet Hdc Hvc). }
  assert (Hperm : Permutation report (map (month_bucket src) entries)).
  { rewrite Hreport. apply sort_Permutation. }
  assert (Hpairs : Permutation
                     (map (fun b => (monthKey b, total b)) report) entries).
  { rewrite (Permutation_map _ Hperm). now rewrite key_total_month_bucket. }
  assert (Hkeys : Permutation (map monthKey report) (map fst entries)).
  { rewrite <- (Permutation_map fst Hpairs). now rewrite map_map. }
  split; [|split; [|split]].
  - intros key sum. rewrite <- aggregate_get.
    rewrite <- (map_get_In _ key sum (aggregate_NoDup num_add _)).
    split; apply Permutation_in; [exact Hpairs|symmetry; exact Hpairs].
  - intros row d v Hrow Hd Hv.
    assert (Hc : In (monthKeyOf d, v) contributions).
    { apply collect_In. exists row. split; [exact Hrow|].
      unfold monthly_contribution. now rewrite Hd, Hv. }
    split.
    + apply (Permutation_in _ (Permutation_sym Hkeys)).
      apply aggregate_keys. apply in_map_iff.
      now exists (monthKeyOf d, v).
    + now apply values_for_In.
  - apply (Permutation_NoDup (Permutation_sym Hkeys)).
    apply aggregate_NoDup.
  - apply Forall_forall. intros b Hb.
    apply (Permutation_in _ Hperm) in Hb. apply in_map_iff in Hb.
    destruct Hb as [[k v] [<- _]]. reflexivity.
Qed.

(* ---------------------------------------------------------------- *)

Lemma mapi_from_month (now : Z) (l : list (string * num)) (i : nat) :
  map month (mapi_from (po_bucket now) i l) = map fst l.
Proof.
  revert i. induction l as [|[k v] l IH]; intros i; [reflexivity|].
  simpl. now rewrite IH.
Qed.

Lemma mapi_from_monthKey (now : Z) (l : list (string * num)) (i : nat) :
  map monthKey (mapi_from (po_bucket now) i l)
  = map (fun i => Z_toString (Z.of_nat i)) (seq i (List.length l)).
Proof.
  revert i. induction l as [|[k v] l IH]; intros i; [reflexivity|].
  simpl. now rewrite IH.
Qed.

Lemma mapi_from_length {A B : Type} (g : A -> nat -> B) (l : list A)
    (i : nat) :
  List.length (mapi_from g i l) = List.length l.
Proof.
  revert i. induction l as [|x l IH]; intros i; [reflexivity|].
  simpl. now rewrite IH.
Qed.

Lemma mapi_from_date (now : Z) (l : list (string * num)) (i : nat) :
  Forall (fun b => date b = Some now /\ source b = None)
         (mapi_from (po_bucket now) i l).
Proof.
  revert i. induction l as [|[k v] l IH]; intros i; constructor.
  - now split.
  - apply IH.
Qed.

(** The purchase-order report never names an identifier twice, whatever
    the selection. *)
Lemma poData_ids_NoDup (now : Z) excelData
    (selectedSheet poColumn dateColumn valueColumn selectedMonth
     : option string) :
  NoDup (map month
             (poData now excelData selectedSheet poColumn dateColumn
                     valueColumn selectedMonth)).
Proof.
  unfold poData.
  destruct (selectedSheetData excelData selectedSheet) as [sheet|];
    [|constructor].
  destruct poColumn as [pc|]; [|constructor].
  destruct dateColumn as [dc|]; [|constructor].
  destruct valueColumn as [vc|]; [|constructor].
  destruct selectedMonth as [sm|]; [|constructor].
  match goal with |- context [if ?c then _ else _] => destruct c end;
    [|constructor].
  rewrite po_rows_aggregate.
  eapply Permutation_NoDup.
  - symmetry. apply Permutation_map. apply sort_Permutation.
  - unfold mapi. rewrite mapi_from_month. apply aggregate_NoDup.
Qed.

Lemma map_has_keys {V : Type} (m : JsMap V) (k : string) :
  map_has m k = existsb (String.eqb k) (map fst m).
Proof.
  unfold map_has. induction m as [|[k' v'] m IH]; [reflexivity|]. simpl.
  rewrite (String.eqb_sym k k').
  destruct (String.eqb k' k); [reflexivity|exact IH].
Qed.

Lemma accumulate_keys_order (m : JsMap num) (k : string) (v : num) :
  map fst (accumulate num_add m k v) = set_add (map fst m) k.
Proof.
  unfold accumulate, set_add. rewrite <- map_has_keys.
  destruct (map_get m k) as [old|] eqn:E; rewrite map_set_keys;
    unfold map_has; rewrite E; reflexivity.
Qed.

(** The keys of the map are the keys of the contributions, in the order
    in which they are first met. *)
Lemma aggregate_into_keys_order (l : list (string * num)) (m : JsMap num) :
  map fst (aggregate_into num_add m l)
  = fold_left set_add (map fst l) (map fst m).
Proof.
  revert m. induction l as [|[k v] l IH]; intros m; [reflexivity|].
  unfold aggregate_into in *. simpl. rewrite IH.
  now rewrite accumulate_keys_order.
Qed.

Lemma aggregate_keys_order (l : list (string * num)) :
  map fst (aggregate num_add l) = set_of (map fst l).
Proof. apply (aggregate_into_keys_order l []). Qed.

Lemma mapi_from_In {A B : Type} (g : A -> nat -> B) (l : list A) (k : nat)
    (b : B) :
  In b (mapi_from g k l)
  <-> exists i x, nth_error l i = Some x /\ b = g x (k + i)%nat.
Proof.
  revert k. induction l as [|y l IH]; intros k; simpl.
  - split; [intros []|]. intros [[|i] [x [H _]]]; discriminate.
  - rewrite IH. split.
    + intros [<-|[i [x [Hx ->]]]].
      * exists 0%nat, y. split; [reflexivity|]. f_equal. lia.
      * exists (S i), x. split; [exact Hx|]. f_equal. lia.
    + intros [[|i] [x [Hx ->]]].
      * left. injection Hx as ->. f_equal. lia.
      * right. exists i, x. split; [exact Hx|]. f_equal. lia.
Qed.

Lemma nth_error_entry {V : Type} (m : JsMap V) (i : nat) (k : string)
    (v : V) :
  NoDup (map fst m) ->
  nth_error m i = Some (k, v)
  <-> nth_error (map fst m) i = Some k /\ map_get m k = Some v.
Proof.
  intros Hnd. split.
  - intros H. split.
    + rewrite nth_error_map, H. reflexivity.
    + apply (map_get_In m k v Hnd). eapply nth_error_In, H.
  - intros [Hk Hv]. rewrite nth_error_map in Hk.
    destruct (nth_error m i) as [[k' v']|] eqn:E; [|discriminate].
    injection Hk as ->. f_equal. f_equal.
    apply nth_error_In in E. apply (map_get_In m k v' Hnd) in E.
    congruence.
Qed.

(** X17.  The buckets of the purchase-order report.  No identifier comes
    twice; the [monthKey] fields are the positions 0, 1, ... each once;
    every bucket carries the moment of the computation as its date and no
    source.  On a complete selection the buckets are exactly these: for
    every identifier among the contributions, the bucket whose [monthKey]
    is the position at which that identifier was first met, counting the
    distinct identifiers from 0, and whose total is the sum of its
    contributions. *)
Theorem poData_buckets (now : Z) excelData
    (selectedSheet poColumn dateColumn valueColumn selectedMonth
     : option string) :
  let report :=
    poData now excelData selectedSheet poColumn dateColumn valueColumn
           selectedMonth in
  NoDup (map month report)
  /\ Permutation (map monthKey report)
       (map (fun i => Z_toString (Z.of_nat i))
            (seq 0 (List.length report)))
  /\ Forall (fun b => date b = Some now /\ source b = None) report
  /\ (forall sheet pc dc vc sm,
        selectedSheetData excelData selectedSheet = Some sheet ->
        poColumn = Some pc -> dateColumn = Some dc ->
        valueColumn = Some vc -> selectedMonth = Some sm ->
        pc <> "" -> dc <> "" -> vc <> "" -> sm <> "" ->
        let contributions :=
          collect (po_contribution pc dc vc (po_startDate sm)
                                   (po_endDate sm))
                  (data sheet) in
        forall b,
          In b report
          <-> exists i id sum,
                nth_error (set_of (map fst contributions)) i = Some id
                /\ sum_for num_add id contributions = Some sum
                /\ b = {| monthKey := Z_toString (Z.of_nat i);
                          month := id;
                          total := sum;
                          date := Some now;
                          source := None |}).
Proof.
  intros report. split; [apply poData_ids_NoDup|].
  split; [|split].
  1,2: unfold report, poData;
    destruct (selectedSheetData excelData selectedSheet) as [sheet|];
      [|constructor];
    destruct poColumn as [pc|]; [|constructor];
    destruct dateColumn as [dc|]; [|constructor];
    destruct valueColumn as [vc|]; [|constructor];
    destruct selectedMonth as [sm|]; [|constructor];
    match goal with |- context [if ?c then _ else _] => destruct c end;
      [|constructor];
    match goal with
    | |- context [fold_left ?f (data sheet) ?i] =>
        set (entries := fold_left f (data sheet) i)
    end;
    assert (Hperm : Permutation
                      (sort (by_total_desc num_sub num_gt0)
                            (mapi (po_bucket now) (map_entries entries)))
                      (mapi (po_bucket now) (map_entries entries)))
      by apply sort_Permutation.
  - rewrite (Permutation_map monthKey Hperm).
    rewrite (Permutation_length Hperm). unfold mapi.
    rewrite mapi_from_monthKey, mapi_from_length. reflexivity.
  - apply Forall_forall. intros b Hb.
    apply (Permutation_in _ Hperm) in Hb. revert b Hb.
    apply Forall_forall, mapi_from_date.
  - intros sheet pc dc vc sm Hsheet -> -> -> -> Hpc Hdc Hvc Hsm
      contributions b.
    unfold report.
    rewrite (poData_selected _ _ _ _ _ _ _ now _ _ _ pc dc vc sm
               Hsheet Hpc Hdc Hvc Hsm).
    fold contributions. rewrite sort_In. unfold mapi.
    rewrite mapi_from_In. rewrite <- aggregate_keys_order.
    pose proof (aggregate_NoDup num_add contributions) as Hnd.
    split.
    + intros [i [[id sum] [Hi ->]]].
      apply (nth_error_entry _ _ _ _ Hnd) in Hi. destruct Hi as [Hk Hv].
      rewrite aggregate_get in Hv.
      exists i, id, sum. repeat split; assumption.
    + intros [i [id [sum [Hk [Hv ->]]]]].
      exists i, (id, sum). split; [|reflexivity].
      apply (nth_error_entry _ _ _ _ Hnd). split; [exact Hk|].
      now rewrite aggregate_get.
Qed.

(* ---------------------------------------------------------------- *)

Lemma collect_app {A B : Type} (f : A -> option B) (l1 l2 : list A) :
  collect f (l1 ++ l2) = (collect f l1 ++ collect f l2)%list.
Proof. unfold collect. apply flat_map_app. Qed.

Lemma collect_skip {A B : Type} (f : A -> option B) (l1 l2 : list A)
    (a : A) :
  f a = None -> collect f (l1 ++ a :: l2) = collect f (l1 ++ l2).
Proof.
  intros H. rewrite !collect_app. f_equal. unfold collect. simpl.
  now rewrite H.
Qed.

(** Replacing the rows of one worksheet of the page: the selection finds
    the worksheet with the new rows where it found the one with the old
    rows, and the same worksheet as before otherwise. *)
Lemma selectedSheetData_with_rows (earlier later : list (WorksheetData num))
    sheet rows rows' (selectedSheet : option string) :
  (selectedSheetData (earlier ++ with_rows sheet rows :: later)
                     selectedSheet = Some (with_rows sheet rows)
   /\ selectedSheetData (earlier ++ with_rows sheet rows' :: later)
                        selectedSheet = Some (with_rows sheet rows'))
  \/ selectedSheetData (earlier ++ with_rows sheet rows :: later)
                       selectedSheet
     = selectedSheetData (earlier ++ with_rows sheet rows' :: later)
                         selectedSheet.
Proof.
  unfold selectedSheetData. destruct selectedSheet as [id|]; [|now right].
  destruct (String.eqb id ""); [now right|].
  induction earlier as [|s earlier IH]; simpl.
  - change (sheetId (with_rows sheet rows)) with (sheetId sheet).
    change (sheetId (with_rows sheet rows')) with (sheetId sheet).
    destruct (String.eqb (sheetId sheet) id); [left; now split|now right].
  - destruct (String.eqb (sheetId s) id); [now right|exact IH].
Qed.

(** X18.  In any page and for any selection, a row of a worksheet that has
    no readable date in the date column, or whose cell in the value column
    is not a number, has no effect on any of the three reports: they are
    what they are without the row. *)
Theorem reports_skip_unreadable_rows
    (earlier later : list (WorksheetData num)) sheet rows1 row rows2
    (dc vc : string) :
  row_date row dc = None \/ is_number (cell row vc) = false ->
  let page :=
    (earlier ++ with_rows sheet (rows1 ++ row :: rows2) :: later)%list in
  let page' :=
    (earlier ++ with_rows sheet (rows1 ++ rows2) :: later)%list in
  (forall selectedSheet,
     monthlyData page selectedSheet (Some dc) (Some vc)
     = monthlyData page' selectedSheet (Some dc) (Some vc))
  /\ (forall selectedSheet projectColumn selectedProject selectedMonth,
        projectData page selectedSheet projectColumn (Some dc) (Some vc)
                    selectedProject selectedMonth
        = projectData page' selectedSheet projectColumn (Some dc) (Some vc)
                      selectedProject selectedMonth)
  /\ (forall now selectedSheet poColumn selectedMonth,
        poData now page selectedSheet poColumn (Some dc) (Some vc)
               selectedMonth
        = poData now page' selectedSheet poColumn (Some dc) (Some vc)
                 selectedMonth).
Proof.
  intros Hrow page page'. subst page page'.
  assert (Hm : monthly_contribution dc vc row = None).
  { unfold monthly_contribution.
    destruct Hrow as [-> | Hv]; [reflexivity|].
    destruct (row_date row dc); [|reflexivity].
    now destruct (cell row vc). }
  assert (Hp : forall pc proj sm, project_point pc dc vc proj sm row = None).
  { intros pc proj sm. unfold project_point.
    destruct (cell row pc); try reflexivity.
    destruct Hrow as [-> | Hv]; [reflexivity|].
    destruct (row_date row dc); [|reflexivity].
    now destruct (cell row vc). }
  assert (Ho : forall pc s e, po_contribution pc dc vc s e row = None).
  { intros pc s e. unfold po_contribution.
    destruct Hrow as [-> | Hv]; [reflexivity|].
    destruct (row_date row dc); [|reflexivity].
    destruct (before z s || after z e); [reflexivity|].
    destruct (truthy num_truthy (cell row pc)); [|reflexivity].
    now destruct (cell row vc). }
  split; [|split].
  - intros selectedSheet. unfold monthlyData.
    destruct (selectedSheetData_with_rows earlier later sheet
                (rows1 ++ row :: rows2) (rows1 ++ rows2) selectedSheet)
      as [[H1 H2]|H].
    + rewrite H1, H2. cbn [data with_rows fileName].
      rewrite !monthly_rows_aggregate.
      now rewrite (collect_skip _ _ _ _ Hm).
    + now rewrite H.
  - intros selectedSheet projectColumn selectedProject selectedMonth.
    unfold projectData.
    destruct (selectedSheetData_with_rows earlier later sheet
                (rows1 ++ row :: rows2) (rows1 ++ rows2) selectedSheet)
      as [[H1 H2]|H].
    + rewrite H1, H2. cbn [data with_rows].
      destruct projectColumn as [pc|]; [|reflexivity].
      destruct selectedProject as [proj|]; [|reflexivity].
      rewrite !project_rows_collect.
      now rewrite (collect_skip _ _ _ _ (Hp pc proj selectedMonth)).
    + now rewrite H.
  - intros now selectedSheet poColumn selectedMonth.
    unfold poData.
    destruct (selectedSheetData_with_rows earlier later sheet
                (rows1 ++ row :: rows2) (rows1 ++ rows2) selectedSheet)
      as [[H1 H2]|H].
    + rewrite H1, H2. cbn [data with_rows].
      destruct poColumn as [pc|]; [|reflexivity].
      destruct selectedMonth as [sm|]; [|reflexivity].
      rewrite !po_rows_aggregate.
      now rewrite (collect_skip _ _ _ _ (Ho pc _ _)).
    + now rewrite H.
Qed.

(* ---------------------------------------------------------------- *)

Lemma points_aggregate (points : list (DataPoint num))
    (m : JsMap num) :
  fold_left (fun m point =>
               accumulate num_add m (p_monthKey point) (p_value point))
            points m
  = aggregate_into num_add m
      (map (fun p => (p_monthKey p, p_value p)) points).
Proof.
  revert m. induction points as [|p points IH]; intros m; [reflexivity|].
  simpl. now rewrite IH.
Qed.

Lemma project_points_of_rows (pc dc vc proj : string) rows :
  map (fun p => (p_monthKey p, p_value p))
      (collect (project_point pc dc vc proj None) rows)
  = collect (monthly_contribution dc vc) (rows_of pc proj rows).
Proof.
  induction rows as [|row rows IH]; [reflexivity|].
  change (row :: rows) with ([row] ++ rows)%list at 1.
  rewrite collect_app, map_app, IH. clear IH.
  unfold rows_of. cbn [filter].
  unfold collect at 1. cbn [flat_map]. rewrite app_nil_r.
  unfold project_point.
  destruct (cell row pc) as [s| | | | |]; try reflexivity.
  destruct (String.eqb s proj); cbn [andb].
  - change (?x :: ?l) with ([x] ++ l)%list at 2.
    rewrite collect_app. f_equal.
    unfold collect. cbn [flat_map]. rewrite app_nil_r.
    unfold monthly_contribution.
    destruct (row_date row dc); [|reflexivity].
    destruct (cell row vc); reflexivity.
  - destruct (row_date row dc); [|reflexivity].
    destruct (cell row vc); reflexivity.
Qed.

(** X19.  The project report without a month is the monthly report of the
    rows of the project: the buckets of the rows whose project cell is the
    selected name, as the monthly report computes them from the same date
    and value columns, in the same order, without the name of the source
    file. *)
Theorem projectData_summary excelData selectedSheet sheet
    (pc dc vc proj : string) :
  selectedSheetData excelData selectedSheet = Some sheet ->
  pc <> "" -> dc <> "" -> vc <> "" -> proj <> "" ->
  projectData excelData selectedSheet (Some pc) (Some dc) (Some vc)
              (Some proj) None
  = map unsourced
        (monthlyData [with_rows sheet (rows_of pc proj (data sheet))]
                     (Some (sheetId sheet)) (Some dc) (Some vc)).
Proof.
  intros Hsheet Hpc Hdc Hvc Hproj.
  rewrite (monthlyData_selected num_add num_truthy Date_parse
             [with_rows sheet (rows_of pc proj (data sheet))]
             (Some (sheetId sheet))
             (with_rows sheet (rows_of pc proj (data sheet))) dc vc
             (selectedSheetData_alone _ _) Hdc Hvc).
  cbn [data with_rows fileName].
  unfold projectData. rewrite Hsheet.
  rewrite (selectedSheetData_selected _ _ _ Hsheet).
  rewrite !selected_Some by assumption. cbn [andb selected negb].
  rewrite project_rows_collect, points_aggregate. cbn [app].
  rewrite project_points_of_rows.
  rewrite <- (sort_map by_date by_date unsourced) by reflexivity.
  f_equal. rewrite map_map. apply map_ext. now intros [k v].
Qed.

End ReportFacts.

(** X15.  The totals of the monthly report on the sales of the example. *)
Lemma monthlyData_totals_witness :
  selectedSheetData [Examples.sales] Examples.sales_id
  = Some Examples.sales
  /\ NoDup (map monthKey
                (IntNum.monthlyData [Examples.sales] Examples.sales_id
                   (Some "Date") (Some "Amount"))).
Proof.
  split; [reflexivity|].
  exact (proj1 (proj2 (proj2
           (monthlyData_totals IntNum.add IntNum.is_truthy iso_parse
              [Examples.sales] Examples.sales_id Examples.sales
              "Date" "Amount" eq_refl
              ltac:(discriminate) ltac:(discriminate))))).
Defined.

(** X18.  A sale without a readable date among the sales of the example. *)
Lemma reports_skip_unreadable_rows_witness :
  row_date IntNum.is_truthy iso_parse Examples.undated_sale "Date" = None
  /\ IntNum.monthlyData
       [with_rows Examples.sales
          ([Examples.sale "2024-01-15" 100] ++ Examples.undated_sale
           :: [Examples.sale "2024-01-20" 50;
               Examples.sale "2024-02-01" 30])]
       Examples.sales_id (Some "Date") (Some "Amount")
     = IntNum.monthlyData
         [with_rows Examples.sales
            ([Examples.sale "2024-01-15" 100]
             ++ [Examples.sale "2024-01-20" 50;
                 Examples.sale "2024-02-01" 30])]
         Examples.sales_id (Some "Date") (Some "Amount").
Proof.
  split; [reflexivity|].
  exact (proj1 (reports_skip_unreadable_rows
                  IntNum.add IntNum.sub IntNum.gt0 IntNum.is_truthy
                  Z_toString iso_parse DateText.Date_toString
                  [] [] Examples.sales
                  [Examples.sale "2024-01-15" 100] Examples.undated_sale
                  [Examples.sale "2024-01-20" 50;
                   Examples.sale "2024-02-01" 30]
                  "Date" "Amount" (or_introl eq_refl))
               Examples.sales_id).
Defined.

(** X19.  The summary of project Alpha in the bookings of the example. *)
Lemma projectData_summary_witness :
  selectedSheetData [Examples.projects] Examples.projects_id
  = Some Examples.projects
  /\ IntNum.projectData [Examples.projects] Examples.projects_id
       (Some "Project") (Some "Date") (Some "Amount") (Some "Alpha") None
     = map unsourced
           (IntNum.monthlyData
              [with_rows Examples.projects
                 (rows_of "Project" "Alpha" (data Examples.projects))]
              (Some (sheetId Examples.projects))
              (Some "Date") (Some "Amount")).
Proof.
  split; [reflexivity|].
  exact (projectData_summary IntNum.add IntNum.is_truthy iso_parse
           [Examples.projects] Examples.projects_id Examples.projects
           "Project" "Date" "Amount" "Alpha" eq_refl
           ltac:(discriminate) ltac:(discriminate) ltac:(discriminate)
           ltac:(discriminate)).
Defined.

(** X17.  The bucket of PO-1 in the orders in which it comes twice.  Its
    identifier is the second to be met, so its key is 1, though its total
    of 300 puts it first in the report. *)
Lemma poData_buckets_witness :
  In {| monthKey := "1"; month := "PO-1"; total := 300; date := Some 0;
        source := None |}
     (IntNum.poData 0 [Examples.split_orders] Examples.orders_id
        (Some "PO Number") (Some "Date") (Some "Amount") (Some "2024-01"))
  /\ map monthKey
       (IntNum.poData 0 [Examples.split_orders] Examples.orders_id
          (Some "PO Number") (Some "Date") (Some "Amount") (Some "2024-01"))
     = ["1"; "0"].
Proof.
  split; [|reflexivity].
  apply (proj2 (proj2 (proj2 (poData_buckets
                  IntNum.add IntNum.sub IntNum.gt0 IntNum.is_truthy
                  Z_toString iso_parse DateText.Date_toString
                  0 [Examples.split_orders] Examples.orders_id
                  (Some "PO Number") (Some "Date") (Some "Amount")
                  (Some "2024-01"))))
           Examples.split_orders "PO Number" "Date" "Amount" "2024-01"
           eq_refl eq_refl eq_refl eq_refl eq_refl
           ltac:(discriminate) ltac:(discriminate) ltac:(discriminate)
           ltac:(discriminate)).
  exists 1%nat, "PO-1", 300. repeat split.
Defined.
(* ================================================================== *)
(** ** Lookups by name and the view of the report table *)
(* ================================================================== *)

Section LookupFacts.
Context {num : Type}.
Implicit Types (sheet : WorksheetData num)
  (excelData : list (WorksheetData num)) (st : PageState num).

Lemma find_unique {A : Type} (key : A -> string) (l : list A) (a : A) :
  NoDup (map key l) -> In a l ->
  find (fun x => String.eqb (key x) (key a)) l = Some a.
Proof.
  induction l as [|x l IH]; intros Hnd Hin; [destruct Hin|].
  simpl in Hnd. apply NoDup_cons_iff in Hnd. destruct Hnd as [Hx Hnd].
  simpl. destruct Hin as [->|Hin]; [now rewrite String.eqb_refl|].
  destruct (String.eqb (key x) (key a)) eqn:E; [|now apply IH].
  apply String.eqb_eq in E. exfalso. apply Hx. rewrite E.
  now apply in_map.
Qed.

(** X20.  The reports find a worksheet by the text "file name - sheet name".
    When no two loaded worksheets share that text, every entry of a selector
    leads to its own worksheet: selecting the entry of a worksheet that
    passed the eligibility test of a report yields that worksheet. *)
Theorem selectedSheetData_of_option excelData sheet :
  NoDup (map sheetId excelData) ->
  In sheet (monthly_eligibleSheets excelData)
  \/ In sheet (project_eligibleSheets excelData)
  \/ In sheet (po_eligibleSheets excelData) ->
  selectedSheetData excelData (Some (sheetId sheet)) = Some sheet.
Proof.
  intros Hnd Hin.
  assert (H : In sheet excelData).
  { destruct Hin as [H|[H|H]]; apply filter_In in H; tauto. }
  unfold selectedSheetData. rewrite sheetId_nonempty.
  now apply (find_unique sheetId).
Qed.

(** X21.  The page finds the active worksheet by its sheet name.  When no
    two loaded worksheets have the same sheet name, choosing an entry of the
    worksheet selector shows the worksheet of that entry. *)
Theorem chooseWorksheet_shows_choice st (i : nat) sheet :
  NoDup (map name (excelData st)) ->
  nth_error (excelData st) i = Some sheet ->
  getActiveWorksheet (chooseWorksheet i st) = Some sheet.
Proof.
  intros Hnd Hnth. unfold chooseWorksheet. rewrite Hnth.
  unfold getActiveWorksheet. cbn [activeFile excelData].
  apply (find_unique name); [exact Hnd|]. eapply nth_error_In, Hnth.
Qed.

End LookupFacts.

Section TableFacts.
Context {num : Type}.
Variable num_add : num -> num -> num.
Variable num_sub : num -> num -> num.
Variable num_gt0 : num -> bool.
Variable num_truthy : num -> bool.
Variable num_toString : num -> string.
Variable Date_parse : string -> option Z.
Variable Date_toString : Z -> string.
Implicit Types (data : list (MonthlyDataPoint num)).

Lemma filter_unique_key {A : Type} (key : A -> string) (l : list A)
    (k : string) :
  NoDup (map key l) ->
  (List.length (filter (fun x => String.eqb (key x) k) l) <= 1)%nat.
Proof.
  induction l as [|x l IH]; intros Hnd; [simpl; lia|].
  simpl in Hnd. apply NoDup_cons_iff in Hnd. destruct Hnd as [Hx Hnd].
  simpl. destruct (String.eqb (key x) k) eqn:E; [|now apply IH].
  apply String.eqb_eq in E. subst k.
  assert (Hnone : filter (fun y => String.eqb (key y) (key x)) l = []).
  { destruct (filter _ l) as [|y ys] eqn:F; [reflexivity|].
    assert (Hy : In y (filter (fun y => String.eqb (key y) (key x)) l))
      by (rewrite F; now left).
    apply filter_In in Hy. destruct Hy as [Hy Hk].
    apply String.eqb_eq in Hk. exfalso. apply Hx. rewrite <- Hk.
    now apply in_map. }
  rewrite Hnone. simpl. lia.
Qed.

Lemma isDetailView_NoDup data :
  NoDup (map month data) -> isDetailView data = false.
Proof.
  intros Hnd. unfold isDetailView. apply andb_false_iff. right.
  apply not_true_is_false. intros H. apply existsb_exists in H.
  destruct H as [item [_ H]]. apply Nat.ltb_lt in H.
  pose proof (filter_unique_key month data (month item) Hnd). lia.
Qed.

Lemma existsb_constant {A : Type} (g : A -> bool) (c : bool) (l : list A) :
  (forall x, In x l -> g x = c) -> l <> [] -> existsb g l = c.
Proof.
  induction l as [|x l IH]; intros Hg Hne; [contradiction|].
  simpl. rewrite (Hg x) by now left.
  destruct c; [reflexivity|]. destruct l as [|y l]; [reflexivity|].
  apply IH; [|discriminate]. intros z Hz. apply Hg. now right.
Qed.

Lemma isDetailView_one_label data (label : string) :
  Forall (fun b => month b = label) data ->
  isDetailView data = (1 <? List.length data)%nat.
Proof.
  intros Hall. unfold isDetailView.
  destruct data as [|b data]; [reflexivity|].
  change (0 <? List.length (b :: data))%nat with true. cbn [andb].
  apply existsb_constant; [|discriminate].
  intros item Hitem. f_equal. f_equal.
  apply forallb_filter_id. apply forallb_forall.
  intros d Hd. rewrite Forall_forall in Hall.
  rewrite (Hall d Hd), (Hall item Hitem). apply String.eqb_refl.
Qed.

(** X22.  The report table decides from the labels whether it shows single
    entries (two buckets with the same label) or month summaries.  On a
    purchase-order report it never takes the buckets for single entries,
    since no identifier comes twice. *)
Theorem poData_not_detail_view (now : Z)
    (excelData : list (WorksheetData num))
    (selectedSheet poColumn dateColumn valueColumn selectedMonth
     : option string) :
  isDetailView
    (poData num_add num_sub num_gt0 num_truthy num_toString Date_parse
            Date_toString now excelData selectedSheet poColumn dateColumn
            valueColumn selectedMonth)
  = false.
Proof. apply isDetailView_NoDup, poData_ids_NoDup. Qed.

(** X23.  On a project report with a month selected every bucket is a single
    entry and carries the selected month as its label, so the table takes
    the buckets for single entries exactly when there are at least two of
    them: a lone entry is shown as a month summary. *)
Theorem projectData_detail_view_guess
    (excelData : list (WorksheetData num)) selectedSheet
    (sheet : WorksheetData num) (pc dc vc proj sm : string) :
  selectedSheetData excelData selectedSheet = Some sheet ->
  pc <> "" -> dc <> "" -> vc <> "" -> proj <> "" -> sm <> "" ->
  let report :=
    projectData num_add num_truthy Date_parse excelData selectedSheet
                (Some pc) (Some dc) (Some vc) (Some proj) (Some sm) in
  Forall (fun b => month b = sm) report
  /\ isDetailView report = (1 <? List.length report)%nat.
Proof.
  intros Hsheet Hpc Hdc Hvc Hproj Hsm report.
  assert (Hall : Forall (fun b => month b = sm) report).
  { unfold report, projectData. rewrite Hsheet.
    rewrite (selectedSheetData_selected _ _ _ Hsheet).
    rewrite !selected_Some by assumption. cbn [andb negb].
    rewrite project_rows_collect. cbn [app].
    apply Forall_forall. intros b Hb. apply sort_In in Hb.
    apply in_map_iff in Hb. destruct Hb as [p [<- Hp]].
    apply collect_In in Hp. destruct Hp as [row [_ Hp]].
    apply (project_point_iff num_truthy Date_parse) in Hp; [|exact Hsm].
    destruct Hp as (d & v & _ & _ & _ & _ & ->). reflexivity. }
  split; [exact Hall|]. now apply isDetailView_one_label with (label := sm).
Qed.

End TableFacts.

(** X20.  The sales of the example, alone on the page, selected in the
    monthly report. *)
Lemma selectedSheetData_of_option_witness :
  NoDup (map sheetId [Examples.sales])
  /\ selectedSheetData [Examples.sales] (Some (sheetId Examples.sales))
     = Some Examples.sales.
Proof.
  assert (H : NoDup (map sheetId [Examples.sales]))
    by (repeat constructor; intros []).
  split; [exact H|].
  exact (selectedSheetData_of_option [Examples.sales] Examples.sales H
           (or_introl (or_introl eq_refl))).
Defined.

(** X21.  The first entry of the worksheet selector after january.xlsx is
    loaded. *)
Lemma chooseWorksheet_shows_choice_witness :
  NoDup (map name (excelData Examples.january_loaded))
  /\ getActiveWorksheet (chooseWorksheet 0 Examples.january_loaded)
     = Some Examples.january.
Proof.
  assert (H : NoDup (map name (excelData Examples.january_loaded)))
    by (repeat constructor; intros []).
  split; [exact H|].
  exact (chooseWorksheet_shows_choice Examples.january_loaded 0
           Examples.january H eq_refl).
Defined.

(** X23.  Project Alpha in January 2024 (two entries) in the bookings of the
    example. *)
Lemma projectData_detail_view_guess_witness :
  selectedSheetData [Examples.projects] Examples.projects_id
  = Some Examples.projects
  /\ isDetailView
       (IntNum.projectData [Examples.projects] Examples.projects_id
          (Some "Project") (Some "Date") (Some "Amount") (Some "Alpha")
          (Some "01/2024"))
     = true.
Proof.
  split; [reflexivity|].
  exact (proj2 (projectData_detail_view_guess
                  IntNum.add IntNum.is_truthy iso_parse
                  [Examples.projects] Examples.projects_id
                  Examples.projects
                  "Project" "Date" "Amount" "Alpha" "01/2024" eq_refl
                  ltac:(discriminate) ltac:(discriminate)
                  ltac:(discriminate) ltac:(discriminate)
                  ltac:(discriminate))).
Defined.
(* ================================================================== *)
(** ** Month pickers *)
(* ================================================================== *)

Section MonthLabelFacts.

Lemma free_of_app (c : ascii) (a b : string) :
  free_of c (a ++ b) = free_of c a && free_of c b.
Proof.
  induction a as [|x a IH]; [reflexivity|]. simpl.
  now rewrite IH, andb_assoc.
Qed.

Lemma digits_free (c : ascii) (s : string) :
  is_digit c = false -> digits_only s = true -> free_of c s = true.
Proof.
  intros Hc. induction s as [|x s IH]; [reflexivity|]. simpl.
  intros H. apply andb_true_iff in H. destruct H as [Hx Hs].
  rewrite (IH Hs), andb_true_r. apply negb_true_iff.
  destruct (Ascii.eqb x c) eqn:E; [|reflexivity].
  apply Ascii.eqb_eq in E. congruence.
Qed.

(** A printed integer holds digits and at most a minus sign. *)
Lemma Z_toString_free (c : ascii) (z : Z) :
  is_digit c = false -> Ascii.eqb "-" c = false ->
  free_of c (Z_toString z) = true.
Proof.
  intros Hc Hm. unfold Z_toString.
  assert (H0 : free_of c "0" = true) by now apply digits_free.
  assert (Hu : forall d, free_of c (NilZero.string_of_uint d) = true).
  { intros d. unfold NilZero.string_of_uint.
    destruct d; try (apply digits_free; [exact Hc|apply digits_only_uint]).
    exact H0. }
  destruct z as [|p|p].
  - exact H0.
  - apply Hu.
  - change (free_of c (String "-" (NilZero.string_of_uint (Pos.to_uint p)))
            = true).
    cbn [free_of]. rewrite Hm. apply Hu.
Qed.

Lemma split_month_label (y m : Z) :
  0 <= y -> 1 <= m <= 12 ->
  split "/" (month_label y m) = [pad2 m; Z_toString y].
Proof.
  intros Hy Hm. unfold month_label.
  change (pad2 m ++ "/" ++ Z_toString y)
    with (pad2 m ++ String "/" (Z_toString y)).
  destruct (pad2_month m Hm) as [Hp _].
  destruct (Z_toString_digits y Hy) as [Hd _].
  rewrite split_app, !split_free; [reflexivity| |];
    now apply digits_free.
Qed.

Lemma month_label_inj (y m y' m' : Z) :
  0 <= y -> 1 <= m <= 12 -> 0 <= y' -> 1 <= m' <= 12 ->
  month_label y m = month_label y' m' -> y = y' /\ m = m'.
Proof.
  intros Hy Hm Hy' Hm' Heq.
  apply (f_equal (split "/")) in Heq.
  rewrite !split_month_label in Heq by assumption.
  injection Heq as Hms Hys.
  apply (f_equal (fun s => parseInt (Some s))) in Hys, Hms.
  rewrite !parseInt_Z_toString in Hys by assumption.
  destruct (pad2_month m Hm) as (_ & Hpm & _).
  destruct (pad2_month m' Hm') as (_ & Hpm' & _).
  rewrite Hpm, Hpm' in Hms. split; congruence.
Qed.

(** The date the comparator of the project report's month picker gives
    the label of a month, for years from 100 on. *)
Lemma label_date_month_label (y m : Z) :
  100 <= y <= 275000 -> 1 <= m <= 12 ->
  label_date (month_label y m) = Some (month_start y m).
Proof.
  intros Hy Hm. unfold label_date.
  rewrite split_month_label by lia. unfold nth_elem. simpl nth_error.
  rewrite parseInt_Z_toString by lia.
  destruct (pad2_month m Hm) as (_ & -> & _). simpl option_map.
  rewrite new_Date_month by lia. reflexivity.
Qed.

Lemma by_label_date_asym (a b : string) :
  by_label_date a b = true -> by_label_date b a = false.
Proof.
  unfold by_label_date.
  destruct (label_date a), (label_date b); try discriminate.
  intros H. apply Z.ltb_lt in H. apply Z.ltb_ge. lia.
Qed.

End MonthLabelFacts.

Section MonthPickerFacts.
Context {num : Type}.
Variable num_truthy : num -> bool.
Variable Date_parse : string -> option Z.
Variable localeCompare_gt : string -> string -> bool.
Implicit Types (sheet : WorksheetData num)
  (excelData : list (WorksheetData num)) (row : Row num)
  (rows : list (Row num)).

Local Abbreviation row_date := (row_date num_truthy Date_parse).
Local Abbreviation project_availableMonths :=
  (project_availableMonths num_truthy Date_parse).
Local Abbreviation po_availableMonths :=
  (po_availableMonths num_truthy Date_parse localeCompare_gt).

Lemma month_rows_fold (text : Z -> string) (dc : string) rows
    (months : list string) :
  fold_left (fun months row =>
               match row_date row dc with
               | None => months
               | Some d => set_add months (text d)
               end)
            rows months
  = fold_left set_add
      (collect (fun row => option_map text (row_date row dc)) rows)
      months.
Proof.
  revert months. induction rows as [|row rows IH]; intros months;
    [reflexivity|].
  cbn [fold_left]. rewrite IH. unfold collect. cbn [flat_map].
  rewrite fold_left_app. destruct (row_date row dc); reflexivity.
Qed.

Lemma month_rows_In (text : Z -> string) (dc : string) rows (t : string) :
  In t (fold_left set_add
          (collect (fun row => option_map text (row_date row dc)) rows) [])
  <-> exists row d,
        In row rows /\ row_date row dc = Some d /\ text d = t.
Proof.
  rewrite set_add_fold_In, collect_In. split.
  - intros [[]|[row [Hrow H]]].
    destruct (row_date row dc) as [d|] eqn:E; [|discriminate].
    injection H as <-. now exists row, d.
  - intros [row [d [Hrow [Hd <-]]]]. right. exists row.
    split; [exact Hrow|]. now rewrite Hd.
Qed.

(** X24.  The month picker of the project report offers the labels of the
    months in which some row has a readable date in the date column, each
    once, whatever the project and the value of the row.  When the years of
    these dates are from 100 on, the labels come in chronological order. *)
Theorem project_availableMonths_offers excelData selectedSheet sheet
    (dc : string) :
  selectedSheetData excelData selectedSheet = Some sheet ->
  dc <> "" ->
  let months :=
    project_availableMonths excelData selectedSheet (Some dc) in
  (forall label,
     In label months
     <-> exists row d,
           In row (data sheet) /\ row_date row dc = Some d
           /\ monthYearOf d = label)
  /\ NoDup months
  /\ ((forall row d,
         In row (data sheet) -> row_date row dc = Some d ->
         100 <= getFullYear d <= 275000) ->
      StronglySorted label_before months).
Proof.
  intros Hsheet Hdc months.
  set (labels := fold_left set_add
                   (collect (fun row => option_map monthYearOf
                                          (row_date row dc))
                            (data sheet)) []).
  assert (Hmonths : months = sort by_label_date labels).
  { unfold months, project_availableMonths. rewrite Hsheet.
    rewrite selected_Some by exact Hdc.
    unfold project_month_row. now rewrite (month_rows_fold monthYearOf). }
  assert (Hin : forall label,
             In label months
             <-> exists row d,
                   In row (data sheet) /\ row_date row dc = Some d
                   /\ monthYearOf d = label).
  { intros label. rewrite Hmonths, sort_In. apply month_rows_In. }
  assert (Hnd : NoDup months).
  { rewrite Hmonths.
    apply (Permutation_NoDup (Permutation_sym (sort_Permutation _ _))).
    apply set_add_fold_NoDup. constructor. }
  split; [exact Hin|]. split; [exact Hnd|].
  intros Hyears.
  assert (Hvalid : Forall (fun label =>
               exists y m, 100 <= y <= 275000 /\ 1 <= m <= 12
                           /\ label = month_label y m) months).
  { apply Forall_forall. intros label Hl. apply Hin in Hl.
    destruct Hl as [row [d [Hrow [Hd <-]]]].
    exists (getFullYear d), (getMonth d + 1).
    pose proof (getMonth_range d). pose proof (Hyears row d Hrow Hd).
    repeat split; lia. }
  assert (Hsorted : StronglySorted (fun a b => by_label_date a b = false)
                                   months).
  { apply (Sorted_StronglySorted_Forall
             (fun a b => by_label_date a b = false)
             (fun label => exists y m, 100 <= y <= 275000 /\ 1 <= m <= 12
                                       /\ label = month_label y m)).
    - intros x y z (? & ? & ? & ? & ->) (? & ? & ? & ? & ->)
             (? & ? & ? & ? & ->).
      unfold by_label_date.
      rewrite !label_date_month_label by assumption.
      rewrite !Z.ltb_ge. lia.
    - exact Hvalid.
    - rewrite Hmonths. apply sort_Sorted. apply by_label_date_asym. }
  clear Hmonths Hin. induction months as [|a l IH]; [constructor|].
  inversion Hnd as [|? ? Hnotin Hnd']; subst.
  inversion Hvalid as [|? ? Ha Hvalid']; subst.
  inversion Hsorted as [|? ? Hsorted' Hall]; subst.
  constructor; [now apply IH|].
  rewrite Forall_forall in *. intros b Hb.
  destruct Ha as (ya & ma & Hya & Hma & ->).
  destruct (Hvalid' b Hb) as (yb & mb & Hyb & Hmb & ->).
  specialize (Hall _ Hb). unfold by_label_date in Hall.
  rewrite !label_date_month_label in Hall by assumption.
  apply Z.ltb_ge in Hall.
  exists ya, ma, yb, mb. repeat split; try lia.
  assert (Hne : ~ (ya = yb /\ ma = mb)).
  { intros [-> ->]. now apply Hnotin. }
  destruct (Z.lt_trichotomy ya yb) as [Hlt|[Heq|Hgt]].
  - now left.
  - destruct (Z.lt_trichotomy ma mb) as [Hlt|[Heq'|Hgt]].
    + right. now split.
    + exfalso. apply Hne. now split.
    + pose proof (month_start_lt yb mb ya ma Hmb Hma
                    (or_intror (conj (eq_sym Heq) Hgt))). lia.
  - pose proof (month_start_lt yb mb ya ma Hmb Hma (or_introl Hgt)). lia.
Qed.

Lemma month_option_of_date (d : Z) :
  month_option (monthKeyOf d ++ "|" ++ monthYearOf d)
  = {| mo_key := Some (monthKeyOf d); mo_name := Some (monthYearOf d) |}.
Proof.
  unfold month_option.
  change (monthKeyOf d ++ "|" ++ monthYearOf d)
    with (monthKeyOf d ++ String "|" (monthYearOf d)).
  pose proof (getMonth_range d) as Hm.
  destruct (pad2_month (getMonth d + 1)) as [Hp _]; [lia|].
  assert (Hpad : free_of "|" (pad2 (getMonth d + 1)) = true)
    by now apply digits_free.
  assert (Hyear : free_of "|" (Z_toString (getFullYear d)) = true)
    by now apply Z_toString_free.
  rewrite split_app, !split_free; [reflexivity| |].
  - unfold monthYearOf. rewrite !free_of_app, Hpad, Hyear. reflexivity.
  - unfold monthKeyOf. rewrite !free_of_app, Hpad, Hyear. reflexivity.
Qed.

(** X25.  The month picker of the purchase-order report offers, each once,
    the months in which some row has a readable date in the date column: an
    entry holds the key of the month, which becomes the selected month, and
    its label.  Splitting the text the set holds at the bar gives back the
    two, whatever the year. *)
Theorem po_availableMonths_offers excelData selectedSheet sheet
    (dc : string) :
  selectedSheetData excelData selectedSheet = Some sheet ->
  dc <> "" ->
  let options := po_availableMonths excelData selectedSheet (Some dc) in
  (forall entry,
     In entry options
     <-> exists row d,
           In row (data sheet) /\ row_date row dc = Some d
           /\ entry = {| mo_key := Some (monthKeyOf d);
                         mo_name := Some (monthYearOf d) |})
  /\ NoDup options.
Proof.
  intros Hsheet Hdc options.
  set (text := fun d => monthKeyOf d ++ "|" ++ monthYearOf d).
  set (items := fold_left set_add
                  (collect (fun row => option_map text (row_date row dc))
                           (data sheet)) []).
  assert (Hoptions : options
                     = sort (by_key localeCompare_gt)
                            (map month_option items)).
  { unfold options, po_availableMonths. rewrite Hsheet.
    rewrite selected_Some by exact Hdc.
    unfold po_month_row. now rewrite (month_rows_fold text). }
  assert (Hitems : forall item,
             In item items
             <-> exists row d, In row (data sheet)
                               /\ row_date row dc = Some d /\ text d = item).
  { intros item. apply month_rows_In. }
  split.
  - intros entry. rewrite Hoptions, sort_In, in_map_iff. split.
    + intros [item [<- Hitem]]. apply Hitems in Hitem.
      destruct Hitem as [row [d [Hrow [Hd <-]]]].
      exists row, d. repeat split; try assumption.
      apply month_option_of_date.
    + intros [row [d [Hrow [Hd ->]]]]. exists (text d).
      split; [apply month_option_of_date|].
      apply Hitems. now exists row, d.
  - rewrite Hoptions.
    apply (Permutation_NoDup (Permutation_sym (sort_Permutation _ _))).
    apply NoDup_map_NoDup_ForallPairs.
    + intros i1 i2 H1 H2 Heq.
      apply Hitems in H1. apply Hitems in H2.
      destruct H1 as [_ [d1 [_ [_ <-]]]].
      destruct H2 as [_ [d2 [_ [_ <-]]]].
      unfold text in Heq. rewrite !month_option_of_date in Heq.
      injection Heq as Hk Hn. unfold text. now rewrite Hk, Hn.
    + apply set_add_fold_NoDup. constructor.
Qed.

End MonthPickerFacts.

(** X24.  The month picker of the project report on the bookings of the
    example. *)
Lemma project_availableMonths_offers_witness :
  selectedSheetData [Examples.projects] Examples.projects_id
  = Some Examples.projects
  /\ NoDup (project_availableMonths IntNum.is_truthy iso_parse
              [Examples.projects] Examples.projects_id (Some "Date"))
  /\ StronglySorted label_before
       (project_availableMonths IntNum.is_truthy iso_parse
          [Examples.projects] Examples.projects_id (Some "Date")).
Proof.
  split; [reflexivity|].
  destruct (project_availableMonths_offers IntNum.is_truthy iso_parse
              [Examples.projects] Examples.projects_id Examples.projects
              "Date" eq_refl ltac:(discriminate))
    as [_ [Hnd Hsorted]].
  split; [exact Hnd|]. apply Hsorted.
  intros row d Hin Hd. simpl in Hin.
  repeat (destruct Hin as [<-|Hin];
          [vm_compute in Hd; injection Hd as <-; vm_compute;
           split; discriminate|]).
  destruct Hin.
Defined.

(** X25.  The month picker of the purchase-order report on the orders of the
    example. *)
Lemma po_availableMonths_offers_witness :
  selectedSheetData [Examples.orders] Examples.orders_id
  = Some Examples.orders
  /\ NoDup (po_availableMonths IntNum.is_truthy iso_parse
              Examples.compare_gt [Examples.orders] Examples.orders_id
              (Some "Date")).
Proof.
  split; [reflexivity|].
  exact (proj2 (po_availableMonths_offers IntNum.is_truthy iso_parse
                  Examples.compare_gt [Examples.orders] Examples.orders_id
                  Examples.orders "Date" eq_refl ltac:(discriminate))).
Defined.
(* ================================================================== *)
(** ** From the summary of a project to the entries of a month *)
(* ================================================================== *)

Section DrillDownFacts.
Context {num : Type}.
Variable num_add : num -> num -> num.
Variable num_truthy : num -> bool.
Variable Date_parse : string -> option Z.
Implicit Types (sheet : WorksheetData num)
  (excelData : list (WorksheetData num)) (row : Row num)
  (rows : list (Row num)).

Local Abbreviation monthlyData :=
  (monthlyData num_add num_truthy Date_parse).
Local Abbreviation projectData :=
  (projectData num_add num_truthy Date_parse).
Local Abbreviation row_date := (row_date num_truthy Date_parse).
Local Abbreviation project_point :=
  (project_point num_truthy Date_parse).
Local Abbreviation project_availableMonths :=
  (project_availableMonths num_truthy Date_parse).

Lemma month_label_nonempty (y m : Z) : month_label y m <> "".
Proof. unfold month_label. destruct (pad2 m); discriminate. Qed.

(** The label the report gives the key of a month, for years from 0
    on. *)
Lemma month_bucket_label (src : option string) (y m : Z) (sum : num) :
  0 <= y -> 1 <= m <= 12 ->
  month (month_bucket src (month_key y m, sum)) = month_label y m.
Proof.
  intros Hy Hm. unfold month_bucket, month_key.
  rewrite split_month_key by assumption. reflexivity.
Qed.

(** Key and label tell the same months apart. *)
Lemma key_label_agree (d y m : Z) :
  0 <= getFullYear d -> 0 <= y -> 1 <= m <= 12 ->
  String.eqb (monthKeyOf d) (month_key y m)
  = String.eqb (monthYearOf d) (month_label y m).
Proof.
  intros Hd Hy Hm. pose proof (getMonth_range d) as Hr.
  rewrite monthKeyOf_month_key, monthYearOf_month_label.
  destruct (String.eqb (month_key (getFullYear d) (getMonth d + 1))
                       (month_key y m)) eqn:Ek;
    destruct (String.eqb (month_label (getFullYear d) (getMonth d + 1))
                         (month_label y m)) eqn:El; try reflexivity.
  - apply String.eqb_eq in Ek. apply month_key_inj in Ek; try lia.
    destruct Ek as [Ey Em]. rewrite Ey, Em, String.eqb_refl in El.
    discriminate.
  - apply String.eqb_eq in El. apply month_label_inj in El; try lia.
    destruct El as [Ey Em]. rewrite Ey, Em, String.eqb_refl in Ek.
    discriminate.
Qed.

Lemma project_availableMonths_In excelData selectedSheet sheet
    (dc label : string) :
  selectedSheetData excelData selectedSheet = Some sheet ->
  dc <> "" ->
  (In label (project_availableMonths excelData selectedSheet (Some dc))
   <-> exists row d,
         In row (data sheet) /\ row_date row dc = Some d
         /\ monthYearOf d = label).
Proof.
  intros Hsheet Hdc. unfold project_availableMonths.
  rewrite Hsheet, selected_Some by exact Hdc.
  rewrite sort_In. unfold project_month_row.
  rewrite (month_rows_fold num_truthy Date_parse monthYearOf).
  apply month_rows_In.
Qed.

(** The values summed under a key in the summary are the values of the
    entries of the month with the matching label, in row order. *)
Lemma project_values_of_month (pc dc vc proj : string) (y m : Z) rows :
  0 <= y -> 1 <= m <= 12 ->
  (forall row d, In row rows -> row_date row dc = Some d ->
                 0 <= getFullYear d) ->
  values_for (month_key y m)
    (map (fun p => (p_monthKey p, p_value p))
         (collect (project_point pc dc vc proj None) rows))
  = map p_value
        (collect (project_point pc dc vc proj (Some (month_label y m)))
                 rows).
Proof.
  intros Hy Hm. induction rows as [|row rows IH]; intros Hyears;
    [reflexivity|].
  change (row :: rows) with ([row] ++ rows)%list.
  rewrite !collect_app, !map_app. unfold values_for in *.
  rewrite filter_app, map_app.
  rewrite IH by (intros r d Hr; apply Hyears; now right). f_equal.
  unfold collect. cbn [flat_map]. rewrite !app_nil_r.
  unfold project_point.
  destruct (cell row pc) as [s| | | | |]; try reflexivity.
  destruct (row_date row dc) as [d|] eqn:Hd; [|reflexivity].
  destruct (cell row vc) as [|v| | | |]; try reflexivity.
  rewrite (selected_Some _ (month_label_nonempty y m)).
  cbn [selected andb negb interpolate]. rewrite negb_involutive.
  assert (H0 : 0 <= getFullYear d)
    by (apply (Hyears row d); [now left|exact Hd]).
  rewrite <- (key_label_agree d y m H0 Hy Hm).
  destruct (String.eqb s proj); cbn [andb]; [|reflexivity].
  cbn [map filter fst p_monthKey p_value].
  destruct (String.eqb (monthKeyOf d) (month_key y m)); reflexivity.
Qed.

(** X26.  From the summary of a project to the entries of a month, for years
    from 0 on.  The label of every bucket of the summary is offered by the
    month picker; selecting it gives the entries of that month, one per row
    of the project with a readable date in the month and a numeric value;
    and the total of the bucket is the sum of the values of these rows in
    row order. *)
Theorem projectData_drill_down excelData selectedSheet sheet
    (pc dc vc proj : string) (b : MonthlyDataPoint num) :
  selectedSheetData excelData selectedSheet = Some sheet ->
  pc <> "" -> dc <> "" -> vc <> "" -> proj <> "" ->
  (forall row d, In row (data sheet) -> row_date row dc = Some d ->
                 0 <= getFullYear d) ->
  In b (projectData excelData selectedSheet (Some pc) (Some dc) (Some vc)
                    (Some proj) None) ->
  let entries :=
    projectData excelData selectedSheet (Some pc) (Some dc) (Some vc)
                (Some proj) (Some (month b)) in
  let values :=
    map p_value
        (collect (project_point pc dc vc proj (Some (month b)))
                 (data sheet)) in
  In (month b) (project_availableMonths excelData selectedSheet (Some dc))
  /\ Permutation (map total entries) values
  /\ sum_from num_add None values = Some (total b).
Proof.
  intros Hsheet Hpc Hdc Hvc Hproj Hyears Hb entries values.
  set (points := collect (project_point pc dc vc proj None) (data sheet)).
  set (contributions := map (fun p => (p_monthKey p, p_value p)) points).
  (* the bucket is the bucket of a key of the map *)
  assert (Hb' : In b (map (month_bucket None)
                          (aggregate num_add contributions))).
  { unfold projectData in Hb. rewrite Hsheet in Hb.
    rewrite (selectedSheetData_selected _ _ _ Hsheet) in Hb.
    rewrite !selected_Some in Hb by assumption.
    cbn [andb selected negb] in Hb.
    rewrite project_rows_collect, points_aggregate in Hb.
    cbn [app] in Hb. now apply sort_In in Hb. }
  apply in_map_iff in Hb'. destruct Hb' as [[key sum] [Hbucket Hentry]].
  assert (Hsum : sum_for num_add key contributions = Some sum).
  { rewrite <- aggregate_get.
    now apply (map_get_In _ _ _ (aggregate_NoDup num_add contributions)). }
  (* the key is the key of the month of a row of the project *)
  assert (Hkey : In key (map fst contributions)).
  { apply (aggregate_keys num_add contributions key).
    now apply (in_map fst) in Hentry. }
  unfold contributions in Hkey. rewrite map_map in Hkey.
  apply in_map_iff in Hkey. destruct Hkey as [p [Hp Hin]].
  cbn [fst] in Hp. apply collect_In in Hin.
  destruct Hin as [row [Hrow Hpoint]].
  assert (Hd : exists d, row_date row dc = Some d /\ key = monthKeyOf d).
  { unfold project_point in Hpoint.
    destruct (cell row pc); try discriminate.
    destruct (row_date row dc) as [d|]; [|discriminate].
    destruct (cell row vc); try discriminate.
    destruct (_ && _); [|discriminate].
    injection Hpoint as <-. exists d. split; [reflexivity|].
    now rewrite <- Hp. }
  destruct Hd as [d [Hd ->]].
  pose proof (Hyears row d Hrow Hd) as Hy.
  pose proof (getMonth_range d) as Hm.
  assert (Hlabel : month b = monthYearOf d).
  { rewrite <- Hbucket, monthKeyOf_month_key, monthYearOf_month_label.
    apply month_bucket_label; lia. }
  assert (Hlabel' : month b = month_label (getFullYear d) (getMonth d + 1))
    by exact Hlabel.
  assert (Hne : month b <> "")
    by (rewrite Hlabel'; apply month_label_nonempty).
  split; [|split].
  - apply (project_availableMonths_In _ _ sheet); try assumption.
    now exists row, d.
  - unfold entries, projectData. rewrite Hsheet.
    rewrite (selectedSheetData_selected _ _ _ Hsheet).
    rewrite !selected_Some by assumption. cbn [andb negb].
    rewrite project_rows_collect. cbn [app].
    rewrite (Permutation_map total (sort_Permutation _ _)).
    rewrite map_map. reflexivity.
  - assert (Htotal : total b = sum) by now rewrite <- Hbucket.
    rewrite Htotal, <- Hsum. unfold sum_for. f_equal.
    unfold values. rewrite Hlabel'. symmetry.
    rewrite monthKeyOf_month_key.
    apply project_values_of_month; try lia. exact Hyears.
Qed.

(** X27.  For years from 0 on the table takes the buckets of a monthly
    report for month summaries: no two of them have the same label. *)
Theorem monthlyData_not_detail_view excelData selectedSheet sheet
    (dc vc : string) :
  selectedSheetData excelData selectedSheet = Some sheet ->
  (forall row d,
     In row (data sheet) -> row_date row dc = Some d ->
     0 <= getFullYear d) ->
  isDetailView (monthlyData excelData selectedSheet (Some dc) (Some vc))
  = false.
Proof.
  intros Hs Hyears. apply isDetailView_NoDup.
  unfold monthlyData. rewrite Hs.
  match goal with |- context [if ?c then _ else _] => destruct c end;
    [|constructor].
  rewrite monthly_rows_aggregate.
  set (contributions := collect _ (data sheet)).
  eapply Permutation_NoDup.
  { symmetry. apply Permutation_map, sort_Permutation. }
  assert (Hkeys : forall key,
             In key (map fst (aggregate num_add contributions)) ->
             exists y m, 0 <= y /\ 1 <= m <= 12 /\ key = month_key y m).
  { intros key Hin. apply aggregate_keys in Hin.
    apply in_map_iff in Hin. destruct Hin as [[k v] [<- Hin]].
    apply collect_In in Hin. destruct Hin as [row [Hrow Hc]].
    apply monthly_contribution_iff in Hc.
    destruct Hc as [d [Hd [_ ->]]].
    exists (getFullYear d), (getMonth d + 1).
    pose proof (getMonth_range d).
    pose proof (Hyears row d Hrow Hd).
    repeat split; lia. }
  pose proof (aggregate_NoDup num_add contributions) as Hnd.
  unfold map_entries.
  change (aggregate_into num_add [] contributions)
    with (aggregate num_add contributions).
  set (entries := aggregate num_add contributions) in *.
  clearbody entries.
  induction entries as [|[key sum] l IH]; [constructor|].
  cbn [map] in *. apply NoDup_cons_iff in Hnd. destruct Hnd as [Hnew Hnd].
  constructor; [|apply IH; [|exact Hnd]].
  - destruct (Hkeys key (or_introl eq_refl)) as (y & m & Hy & Hm & ->).
    rewrite month_bucket_label by assumption.
    intros Hin. rewrite map_map in Hin. apply in_map_iff in Hin.
    destruct Hin as [[key' sum'] [Heq Hin]].
    destruct (Hkeys key' (or_intror (in_map fst _ _ Hin)))
      as (y' & m' & Hy' & Hm' & ->).
    rewrite month_bucket_label in Heq by assumption.
    apply month_label_inj in Heq; try assumption.
    destruct Heq as [-> ->]. apply Hnew.
    now apply (in_map fst) in Hin.
  - intros k Hk. apply Hkeys. now right.
Qed.

End DrillDownFacts.

(** X26.  The bucket of January 2024 in the summary of project Alpha. *)
Lemma projectData_drill_down_witness :
  In (bucket_of_month None 2024 1 150)
     (IntNum.projectData [Examples.projects] Examples.projects_id
        (Some "Project") (Some "Date") (Some "Amount") (Some "Alpha") None)
  /\ In "01/2024"
        (project_availableMonths IntNum.is_truthy iso_parse
           [Examples.projects] Examples.projects_id (Some "Date"))
  /\ sum_from IntNum.add None
       (map p_value
            (collect (project_point IntNum.is_truthy iso_parse
                        "Project" "Date" "Amount" "Alpha" (Some "01/2024"))
                     (data Examples.projects)))
     = Some 150.
Proof.
  assert (Hb : In (bucket_of_month None 2024 1 150)
                  (IntNum.projectData [Examples.projects]
                     Examples.projects_id (Some "Project") (Some "Date")
                     (Some "Amount") (Some "Alpha") None))
    by (vm_compute; left; reflexivity).
  split; [exact Hb|].
  destruct (projectData_drill_down IntNum.add IntNum.is_truthy iso_parse
              [Examples.projects] Examples.projects_id Examples.projects
              "Project" "Date" "Amount" "Alpha"
              (bucket_of_month None 2024 1 150) eq_refl
              ltac:(discriminate) ltac:(discriminate) ltac:(discriminate)
              ltac:(discriminate)
              ltac:(intros row d Hin Hd; simpl in Hin;
                    repeat (destruct Hin as [<-|Hin];
                            [vm_compute in Hd; injection Hd as <-;
                             vm_compute; discriminate|]);
                    destruct Hin)
              Hb)
    as [H1 [_ H3]].
  split; [exact H1|exact H3].
Defined.

(** X27.  The monthly report on the sales of the example. *)
Lemma monthlyData_not_detail_view_witness :
  selectedSheetData [Examples.sales] Examples.sales_id
  = Some Examples.sales
  /\ isDetailView
       (IntNum.monthlyData [Examples.sales] Examples.sales_id
          (Some "Date") (Some "Amount"))
     = false.
Proof.
  split; [reflexivity|].
  exact (monthlyData_not_detail_view IntNum.add IntNum.is_truthy iso_parse
           [Examples.sales] Examples.sales_id Examples.sales
           "Date" "Amount" eq_refl
           ltac:(intros row d Hin Hd; simpl in Hin;
                 repeat (destruct Hin as [<-|Hin];
                         [vm_compute in Hd; injection Hd as <-;
                          vm_compute; discriminate|]);
                 destruct Hin)).
Defined.
(* ================================================================== *)
(** ** The selectors, the classification on loaded pages, the grand
       total *)
(* ================================================================== *)

Section SelectorFacts.
Context {num : Type}.
Implicit Types (sheet : WorksheetData num)
  (excelData : list (WorksheetData num)).

Lemma bool_eq_iff (a b : bool) : (a = true <-> b = true) -> a = b.
Proof. destruct a, b; intuition congruence. Qed.

(** X28.  The worksheets the three selectors offer.  The purchase-order
    report offers exactly the worksheets the monthly report offers, in the
    same order: its test for an identifier column is met by the numeric
    column the other tests ask for.  The project report offers some of them,
    in the same order. *)
Theorem eligibleSheets_compared excelData :
  po_eligibleSheets excelData = monthly_eligibleSheets excelData
  /\ project_eligibleSheets excelData
     = filter project_eligible (monthly_eligibleSheets excelData).
Proof.
  unfold po_eligibleSheets, monthly_eligibleSheets, project_eligibleSheets.
  split.
  - apply filter_ext. intros sheet. apply bool_eq_iff.
    rewrite po_eligible_iff, monthly_eligible_iff. split; [tauto|].
    intros [Hd Hn]. split; [|tauto].
    destruct Hn as (row0 & rest & h & Hdata & Hh & Hnum).
    exists row0, rest, h. repeat split; try assumption.
    unfold string_or_number. now rewrite Hnum, orb_true_r.
  - induction excelData as [|sheet l IH]; [reflexivity|]. simpl.
    destruct (project_eligible sheet) eqn:Hp.
    + assert (Hm : monthly_eligible sheet = true).
      { apply monthly_eligible_iff. apply project_eligible_iff in Hp.
        tauto. }
      rewrite Hm. simpl. rewrite Hp. now rewrite IH.
    + destruct (monthly_eligible sheet); simpl; [rewrite Hp|]; exact IH.
Qed.

End SelectorFacts.

Section LoadedPageFacts.
Context {num : Type}.
Variable num_toString : num -> string.
Variable Date_parse : string -> option Z.
Variable Date_toString : Z -> string.
Implicit Types (st : PageState num).

(** X29.  On every page the user can bring about, also by acting between
    the files of one upload, the classification of the purchase-order
    report returns, whatever is selected: the worksheet it reads has a
    first row. *)
Theorem po_columns_defined_when_loaded st (selectedSheet : option string) :
  reachable num_toString Date_toString st ->
  exists columns,
    po_columns Date_parse (excelData st) selectedSheet = Some columns.
Proof.
  intros Hst. apply reachable_consistent in Hst.
  destruct Hst as [_ Hshape]. unfold po_columns.
  destruct (selectedSheetData (excelData st) selectedSheet) as [sheet|]
    eqn:Hsheet; [|now exists no_columns].
  apply selectedSheetData_In in Hsheet. destruct Hsheet as [Hin _].
  rewrite Forall_forall in Hshape. destruct (Hshape sheet Hin) as [Hrows _].
  destruct (data sheet) as [|row0 rest] eqn:Hdata; [simpl in Hrows; lia|].
  rewrite (po_classify_fold Date_parse sheet row0 rest _ _ Hdata).
  eexists. reflexivity.
Qed.

End LoadedPageFacts.

Section ExactSums.
Context {num : Type}.
Variable num_zero : num.
Variable num_add : num -> num -> num.
Hypothesis exact : exact_addition num_add.

Lemma fold_add_last (vs : list num) (x v : num) :
  fold_left num_add vs (num_add x v) = num_add (fold_left num_add vs x) v.
Proof.
  destruct exact as [add_assoc add_comm].
  revert x. induction vs as [|w vs IH]; intros x; [reflexivity|].
  simpl. rewrite <- IH. f_equal.
  now rewrite !add_assoc, (add_comm v w).
Qed.

Lemma fold_add_Permutation (vs vs' : list num) :
  Permutation vs vs' ->
  forall x, fold_left num_add vs x = fold_left num_add vs' x.
Proof.
  destruct exact as [add_assoc add_comm].
  induction 1 as [|v l l' _ IH|v w l|l l' l'' _ IH1 _ IH2]; intros x.
  - reflexivity.
  - simpl. apply IH.
  - simpl. f_equal. now rewrite !add_assoc, (add_comm w v).
  - now rewrite IH1.
Qed.

Lemma fold_add_map_set (m : JsMap num) (k : string) (old v x : num) :
  map_get m k = Some old ->
  fold_left num_add (map snd (map_set m k (num_add old v))) x
  = num_add (fold_left num_add (map snd m) x) v.
Proof.
  destruct exact as [add_assoc add_comm].
  revert x. induction m as [|[k' v'] m IH]; intros x; [discriminate|].
  simpl. destruct (String.eqb k' k).
  - intros [= ->]. simpl. rewrite <- fold_add_last. f_equal.
    now rewrite add_assoc.
  - intros H. simpl. now apply IH.
Qed.

Lemma fold_add_accumulate (m : JsMap num) (k : string) (v x : num) :
  fold_left num_add (map snd (accumulate num_add m k v)) x
  = num_add (fold_left num_add (map snd m) x) v.
Proof.
  unfold accumulate. destruct (map_get m k) as [old|] eqn:E.
  - now apply fold_add_map_set.
  - assert (H : map_set m k v = (m ++ [(k, v)])%list).
    { clear -E. induction m as [|[k' v'] m IH]; [reflexivity|].
      simpl in *. destruct (String.eqb k' k); [discriminate|].
      now rewrite IH. }
    rewrite H, map_app, fold_left_app. reflexivity.
Qed.

Lemma fold_add_aggregate (l : list (string * num)) (m : JsMap num)
    (x : num) :
  fold_left num_add (map snd (aggregate_into num_add m l)) x
  = fold_left num_add (map snd l) (fold_left num_add (map snd m) x).
Proof.
  revert m. induction l as [|[k v] l IH]; intros m; [reflexivity|].
  unfold aggregate_into in *. simpl. rewrite IH.
  now rewrite fold_add_accumulate.
Qed.

Lemma totalSum_map (data : list (MonthlyDataPoint num)) :
  totalSum num_zero num_add data = sum_of num_zero num_add (map total data).
Proof.
  unfold totalSum, sum_of. generalize num_zero.
  induction data as [|b data IH]; intros x; [reflexivity|].
  simpl. apply IH.
Qed.

End ExactSums.

Lemma exact_addition_Z : exact_addition Z.add.
Proof. split; intros; lia. Qed.

Lemma magnitude_aggregate_into (l m : list (string * Z)) :
  magnitude (map snd (aggregate_into Z.add m l))
  <= magnitude (map snd m) + magnitude (map snd l).
Proof.
  revert m. induction l as [|[k v] l IH]; intros m; simpl.
  - unfold aggregate_into. simpl. lia.
  - unfold aggregate_into in *. simpl. specialize (IH (accumulate Z.add m k v)).
    pose proof (magnitude_accumulate m k v). lia.
Qed.

Section TotalFacts.
Context {num : Type}.
Variable num_zero : num.
Variable num_add : num -> num -> num.
Variable num_sub : num -> num -> num.
Variable num_gt0 : num -> bool.
Variable num_truthy : num -> bool.
Variable num_toString : num -> string.
Variable Date_parse : string -> option Z.
Variable Date_toString : Z -> string.
Variable repr : Z -> num.
Variable bound : Z.
Hypothesis exact : exact_on num_add repr bound.
Hypothesis zero : num_zero = repr 0.

Local Abbreviation sum_of := (sum_of num_zero num_add).
Local Abbreviation totalSum := (totalSum num_zero num_add).

(** The sum of whole units within the bound is the number of their
    sum. *)
Lemma fold_add_units (zs : list Z) (a : Z) :
  Z.abs a + magnitude zs <= bound ->
  fold_left num_add (map repr zs) (repr a) = repr (fold_left Z.add zs a).
Proof.
  revert a. induction zs as [|z zs IH]; intros a Hb; [reflexivity|].
  simpl in *. pose proof (magnitude_nonneg zs).
  rewrite exact by lia. apply IH. lia.
Qed.

Lemma sum_of_units (zs : list Z) :
  magnitude zs <= bound ->
  sum_of (map repr zs) = repr (fold_left Z.add zs 0).
Proof.
  intros Hb. unfold sum_of. rewrite zero. apply fold_add_units.
  simpl. lia.
Qed.

(** The sum of the totals of the buckets, in whatever order they come,
    is the sum of the contributions. *)
Lemma sum_of_buckets (l : list (string * num)) (totals : list num) :
  whole_amounts repr bound (map snd l) ->
  Permutation (map snd (aggregate num_add l)) totals ->
  sum_of totals = sum_of (map snd l).
Proof.
  intros Hwhole Hperm.
  destruct (whole_entries repr bound l Hwhole) as [units [-> Hb]].
  rewrite (aggregate_in_units num_add repr bound exact units Hb) in Hperm.
  assert (Hsnd : forall es : list (string * Z),
             map snd (map (in_units repr) es) = map repr (map snd es)).
  { intros es. rewrite !map_map. reflexivity. }
  rewrite Hsnd in *. symmetry in Hperm.
  apply Permutation_map_inv in Hperm.
  destruct Hperm as [zs [-> Hperm]].
  pose proof (magnitude_aggregate_into units []) as Hm.
  change (aggregate_into Z.add [] units) with (aggregate Z.add units) in Hm.
  simpl in Hm.
  rewrite !sum_of_units;
    [|exact Hb
     |rewrite <- (magnitude_Permutation _ _ Hperm); lia].
  f_equal.
  rewrite <- (fold_add_Permutation Z.add exact_addition_Z _ _ Hperm).
  unfold aggregate. now rewrite (fold_add_aggregate Z.add exact_addition_Z).
Qed.

(** X30.  When the numbers of the value column are whole units and the
    addition of the runtime is exact on whole units up to a bound that
    their absolute values together do not exceed, the grand total of the
    report table is the sum of the values of the rows the report counts:
    nothing is lost and nothing is counted twice when the rows are filed
    under months or under order identifiers and the buckets are sorted. *)
Theorem totalSum_of_reports (now : Z)
    (excelData : list (WorksheetData num)) selectedSheet
    (sheet : WorksheetData num) (pc dc vc sm : string) :
  selectedSheetData excelData selectedSheet = Some sheet ->
  pc <> "" -> dc <> "" -> vc <> "" -> sm <> "" ->
  whole_amounts repr bound (amounts vc (data sheet)) ->
  totalSum (monthlyData num_add num_truthy Date_parse excelData
                        selectedSheet (Some dc) (Some vc))
  = sum_of (map snd (collect (monthly_contribution num_truthy Date_parse
                                                   dc vc)
                             (data sheet)))
  /\ totalSum (poData num_add num_sub num_gt0 num_truthy num_toString
                      Date_parse Date_toString now excelData selectedSheet
                      (Some pc) (Some dc) (Some vc) (Some sm))
     = sum_of (map snd (collect (po_contribution num_truthy num_toString
                                   Date_parse Date_toString pc dc vc
                                   (po_startDate sm) (po_endDate sm))
                                (data sheet))).
Proof.
  intros Hsheet Hpc Hdc Hvc Hsm Hwhole. split.
  - rewrite (monthlyData_selected _ _ _ _ _ _ dc vc Hsheet Hdc Hvc).
    rewrite totalSum_map. apply sum_of_buckets.
    + apply (whole_collect repr bound vc);
        [apply monthly_contribution_number|exact Hwhole].
    + rewrite (Permutation_map total (sort_Permutation _ _)).
      rewrite map_map. apply Permutation_refl'. apply map_ext.
      now intros [k v].
  - rewrite (poData_selected _ _ _ _ _ _ _ now _ _ _ pc dc vc sm
               Hsheet Hpc Hdc Hvc Hsm).
    rewrite totalSum_map. apply sum_of_buckets.
    + apply (whole_collect repr bound vc);
        [apply po_contribution_number|exact Hwhole].
    + rewrite (Permutation_map total (sort_Permutation _ _)).
      set (entries := aggregate num_add _).
      rewrite <- (map_id_total_mapi_from now entries 0) at 1.
      unfold mapi. rewrite map_map. reflexivity.
Qed.

End TotalFacts.

(** X29.  The classification of the purchase-order report at the end of
    the session of the examples. *)
Lemma po_columns_defined_when_loaded_witness :
  reachable Z_toString DateText.Date_toString Examples.c_loaded
  /\ exists columns,
       po_columns iso_parse (excelData Examples.c_loaded)
                  (Some "c.xlsx-C")
       = Some columns.
Proof.
  split; [exact (proj2 (proj2 session_reachable))|].
  exact (po_columns_defined_when_loaded Z_toString iso_parse
           DateText.Date_toString Examples.c_loaded
           (Some "c.xlsx-C") (proj2 (proj2 session_reachable))).
Defined.

(** X30.  The grand total of the monthly report on the three amounts in
    whole cents, in binary64.  The monthly report prints no number, so
    the text of a number is immaterial here. *)
Lemma totalSum_of_reports_witness :
  exact_on F64.add F64.repr 100
  /\ PrimFloat.zero = F64.repr 0
  /\ whole_amounts F64.repr 100
       (amounts "Amount" (data Examples.ledger_cents))
  /\ totalSum PrimFloat.zero F64.add
       (F64.monthlyData [Examples.ledger_cents] Examples.ledger_id
          (Some "Date") (Some "Amount"))
     = F64.repr 60.
Proof.
  assert (Hwhole : whole_amounts F64.repr 100
                     (amounts "Amount" (data Examples.ledger_cents))).
  { exists [10; 20; 30]. split; [reflexivity|vm_compute; discriminate]. }
  split; [exact binary64_exact_100|]. split; [reflexivity|].
  split; [exact Hwhole|].
  exact (eq_trans
           (proj1 (totalSum_of_reports PrimFloat.zero F64.add F64.sub
                     F64.gt0 F64.is_truthy (fun _ => "") iso_parse
                     DateText.Date_toString F64.repr 100
                     binary64_exact_100 eq_refl 0
                     [Examples.ledger_cents] Examples.ledger_id
                     Examples.ledger_cents
                     "PO Number" "Date" "Amount" "2024-01" eq_refl
                     ltac:(discriminate) ltac:(discriminate)
                     ltac:(discriminate) ltac:(discriminate) Hwhole))
           eq_refl).
Defined.
